(** * validation-server: the document-analysis pipeline of [app.py]

    A shallow embedding of the house-analysis endpoint of [app.py]
    ([analyze_house] and the functions it calls) and the properties of the
    specification that are about it.

    - Python [str] values are lists of Unicode code points ([pystr]).
    - [re.search] is embedded as a small backtracking matcher over the
      fragment of regular expressions the two patterns of
      [parse_openai_response] use.
    - [json.loads] is embedded as a recursive-descent parser that follows
      the decoder of the Python standard library: a [float] is the binary64
      nearest to the literal, an [int] literal is limited in its number of
      digits, and the nesting of containers is limited by the room the
      interpreter has left for recursion.
    - The calls that leave the process (the OpenAI asset store, the
      inference call, pdf2image, PIL) are fields of an environment record
      [Env]; the handler runs in a state-and-exception monad over the state
      of the outside world and a log of the calls made.
    - An inference call may take any number of seconds or never finish;
      the monad gives the value the handler computes, and [returns_after]
      and [served] tell when the [with ThreadPoolExecutor] block lets it
      through. *)

From Stdlib Require Import Ascii String DecimalString.
From Stdlib Require Import List Bool Arith NArith ZArith Lia.
From Stdlib Require Import SpecFloat.
Import ListNotations.

Local Open Scope N_scope.

(** ** Python strings *)

(** A Python [str]: the sequence of its code points. *)
Definition pystr := list N.

Definition bytes := list Byte.byte.

Fixpoint bytes_of_string (s : string) : list N :=
  match s with
  | EmptyString => []
  | String c r => N_of_ascii c :: bytes_of_string r
  end.

(** Source literals of this file are UTF-8; [utf8_decode] turns the bytes
    of a literal into code points. *)
Fixpoint utf8_decode (l : list N) : pystr :=
  match l with
  | [] => []
  | b0 :: r0 =>
    if b0 <? 128 then b0 :: utf8_decode r0 else
    match r0 with
    | [] => []
    | b1 :: r1 =>
      if b0 <? 224 then ((b0 - 192) * 64 + (b1 - 128)) :: utf8_decode r1 else
      match r1 with
      | [] => []
      | b2 :: r2 =>
        if b0 <? 240
        then ((b0 - 224) * 4096 + (b1 - 128) * 64 + (b2 - 128)) :: utf8_decode r2
        else
        match r2 with
        | [] => []
        | b3 :: r3 =>
          ((b0 - 240) * 262144 + (b1 - 128) * 4096 + (b2 - 128) * 64 + (b3 - 128))
            :: utf8_decode r3
        end
      end
    end
  end.

(** The Python string written as the literal [s]. *)
Definition str (s : string) : pystr := utf8_decode (bytes_of_string s).

Definition QUOTE : N := 34.
Definition APOSTROPHE : N := 39.
Definition BACKSLASH : N := 92.
Definition LBRACE : N := 123.
Definition RBRACE : N := 125.

(** [dq s] is the literal [s] with every apostrophe read as a double quote:
    it is how texts that contain double quotes are written down here. *)
Definition dq (s : string) : pystr :=
  map (fun c => if c =? APOSTROPHE then QUOTE else c) (str s).

Definition pystr_eqb (a b : pystr) : bool :=
  if list_eq_dec N.eq_dec a b then true else false.

Fixpoint startswith (s p : pystr) {struct p} : bool :=
  match p, s with
  | [], _ => true
  | c :: p', d :: s' => (c =? d) && startswith s' p'
  | _ :: _, [] => false
  end.

(** [s.endswith(p)] *)
Definition endswith (s p : pystr) : bool := startswith (rev s) (rev p).

(** [p in s] for two strings: [p] occurs in [s]. *)
Fixpoint str_contains (s p : pystr) : bool :=
  startswith s p ||
  match s with
  | [] => false
  | _ :: s' => str_contains s' p
  end.

(** [str.isspace] of one code point (Py_UNICODE_ISSPACE), which is also what
    [\s] matches in a [str] pattern and what [str.strip()] removes. *)
Definition isspace (c : N) : bool :=
  ((9 <=? c) && (c <=? 13)) || ((28 <=? c) && (c <=? 32)) ||
  (c =? 133) || (c =? 160) || (c =? 5760) ||
  ((8192 <=? c) && (c <=? 8202)) || (c =? 8232) || (c =? 8233) ||
  (c =? 8239) || (c =? 8287) || (c =? 12288).

Fixpoint lstrip (s : pystr) : pystr :=
  match s with
  | c :: s' => if isspace c then lstrip s' else s
  | [] => []
  end.

(** [s.strip()] *)
Definition strip (s : pystr) : pystr := rev (lstrip (rev (lstrip s))).

(** [str.lower] of one code point.  The ASCII letters, and the only two
    other code points whose lower case contains an ASCII letter (U+212A
    KELVIN SIGN and U+0130); the lower case of every other code point
    contains no ASCII character, so it is left as it is: the code only
    compares lowered strings with ASCII literals. *)
Definition lower_char (c : N) : pystr :=
  if (65 <=? c) && (c <=? 90) then [c + 32]
  else if c =? 8490 then [107]
  else if c =? 304 then [105; 775]
  else [c].

(** [s.lower()] *)
Definition lower (s : pystr) : pystr := flat_map lower_char s.

(** [str(n)] for a natural number. *)
Definition str_of_nat (n : nat) : pystr :=
  bytes_of_string (NilZero.string_of_uint (Nat.to_uint n)).

(** ** Regular expressions: the fragment used by [parse_openai_response] *)

Inductive cclass : Type :=
| CLit (c : N)              (* one literal character *)
| CSpace                    (* \s *)
| CAny                      (* . under re.DOTALL *)
| CNotIn (l : list N).      (* [^...] *)

Definition cmatch (cl : cclass) (c : N) : bool :=
  match cl with
  | CLit d => c =? d
  | CSpace => isspace c
  | CAny => true
  | CNotIn l => negb (existsb (N.eqb c) l)
  end.

Inductive regex : Type :=
| RLit (s : pystr)                  (* a literal text *)
| RChar (cl : cclass)               (* one character of a class *)
| RStar (cl : cclass)               (* cl*  (greedy) *)
| RStarLazy (cl : cclass)           (* cl*? (lazy) *)
| RSeq (r1 r2 : regex)
| RGroup (r : regex).               (* ( r ), capturing group 1 *)

Section Matcher.
Variable R : Type.

(** Greedy star: as many characters as possible first, giving one back at
    a time while the continuation fails. *)
Fixpoint star_greedy (cl : cclass) (s : pystr) (k : pystr -> option R) : option R :=
  match s with
  | c :: s' =>
    if cmatch cl c then
      match star_greedy cl s' k with
      | Some r => Some r
      | None => k s
      end
    else k s
  | [] => k []
  end.

(** Lazy star: as few characters as possible first. *)
Fixpoint star_lazy (cl : cclass) (s : pystr) (k : pystr -> option R) : option R :=
  match k s with
  | Some r => Some r
  | None =>
    match s with
    | c :: s' => if cmatch cl c then star_lazy cl s' k else None
    | [] => None
    end
  end.

(** [run r s g k]: match [r] at the start of [s]; [g] is the text captured
    so far; [k] is what remains to be matched. *)
Fixpoint run (r : regex) (s : pystr) (g : option pystr)
         (k : pystr -> option pystr -> option R) : option R :=
  match r with
  | RLit p => if startswith s p then k (skipn (length p) s) g else None
  | RChar cl =>
    match s with
    | c :: s' => if cmatch cl c then k s' g else None
    | [] => None
    end
  | RStar cl => star_greedy cl s (fun s' => k s' g)
  | RStarLazy cl => star_lazy cl s (fun s' => k s' g)
  | RSeq r1 r2 => run r1 s g (fun s' g' => run r2 s' g' k)
  | RGroup r1 =>
    run r1 s g (fun s' _ => k s' (Some (firstn (length s - length s') s)))
  end.
End Matcher.
Arguments star_greedy {R} cl s k.
Arguments star_lazy {R} cl s k.
Arguments run {R} r s g k.

(** A match object: [group(0)] and [group(1)]. *)
Record re_match : Type := { group0 : pystr; group1 : option pystr }.

Definition match_at (r : regex) (s : pystr) : option (pystr * option pystr) :=
  run r s None (fun rest g => Some (rest, g)).

(** [re.search(r, s, re.DOTALL)]: the match at the leftmost position that has
    one. *)
Fixpoint re_search (r : regex) (s : pystr) : option re_match :=
  match match_at r s with
  | Some (rest, g) =>
    Some {| group0 := firstn (length s - length rest) s; group1 := g |}
  | None =>
    match s with
    | [] => None
    | _ :: s' => re_search r s'
    end
  end.

(** [r'```json\s*(\{.*?\})\s*```'] *)
Definition fenced_pattern : regex :=
  RSeq (RLit (str "```json"))
  (RSeq (RStar CSpace)
  (RSeq (RGroup (RSeq (RChar (CLit LBRACE))
                (RSeq (RStarLazy CAny) (RChar (CLit RBRACE)))))
  (RSeq (RStar CSpace)
        (RLit (str "```"))))).

(** The text ["excessive_loan"], with its double quotes. *)
Definition KEY : pystr := dq "'excessive_loan'".

(** [r'\{[^{}]*"excessive_loan"[^{}]*\}'] *)
Definition inline_pattern : regex :=
  RSeq (RChar (CLit LBRACE))
  (RSeq (RStar (CNotIn [LBRACE; RBRACE]))
  (RSeq (RLit KEY)
  (RSeq (RStar (CNotIn [LBRACE; RBRACE]))
        (RChar (CLit RBRACE))))).

(** ** JSON values and [json.loads] *)

(** A Python [float] is an IEEE 754 binary64: a zero, an infinity, a NaN, or
    [m * 2 ^ e] with a sign. *)
Definition pyfloat : Type := spec_float.

Definition PREC : Z := 53.
Definition EMAX : Z := 1024.

(** [float(s)] for a decimal literal of sign [neg], digits [m] and
    exponent [e]: the binary64 nearest to [m * 10 ^ e], ties to even, as
    the decoder computes it ([PyFloat_FromString]).  For [e < 0] the
    quotient [m * 2 ^ s / 10 ^ -e] is taken with 55 bits or more, and the
    remainder tells how the discarded part compares with one half.
    [ndigits] is the number of digits of [m]: a value of [10 ^ 400] or more
    is infinite and one below [10 ^ -400] is zero, which spares the
    powers of ten that decide nothing. *)
Definition float_of_decimal (neg : bool) (ndigits : nat) (m e : Z) : pyfloat :=
  match m with
  | Zpos _ =>
    if (400 <? e)%Z then S754_infinity neg
    else if (Z.of_nat ndigits + e <? -400)%Z then S754_zero neg
    else if (0 <=? e)%Z then
      binary_normalize PREC EMAX (if neg then - (m * 10 ^ e) else m * 10 ^ e)%Z 0 false
    else
      let d := (10 ^ (- e))%Z in
      let s := Z.max 0 (55 + Z.log2 d - Z.log2 m) in
      let n := (m * 2 ^ s)%Z in
      let r := (n mod d)%Z in
      binary_round_aux PREC EMAX neg (n / d)%Z (- s)%Z
        (if (r =? 0)%Z then loc_Exact else loc_Inexact (2 * r ?= d)%Z)
  | _ => S754_zero neg
  end.

(** [x == 0] and [x == 1] for a float. *)
Definition float_is_zero (f : pyfloat) : bool :=
  match f with
  | S754_zero _ => true
  | _ => false
  end.

Definition float_is_one (f : pyfloat) : bool :=
  match f with
  | S754_finite false m e => ((e <=? 0) && (Zpos m =? 2 ^ (- e)))%Z
  | _ => false
  end.

(** The Python values [json.loads] builds.  A [dict] keeps its keys in
    insertion order and holds each key once. *)
#[warnings="-register-all"]
Inductive json : Type :=
| JNull                                   (* None *)
| JBool (b : bool)
| JInt (z : Z)
| JFloat (f : pyfloat)
| JStr (s : pystr)
| JArr (l : list json)
| JObj (d : list (pystr * json)).

Definition dict := list (pystr * json).

(** [k in d] and [d[k]] *)
Fixpoint dict_get (d : dict) (k : pystr) : option json :=
  match d with
  | [] => None
  | (k', v) :: r => if pystr_eqb k k' then Some v else dict_get r k
  end.

(** [d[k] = v] *)
Fixpoint dict_set (d : dict) (k : pystr) (v : json) : dict :=
  match d with
  | [] => [(k, v)]
  | (k', v') :: r =>
    if pystr_eqb k k' then (k, v) :: r else (k', v') :: dict_set r k v
  end.

Definition is_json_ws (c : N) : bool :=
  (c =? 32) || (c =? 9) || (c =? 10) || (c =? 13).

Fixpoint skip_ws (s : pystr) : pystr :=
  match s with
  | c :: s' => if is_json_ws c then skip_ws s' else s
  | [] => []
  end.

Definition is_digit (c : N) : bool := (48 <=? c) && (c <=? 57).

Fixpoint take_digits (s : pystr) : pystr * pystr :=
  match s with
  | c :: s' =>
    if is_digit c then let (ds, r) := take_digits s' in (c :: ds, r) else ([], s)
  | [] => ([], [])
  end.

Definition digits_value (ds : pystr) : Z :=
  fold_left (fun acc c => (acc * 10 + Z.of_N (c - 48))%Z) ds 0%Z.

Definition hex_value (c : N) : option N :=
  if is_digit c then Some (c - 48)
  else if (97 <=? c) && (c <=? 102) then Some (c - 87)
  else if (65 <=? c) && (c <=? 70) then Some (c - 55)
  else None.

(** The four hexadecimal digits of a [\uXXXX] escape. *)
Definition hex4 (s : pystr) : option (N * pystr) :=
  match s with
  | a :: b :: c :: d :: r =>
    match hex_value a, hex_value b, hex_value c, hex_value d with
    | Some x, Some y, Some z, Some w => Some (((x * 16 + y) * 16 + z) * 16 + w, r)
    | _, _, _, _ => None
    end
  | _ => None
  end.

Definition simple_escape (c : N) : option N :=
  if c =? QUOTE then Some QUOTE
  else if c =? BACKSLASH then Some BACKSLASH
  else if c =? 47 then Some 47      (* / *)
  else if c =? 98 then Some 8       (* b *)
  else if c =? 102 then Some 12     (* f *)
  else if c =? 110 then Some 10     (* n *)
  else if c =? 114 then Some 13     (* r *)
  else if c =? 116 then Some 9      (* t *)
  else None.

Definition is_high_surrogate (c : N) : bool := (55296 <=? c) && (c <=? 56319).
Definition is_low_surrogate (c : N) : bool := (56320 <=? c) && (c <=? 57343).

(** [scanstring]: the text after an opening quote, up to the closing one
    (strict mode: no raw control character). *)
Fixpoint scanstring (fuel : nat) (s : pystr) (acc : pystr) : option (pystr * pystr) :=
  match fuel with
  | O => None
  | S n =>
    match s with
    | [] => None                                   (* unterminated string *)
    | c :: s' =>
      if c =? QUOTE then Some (rev acc, s')
      else if c =? BACKSLASH then
        match s' with
        | [] => None
        | e :: s'' =>
          if e =? 117 (* u *) then
            match hex4 s'' with
            | None => None
            | Some (u, r) =>
              if is_high_surrogate u then
                match r with
                | b1 :: b2 :: r2 =>
                  if (b1 =? BACKSLASH) && (b2 =? 117) &&
                     (6 <? List.length r)%nat then
                    match hex4 r2 with
                    | None => None
                    | Some (u2, r3) =>
                      if is_low_surrogate u2
                      then scanstring n r3
                             (65536 + (u - 55296) * 1024 + (u2 - 56320) :: acc)
                      else scanstring n r (u :: acc)
                    end
                  else scanstring n r (u :: acc)
                | _ => scanstring n r (u :: acc)
                end
              else scanstring n r (u :: acc)
            end
          else
            match simple_escape e with
            | Some x => scanstring n s'' (x :: acc)
            | None => None
            end
        end
      else if c <=? 31 then None                   (* control character *)
      else scanstring n s' (c :: acc)
    end
  end.

(** The number of digits [int(s)] accepts
    ([sys.int_info.default_max_str_digits]); a longer literal raises
    [ValueError]. *)
Definition MAX_STR_DIGITS : nat := 4300.

(** [_match_number]: an optional minus sign, then [0] or a digit sequence
    that does not start with [0], then an optional fraction (a dot and at
    least one digit) and an optional exponent ([e] or [E], an optional sign,
    at least one digit); an [int] unless a fraction or an exponent is
    present, and then a [float]. *)
Definition scan_number (s : pystr) : option (json * pystr) :=
  let (neg, s1) :=
    match s with
    | c :: r => if c =? 45 then (true, r) else (false, s)
    | [] => (false, s)
    end in
  let int_part :=
    match s1 with
    | c :: r =>
      if c =? 48 then Some ([c], r)
      else if is_digit c then let (ds, r') := take_digits r in Some (c :: ds, r')
      else None
    | [] => None
    end in
  match int_part with
  | None => None
  | Some (ints, s2) =>
    let (frac, s3) :=
      match s2 with
      | p :: d :: r =>
        if (p =? 46) && is_digit d then
          let (ds, r') := take_digits r in (Some (d :: ds), r')
        else (None, s2)
      | _ => (None, s2)
      end in
    let (ex, s4) :=
      match s3 with
      | e :: r =>
        if ((e =? 101) || (e =? 69)) then
          let (eneg, r1) :=
            match r with
            | sg :: r' =>
              if sg =? 45 then (true, r')
              else if sg =? 43 then (false, r') else (false, r)
            | [] => (false, r)
            end in
          match take_digits r1 with
          | ([], _) => (None, s3)
          | (ds, r2) =>
            (Some (if eneg then (- digits_value ds)%Z else digits_value ds), r2)
          end
        else (None, s3)
      | [] => (None, s3)
      end in
    let sign (z : Z) := if neg then (- z)%Z else z in
    match frac, ex with
    | None, None =>
      if (List.length ints <=? MAX_STR_DIGITS)%nat
      then Some (JInt (sign (digits_value ints)), s4)
      else None
    | _, _ =>
      let fr := match frac with Some ds => ds | None => [] end in
      let e := match ex with Some z => z | None => 0%Z end in
      Some (JFloat (float_of_decimal neg (List.length (ints ++ fr))
                      (digits_value (ints ++ fr))
                      (e - Z.of_nat (List.length fr))), s4)
    end
  end.

(** [scan_once], with [JSONObject] and [JSONArray].  The decoder enters a
    recursive call for every container it opens, an empty one too, and
    raises [RecursionError] when the interpreter has no room left for it:
    [depth] is the number of containers that can still be opened inside one
    another.  [fuel] only makes the recursion structural: the parser takes
    at most one unit per character consumed (an opening bracket and its
    closing one pay for the two calls that enter a container, a comma and
    the item before it for the call that moves to the next item), so the
    length of the text is enough. *)
Fixpoint scan_once (fuel depth : nat) (s : pystr) {struct fuel}
  : option (json * pystr) :=
  match fuel with
  | O => None
  | S n =>
    match s with
    | [] => None
    | c :: r =>
      if c =? QUOTE then
        match scanstring (S (List.length r)) r [] with
        | Some (t, r') => Some (JStr t, r')
        | None => None
        end
      else if c =? LBRACE then
        match depth with
        | O => None                                  (* RecursionError *)
        | S inner =>
          match skip_ws r with
          | c1 :: r1 => if c1 =? RBRACE then Some (JObj [], r1)
                        else scan_pairs n inner (skip_ws r) []
          | [] => None
          end
        end
      else if c =? 91 (* [ *) then
        match depth with
        | O => None                                  (* RecursionError *)
        | S inner =>
          match skip_ws r with
          | c1 :: r1 => if c1 =? 93 then Some (JArr [], r1)
                        else scan_items n inner (skip_ws r) []
          | [] => None
          end
        end
      else if startswith s (str "null") then Some (JNull, skipn 4 s)
      else if startswith s (str "true") then Some (JBool true, skipn 4 s)
      else if startswith s (str "false") then Some (JBool false, skipn 5 s)
      else if startswith s (str "NaN") then Some (JFloat S754_nan, skipn 3 s)
      else if startswith s (str "Infinity")
      then Some (JFloat (S754_infinity false), skipn 8 s)
      else if startswith s (str "-Infinity")
      then Some (JFloat (S754_infinity true), skipn 9 s)
      else scan_number s
    end
  end

(** The members of an object, from the opening quote of a key on. *)
with scan_pairs (fuel depth : nat) (s : pystr) (acc : dict) {struct fuel}
  : option (json * pystr) :=
  match fuel with
  | O => None
  | S n =>
    match s with
    | c :: r =>
      if c =? QUOTE then
        match scanstring (S (List.length r)) r [] with
        | None => None
        | Some (key, r1) =>
          match skip_ws r1 with
          | colon :: r2 =>
            if colon =? 58 then
              match scan_once n depth (skip_ws r2) with
              | None => None
              | Some (v, r3) =>
                let acc' := dict_set acc key v in
                match skip_ws r3 with
                | c4 :: r4 =>
                  if c4 =? RBRACE then Some (JObj acc', r4)
                  else if c4 =? 44 then scan_pairs n depth (skip_ws r4) acc'
                  else None
                | [] => None
                end
              end
            else None
          | [] => None
          end
        end
      else None
    | [] => None
    end
  end

(** The items of an array, from the first character of an item on. *)
with scan_items (fuel depth : nat) (s : pystr) (acc : list json) {struct fuel}
  : option (json * pystr) :=
  match fuel with
  | O => None
  | S n =>
    match scan_once n depth s with
    | None => None
    | Some (v, r1) =>
      match skip_ws r1 with
      | c2 :: r2 =>
        if c2 =? 93 then Some (JArr (rev (v :: acc)), r2)
        else if c2 =? 44 then scan_items n depth (skip_ws r2) (v :: acc)
        else None
      | [] => None
      end
    end
  end.

(** [json.loads(s)], called where the interpreter has room for [depth]
    nested containers: [None] stands for the exception it raises
    ([JSONDecodeError], [ValueError] or [RecursionError]). *)
Definition json_loads (depth : nat) (s : pystr) : option json :=
  if startswith s [65279]                          (* a leading BOM *)
  then None
  else
    match scan_once (S (S (List.length s))) depth (skip_ws s) with
    | Some (v, rest) =>
      match skip_ws rest with
      | [] => Some v
      | _ :: _ => None                             (* extra data *)
      end
    | None => None
    end.

(** ** The response extractor: [parse_openai_response] *)

Definition required_keys : list pystr :=
  [str "excessive_loan"; str "rights_restriction"; str "trust_property";
   str "residential_use"; str "tax_delinquency"; str "owner_verification"].

(** [json_str] as chosen by the [if]/[else] chain: group 1 of the fenced
    pattern when it matches, else group 0 of the inline pattern when it
    matches, else the stripped text.  ([None]: a match without group 1.) *)
Definition select_json_str (response_text : pystr) : option pystr :=
  match re_search fenced_pattern response_text with
  | Some m => group1 m
  | None =>
    match re_search inline_pattern response_text with
    | Some m => Some (group0 m)
    | None => Some (strip response_text)
    end
  end.

(** [key in result]; [None] is the [TypeError] of a value that is not a
    container. *)
Definition py_contains (result : json) (key : pystr) : option bool :=
  match result with
  | JObj d => Some (match dict_get d key with Some _ => true | None => false end)
  | JArr l =>
    Some (existsb (fun v => match v with JStr s => pystr_eqb s key | _ => false end) l)
  | JStr s => Some (str_contains s key)
  | _ => None
  end.

(** [all(key in result for key in keys)] *)
Fixpoint all_keys_in (result : json) (keys : list pystr) : option bool :=
  match keys with
  | [] => Some true
  | key :: rest =>
    match py_contains result key with
    | None => None
    | Some false => Some false
    | Some true => all_keys_in result rest
    end
  end.

Definition truthy_tokens : list pystr := [str "true"; str "1"; str "yes"].

(** [s.lower() in ['true', '1', 'yes']] *)
Definition coerce_str (s : pystr) : bool :=
  existsb (pystr_eqb (lower s)) truthy_tokens.

(** The loop [for key in required_keys: if isinstance(result[key], str): ...]
    on a dict ([None]: [KeyError]). *)
Fixpoint normalize (d : dict) (keys : list pystr) : option dict :=
  match keys with
  | [] => Some d
  | key :: rest =>
    match dict_get d key with
    | None => None
    | Some (JStr s) => normalize (dict_set d key (JBool (coerce_str s))) rest
    | Some _ => normalize d rest
    end
  end.

(** What follows [json.loads]: the key check and the conversion.  [None] is
    the [None] the function returns, for missing keys and from the
    [except Exception] clause alike; indexing a list or a string with a key
    raises [TypeError]. *)
Definition validate_result (result : json) : option dict :=
  match all_keys_in result required_keys with
  | Some true =>
    match result with
    | JObj d => normalize d required_keys
    | _ => None
    end
  | _ => None
  end.

(** [depth]: the room for nested containers [json.loads] has at this call. *)
Definition parse_openai_response (depth : nat) (response_text : pystr) : option dict :=
  match select_json_str response_text with
  | None => None
  | Some json_str =>
    match json_loads depth json_str with
    | None => None
    | Some result => validate_result result
    end
  end.

Definition get_default_analysis_result : dict :=
  [(str "excessive_loan", JBool false);
   (str "rights_restriction", JBool false);
   (str "trust_property", JBool false);
   (str "residential_use", JBool true);
   (str "tax_delinquency", JBool false);
   (str "owner_verification", JBool true)].

(** ** The response model: [AnalysisResponse] *)

Record AnalysisResponse : Type := {
  excessive_loan : bool;
  rights_restriction : bool;
  trust_property : bool;
  residential_use : bool;
  tax_delinquency : bool;
  owner_verification : bool
}.

(** Validation of a [bool] field by pydantic (not strict): a [bool]; the
    numbers 0 and 1, as an [int] or as a [float]; a string that is, in lower
    case, one of the listed tokens; nothing else. *)
Definition bool_validate (v : json) : option bool :=
  match v with
  | JBool b => Some b
  | JInt z =>
    if (z =? 0)%Z then Some false else if (z =? 1)%Z then Some true else None
  | JFloat f =>
    if float_is_zero f then Some false
    else if float_is_one f then Some true
    else None
  | JStr s =>
    if existsb (pystr_eqb (lower s))
         [str "1"; str "on"; str "t"; str "true"; str "y"; str "yes"]
    then Some true
    else if existsb (pystr_eqb (lower s))
         [str "0"; str "off"; str "f"; str "false"; str "n"; str "no"]
    then Some false
    else None
  | _ => None
  end.

Definition field (d : dict) (name : string) : option bool :=
  match dict_get d (str name) with
  | Some v => bool_validate v
  | None => None
  end.

(** [AnalysisResponse( **d )]: [None] is the [ValidationError] it raises.
    Keys that are not fields are ignored. *)
Definition AnalysisResponse_of (d : dict) : option AnalysisResponse :=
  match field d "excessive_loan", field d "rights_restriction",
        field d "trust_property", field d "residential_use",
        field d "tax_delinquency", field d "owner_verification" with
  | Some a, Some b, Some c, Some e, Some f, Some g =>
    Some {| excessive_loan := a; rights_restriction := b; trust_property := c;
            residential_use := e; tax_delinquency := f; owner_verification := g |}
  | _, _, _, _, _, _ => None
  end.

(** The Fallback Verdict of the specification. *)
Definition fallback_verdict : AnalysisResponse :=
  {| excessive_loan := false; rights_restriction := false;
     trust_property := false; residential_use := true;
     tax_delinquency := false; owner_verification := true |}.

(** ** Classification of uploads *)

Definition image_extensions : list pystr :=
  [str ".jpg"; str ".jpeg"; str ".png"; str ".bmp"; str ".webp"; str ".gif"].

Definition is_image_file (filename : pystr) : bool :=
  existsb (endswith (lower filename)) image_extensions.

Definition is_pdf_file (filename : pystr) : bool :=
  endswith (lower filename) (str ".pdf").

(** ** The outside world *)

Inductive exn : Type :=
| HTTPException (status_code : Z) (detail : pystr)
| ValueError (msg : pystr)
| AttributeError
| TimeoutError
| ValidationError
| LibraryError (msg : pystr).     (* any other exception of a library or service *)

Inductive input_item : Type :=
| InputText (text : pystr)
| InputImage (file_id : pystr).

(** One call of [client.responses.create]: whether it ever finishes and,
    when it does, how many seconds after its submission and with what (an
    exception, or a response whose [output_text] is given).  For a call
    that never finishes the other two fields say nothing. *)
Record upstream_call : Type := {
  finishes : bool;
  latency : nat;
  outcome : exn + pystr
}.

(** The calls made to the OpenAI service, with their results. *)
Inductive event : Type :=
| FilesCreate (filename : pystr) (content : bytes) (purpose : pystr)
              (result : exn + pystr)
| ResponsesCreate (model : pystr) (input_content : list input_item)
                  (call : upstream_call).

Record Env : Type := {
  world : Type;                     (* the state of the OpenAI service *)
  image : Type;                     (* a PIL image *)
  (* pdf2image.convert_from_bytes(pdf_bytes, dpi=..., fmt=...) *)
  convert_from_bytes : bytes -> Z -> pystr -> exn + list image;
  (* image.save(buffer, format=...); buffer.getvalue() *)
  image_save : image -> pystr -> bytes;
  (* Image.open(io.BytesIO(b)).verify() raises nothing *)
  image_verify : bytes -> bool;
  (* client.files.create(file=(filename, content), purpose=...) *)
  files_create : pystr -> bytes -> pystr -> world -> (exn + pystr) * world;
  (* client.responses.create(model=..., input=[{role: user, content: ...}]) *)
  responses_create : pystr -> list input_item -> world -> upstream_call * world;
  (* str(e) *)
  exn_str : exn -> pystr;
  (* the room the interpreter has for recursion where parse_openai_response
     calls json.loads: the recursion limit less the depth of the stack *)
  nesting_room : nat
}.

Record UploadFile : Type := {
  filename : option pystr;
  content : bytes                   (* what [file.file.read()] returns *)
}.

(** An entry of [file_contents]: its ["type"], ["filename"], ["content"]. *)
Inductive file_content : Type :=
| FileId (name : pystr) (file_id : pystr)
| PdfFileIds (name : pystr) (file_ids : list pystr).

Inductive res (A : Type) : Type :=
| Ok (a : A)
| Raise (e : exn).
Arguments Ok {A} a.
Arguments Raise {A} e.

(** The literal instruction text of the request. *)
Definition instruction_text : pystr := dq "
**중요**: 제공된 문서들의 텍스트 내용을 정확히 읽고 분석해주세요. 반드시 문서에 명시된 구체적인 근거를 바탕으로만 판단하세요.

다음 6가지 항목을 문서 내용을 근거로 정확히 판단해주세요:

**1. 과다한 대출 여부 (excessive_loan)**
- 등기부등본의 '을구' 또는 '채무/근저당' 섹션을 확인
- 근저당권 설정액, 채권최고액 등이 과도하게 높은지 판단
- 채무 내역이 다수 기재되어 있는지 확인
- 근거: 문서에 기재된 구체적인 금액, '채무 금액' 이 없다면 false로 판단

**2. 권리제한사항 여부 (rights_restriction)**
- 등기부등본의 '갑구' 섹션을 확인
- '압류', '가압류', '처분금지', '가처분' 등의 기재사항 확인
- 근거: 문서에 명시된 구체적인 제한사항 텍스트

**3. 신탁 여부 (trust_property)**
- 등기부등본에서 '신탁' 관련 기재사항 확인
- 소유권이 신탁회사나 신탁은행으로 되어있는지 확인
- 근거: 문서에 기재된 신탁 관련 명시적 텍스트

**4. 주택용도 여부 (residential_use)**
- 건축물대장의 '용도' 또는 '건물용도' 항목 확인
- '단독주택', '공동주택', '아파트', '연립주택', '다세대주택' 등이면 true
- '상가', '사무소', '근린생활시설', '공장', '창고' 등이면 false
- 근거: 건축물대장에 명시된 정확한 용도 텍스트

**5. 체납세금 여부 (tax_delinquency)**
- 납세증명서의 '체납액' 또는 '미납세액' 항목 확인
- 체납금액이 0원이 아니거나 '없음'이 아닌 경우 확인
- 근거: 문서에 기재된 구체적인 체납 금액

**6. 등기부등본 소유자와 납세증명서 성명 일치 여부 (owner_verification)**
- 납세증명서의 '성명' 또는 '납세자명'
- 등기부등본의 '소유자' 이름
- 세 문서의 성명이 '정확히 일치'하는지 확인
- 근거: 각 문서에 기재된 구체적인 성명

**분석 지침:**
- 문서에 해당 정보가 명확히 기재되지 않은 경우에는 긍정으로 판단
- 추측하지 말고 오직 문서의 텍스트 내용만을 근거로 판단
- 금액, 성명, 용도 등은 정확한 텍스트 매칭으로 판단

**중요** : 6번을 특히 잘 확인해야합니다. '소유자 성명이 1곳이라도 다른경우'에도 false로 판단해야합니다. 예를들어 나머지는 모두 소유주 명이 동일하지만 한곳이라도 나머지와 다른경우에는 false입니다.

반드시 다음 JSON 형식으로만 답변하세요:

{
  'excessive_loan': true or false,
  'rights_restriction': true or false,
  'trust_property': true or false,
  'residential_use': true or false,
  'tax_delinquency': true or false,
  'owner_verification': true or false
}
".

Definition MODEL : pystr := str "chatgpt-4o-latest".

(** The deadline given to [future.result], in seconds. *)
Definition TIMEOUT : nat := 90.

(** The call has finished [t] seconds after its submission. *)
Definition done_within (t : nat) (call : upstream_call) : bool :=
  finishes call && (latency call <=? t)%nat.

(** [future.result(timeout=t)] *)
Definition future_result (t : nat) (call : upstream_call) : res pystr :=
  if done_within t call then
    match outcome call with
    | inr output_text => Ok output_text
    | inl e => Raise e
    end
  else Raise TimeoutError.

(** The seconds [future.result(timeout=t)] blocks: until the call has
    finished, and no longer than [t]. *)
Definition future_wait (t : nat) (call : upstream_call) : nat :=
  if done_within t call then latency call else t.

(** Leaving the [with ThreadPoolExecutor(max_workers=1)] block, [now]
    seconds after the submission: its exit calls [shutdown(wait=True)],
    which joins the worker thread, so the block is left once the call has
    finished.  [None]: the block is never left. *)
Definition executor_exit (call : upstream_call) (now : nat) : option nat :=
  if finishes call then Some (Nat.max now (latency call)) else None.

(** The seconds from the submission of the call to the return of
    [analyze_files_with_openai]: every path through the [with] block ends
    when [future.result] does (parsing takes no time in this model), and
    the block is then left.  [None]: the function never returns. *)
Definition returns_after (call : upstream_call) : option nat :=
  executor_exit call (future_wait TIMEOUT call).

(** The [input_content] list: the instruction, then one [input_image] per
    file id, in the order of [file_contents]. *)
Definition image_items (fc : file_content) : list input_item :=
  match fc with
  | FileId _ file_id => [InputImage file_id]
  | PdfFileIds _ file_ids => map InputImage file_ids
  end.

Definition build_input_content (file_contents : list file_content) : list input_item :=
  InputText instruction_text :: flat_map image_items file_contents.

(** The file ids of a request, in order. *)
Definition asset_refs (input : list input_item) : list pystr :=
  flat_map (fun it => match it with InputImage f => [f] | InputText _ => [] end) input.

(** The HTTP response FastAPI sends for the outcome of the handler. *)
Inductive http_response : Type :=
| Http200 (body : AnalysisResponse)
| HttpError (status : Z) (detail : pystr)
| HttpUnhandled.

Definition respond (r : res AnalysisResponse) : http_response :=
  match r with
  | Ok body => Http200 body
  | Raise (HTTPException status detail) => HttpError status detail
  | Raise _ => HttpUnhandled
  end.

(** [not file.filename] *)
Definition filename_missing (file : UploadFile) : bool :=
  match filename file with
  | None => true
  | Some [] => true
  | Some (_ :: _) => false
  end.

(** [f"{file.filename}"] *)
Definition format_filename (file : UploadFile) : pystr :=
  match filename file with
  | Some s => s
  | None => str "None"
  end.

(** ** The handler: a state-and-exception monad over the outside world *)

Section Pipeline.
Variable E : Env.

(** The state of the service and the calls made so far (oldest first). *)
Record state : Type := {
  st_world : world E;
  st_log : list event
}.

Definition M (A : Type) : Type := state -> res A * state.

Definition ret {A} (a : A) : M A := fun st => (Ok a, st).

Definition raise {A} (e : exn) : M A := fun st => (Raise e, st).

Definition bind {A B} (c : M A) (k : A -> M B) : M B :=
  fun st =>
    match c st with
    | (Ok a, st') => k a st'
    | (Raise e, st') => (Raise e, st')
    end.

(** [try: c except Exception as e: h e] *)
Definition try_except {A} (c : M A) (h : exn -> M A) : M A :=
  fun st =>
    match c st with
    | (Ok a, st') => (Ok a, st')
    | (Raise e, st') => h e st'
    end.

Definition lift {A} (r : res A) : M A := fun st => (r, st).

Local Notation "x <- c ;; k" := (bind c (fun x => k))
  (at level 61, c at next level, right associativity).

(** [client.files.create(file=(filename, content), purpose=purpose).id] *)
Definition client_files_create (name : pystr) (data : bytes) (purpose : pystr)
  : M pystr :=
  fun st =>
    let (r, w) := files_create E name data purpose (st_world st) in
    let st' := {| st_world := w;
                  st_log := st_log st ++ [FilesCreate name data purpose r] |} in
    match r with
    | inr file_id => (Ok file_id, st')
    | inl e => (Raise e, st')
    end.

(** [executor.submit(make_openai_request)]: the request leaves; the future
    stands for the call in flight. *)
Definition executor_submit (input_content : list input_item) : M upstream_call :=
  fun st =>
    let (call, w) := responses_create E MODEL input_content (st_world st) in
    (Ok call,
     {| st_world := w;
        st_log := st_log st ++ [ResponsesCreate MODEL input_content call] |}).

Definition upload_file_to_openai (file : UploadFile) : M pystr :=
  try_except
    (let file_content := content file in
     _ <- match filename file with
          | None => raise AttributeError
          | Some name =>
            if is_image_file name then
              if image_verify E file_content then ret tt
              else raise (ValueError (str "유효하지 않은 이미지 파일입니다."))
            else ret tt
          end ;;
     client_files_create (format_filename file) file_content (str "vision"))
    (fun e =>
       raise (HTTPException 400 (str "파일 업로드 실패: " ++ exn_str E e))).

(** [f"{pdf_file.filename}_page_{i+1}.png"] *)
Definition page_name (pdf_file : UploadFile) (i : nat) : pystr :=
  format_filename pdf_file ++ str "_page_" ++ str_of_nat (i + 1) ++ str ".png".

(** The loop [for i, image in enumerate(images)], from index [i] on, with
    the [file_ids] gathered so far. *)
Fixpoint upload_pages (pdf_file : UploadFile) (images : list (image E))
         (i : nat) (file_ids : list pystr) : M (list pystr) :=
  match images with
  | [] => ret file_ids
  | img :: rest =>
    let image_bytes := image_save E img (str "PNG") in
    file_id <- client_files_create (page_name pdf_file i) image_bytes (str "vision") ;;
    upload_pages pdf_file rest (S i) (file_ids ++ [file_id])
  end.

Definition convert_pdf_to_file_ids (pdf_file : UploadFile) : M (list pystr) :=
  try_except
    (let pdf_bytes := content pdf_file in
     images <- lift (match convert_from_bytes E pdf_bytes 200 (str "PNG") with
                     | inr images => Ok images
                     | inl e => Raise e
                     end) ;;
     upload_pages pdf_file images 0 [])
    (fun e =>
       raise (HTTPException 400 (str "PDF 이미지 변환 실패: " ++ exn_str E e))).

(** [if parsed_result:] *)
Definition truthy (parsed_result : option dict) : bool :=
  match parsed_result with
  | Some (_ :: _) => true
  | _ => false
  end.

(** The value is that of the [return] statement the code reaches; when the
    caller gets it, if ever, is told by [returns_after]: the [return]
    statements sit inside the [with ThreadPoolExecutor] block, which is
    left only once the worker has been joined. *)
Definition analyze_files_with_openai (file_contents : list file_content) : M dict :=
  let input_content := build_input_content file_contents in
  try_except
    (future <- executor_submit input_content ;;
     try_except
       (response_text <- lift (future_result TIMEOUT future) ;;
        let parsed_result := parse_openai_response (nesting_room E) response_text in
        if truthy parsed_result then
          match parsed_result with
          | Some d => ret d
          | None => ret get_default_analysis_result
          end
        else ret get_default_analysis_result)
       (fun e =>
          match e with
          | TimeoutError => ret get_default_analysis_result
          | _ => raise e
          end))
    (fun e => ret get_default_analysis_result).

(** The loop [for file in files] of [analyze_house], with the
    [file_contents] gathered so far. *)
Fixpoint process_files (files : list UploadFile) (file_contents : list file_content)
  : M (list file_content) :=
  match files with
  | [] => ret file_contents
  | file :: rest =>
    if filename_missing file then
      raise (HTTPException 400 (str "파일명이 없는 파일이 있습니다."))
    else
      let name := format_filename file in
      if is_pdf_file name then
        pdf_file_ids <-
          try_except (convert_pdf_to_file_ids file)
            (fun e => raise (HTTPException 400
               (str "PDF 처리 실패 (" ++ name ++ str "): " ++ exn_str E e))) ;;
        process_files rest (file_contents ++ [PdfFileIds name pdf_file_ids])
      else if is_image_file name then
        file_id <-
          try_except (upload_file_to_openai file)
            (fun e => raise (HTTPException 400
               (str "이미지 처리 실패 (" ++ name ++ str "): " ++ exn_str E e))) ;;
        process_files rest (file_contents ++ [FileId name file_id])
      else
        raise (HTTPException 400
          (str "지원되지 않는 파일 형식입니다: " ++ name ++
           str ". PDF 또는 이미지 파일만 업로드 가능합니다."))
  end.

Definition analyze_house (files : list UploadFile) : M AnalysisResponse :=
  match files with
  | [] => raise (HTTPException 400 (str "최소 1개 이상의 파일이 필요합니다."))
  | _ :: _ =>
    file_contents <- process_files files [] ;;
    match file_contents with
    | [] => raise (HTTPException 400 (str "처리 가능한 파일이 없습니다."))
    | _ :: _ =>
      try_except
        (analysis_result <- analyze_files_with_openai file_contents ;;
         match AnalysisResponse_of analysis_result with
         | Some response => ret response
         | None => raise ValidationError
         end)
        (fun e =>
           match e with
           | HTTPException _ _ => raise e
           | _ => raise (HTTPException 500
                           (str "분석 중 오류 발생: " ++ exn_str E e))
           end)
    end
  end.

(** The response [analyze_house] produces for the client of
    [POST /api/analyze_house]; [served] tells when it is sent, if ever. *)
Definition endpoint (files : list UploadFile) (st : state) : http_response :=
  respond (fst (analyze_house files st)).

(** The calls the request made, oldest first. *)
Definition calls (files : list UploadFile) (st : state) : list event :=
  st_log (snd (analyze_house files st)).
End Pipeline.
Arguments st_world {E} s.
Arguments st_log {E} s.
Arguments ret {E A} a.
Arguments raise {E A} e.
Arguments bind {E A B} c k.
Arguments try_except {E A} c h.
Arguments lift {E A} r.

(** ** Notions of the specification *)

(** [p] occurs in [s]. *)
Definition occurs (p s : pystr) : Prop := exists a b, s = a ++ p ++ b.

Definition is_brace (c : N) : bool := (c =? LBRACE) || (c =? RBRACE).

(** A text without braces. *)
Definition brace_free (s : pystr) : Prop := forallb (fun c => negb (is_brace c)) s = true.

(** The words a pattern matches. *)
Inductive lang : regex -> pystr -> Prop :=
| LLit p : lang (RLit p) p
| LChar cl c : cmatch cl c = true -> lang (RChar cl) [c]
| LStar cl w : forallb (cmatch cl) w = true -> lang (RStar cl) w
| LStarLazy cl w : forallb (cmatch cl) w = true -> lang (RStarLazy cl) w
| LSeq r1 r2 w1 w2 : lang r1 w1 -> lang r2 w2 -> lang (RSeq r1 r2) (w1 ++ w2)
| LGroup r w : lang r w -> lang (RGroup r) w.

(** The pattern has a capturing group. *)
Fixpoint has_group (r : regex) : bool :=
  match r with
  | RGroup _ => true
  | RSeq r1 r2 => has_group r1 || has_group r2
  | _ => false
  end.

(** A brace-delimited text without braces inside that holds the quoted
    key: what the inline pattern describes. *)
Definition flat_key_span (m : pystr) : Prop :=
  exists b c, m = LBRACE :: b ++ KEY ++ c ++ [RBRACE] /\
              brace_free b /\ brace_free c.

(** [t] is [text] without the white space at its two ends. *)
Definition trimmed (text t : pystr) : Prop :=
  (exists ws1 ws2, text = ws1 ++ t ++ ws2 /\
                   forallb isspace ws1 = true /\ forallb isspace ws2 = true) /\
  (forall c r, t = c :: r -> isspace c = false) /\
  (forall c r, t = r ++ [c] -> isspace c = false).

(** The three extraction strategies, as functions from the text to a
    candidate. *)
Definition fenced_block (text : pystr) : option pystr :=
  match re_search fenced_pattern text with
  | Some m => group1 m
  | None => None
  end.

Definition inline_object (text : pystr) : option pystr :=
  match re_search inline_pattern text with
  | Some m => Some (group0 m)
  | None => None
  end.

Definition whole_text (text : pystr) : option pystr := Some (strip text).

Definition strategies : list (pystr -> option pystr) :=
  [fenced_block; inline_object; whole_text].

(** The candidate of the first strategy that finds one. *)
Fixpoint first_candidate (l : list (pystr -> option pystr)) (text : pystr)
  : option pystr :=
  match l with
  | [] => None
  | f :: rest =>
    match f text with
    | Some c => Some c
    | None => first_candidate rest text
    end
  end.

(** The object of the first strategy that yields a syntactically valid one,
    as the specification words the chain. *)
Fixpoint first_valid_object (depth : nat) (l : list (pystr -> option pystr))
         (text : pystr) : option json :=
  match l with
  | [] => None
  | f :: rest =>
    match f text with
    | Some c =>
      match json_loads depth c with
      | Some v => Some v
      | None => first_valid_object depth rest text
      end
    | None => first_valid_object depth rest text
    end
  end.

Definition spec_extract (depth : nat) (text : pystr) : option dict :=
  match first_valid_object depth strategies text with
  | Some result => validate_result result
  | None => None
  end.

(** Normalization of one value as the specification words it: a truthy
    token is [true], every other value that is not a boolean is [false]. *)
Definition spec_normalized (v : json) : json :=
  match v with
  | JBool b => JBool b
  | JStr s => JBool (coerce_str s)
  | _ => JBool false
  end.

(** Normalization of one value as [parse_openai_response] does it. *)
Definition code_normalized (v : json) : json :=
  match v with
  | JStr s => JBool (coerce_str s)
  | _ => v
  end.

Definition is_bool_or_str (v : json) : bool :=
  match v with
  | JBool _ | JStr _ => true
  | _ => false
  end.

(** The numbers 0 and 1. *)
Definition is_zero_or_one (v : json) : bool :=
  match v with
  | JInt z => ((z =? 0) || (z =? 1))%Z
  | JFloat f => float_is_zero f || float_is_one f
  | _ => false
  end.

(** The number 1. *)
Definition is_one (v : json) : bool :=
  match v with
  | JInt z => (z =? 1)%Z
  | JFloat f => float_is_one f
  | _ => false
  end.

(** What a value that is a boolean, a string or one of the numbers 0 and 1
    is read as: a boolean is itself, a string is true when it is a truthy
    token, the number 1 is true and the number 0 is false. *)
Definition read_value (v : option json) : bool :=
  match v with
  | Some (JBool b) => b
  | Some (JStr s) => coerce_str s
  | Some x => is_one x
  | None => false
  end.

Definition verdict_read (obj : dict) : AnalysisResponse :=
  {| excessive_loan := read_value (dict_get obj (str "excessive_loan"));
     rights_restriction := read_value (dict_get obj (str "rights_restriction"));
     trust_property := read_value (dict_get obj (str "trust_property"));
     residential_use := read_value (dict_get obj (str "residential_use"));
     tax_delinquency := read_value (dict_get obj (str "tax_delinquency"));
     owner_verification := read_value (dict_get obj (str "owner_verification")) |}.

(** An upload the classifier rejects: no filename, or an extension that is
    neither that of a PDF nor that of an image. *)
Definition rejected (file : UploadFile) : bool :=
  filename_missing file ||
  (negb (is_pdf_file (format_filename file)) &&
   negb (is_image_file (format_filename file))).

Definition validation_error (file : UploadFile) : exn :=
  if filename_missing file then
    HTTPException 400 (str "파일명이 없는 파일이 있습니다.")
  else
    HTTPException 400
      (str "지원되지 않는 파일 형식입니다: " ++ format_filename file ++
       str ". PDF 또는 이미지 파일만 업로드 가능합니다.").

Definition is_inference_call (ev : event) : bool :=
  match ev with
  | ResponsesCreate _ _ _ => true
  | FilesCreate _ _ _ _ => false
  end.

Definition is_failed_registration (ev : event) : bool :=
  match ev with
  | FilesCreate _ _ _ (inl _) => true
  | _ => false
  end.

Section Assets.
Variable E : Env.

(** The pages of a PDF as visual assets: page [i] (from 0) is registered
    under the name of page [i+1], as the PNG of its image. *)
Fixpoint pages_from (pdf_file : UploadFile) (images : list (image E)) (i : nat)
  : list (pystr * bytes) :=
  match images with
  | [] => []
  | img :: rest =>
    (page_name pdf_file i, image_save E img (str "PNG"))
      :: pages_from pdf_file rest (S i)
  end.

(** The visual assets of one document: the pages of a PDF, in page order,
    or the image itself. *)
Definition visual_assets (file : UploadFile) : list (pystr * bytes) :=
  if is_pdf_file (format_filename file) then
    match convert_from_bytes E (content file) 200 (str "PNG") with
    | inr images => pages_from file images 0
    | inl _ => []
    end
  else [(format_filename file, content file)].

(** Registration of a sequence of assets, one after the other. *)
Fixpoint register_all (assets : list (pystr * bytes)) : M E (list pystr) :=
  match assets with
  | [] => ret []
  | (name, data) :: rest =>
    bind (client_files_create E name data (str "vision")) (fun file_id =>
    bind (register_all rest) (fun ids => ret (file_id :: ids)))
  end.

(** A request starts with an empty log. *)
Definition fresh (w : world E) : state E := {| st_world := w; st_log := [] |}.

(** The body of the loop of [analyze_house] for one file: the entry it
    appends to [file_contents]. *)
Definition file_step (file : UploadFile) : M E file_content :=
  if filename_missing file then
    raise (HTTPException 400 (str "파일명이 없는 파일이 있습니다."))
  else
    let name := format_filename file in
    if is_pdf_file name then
      bind (try_except (convert_pdf_to_file_ids E file)
              (fun e => raise (HTTPException 400
                 (str "PDF 처리 실패 (" ++ name ++ str "): " ++ exn_str E e))))
           (fun pdf_file_ids => ret (PdfFileIds name pdf_file_ids))
    else if is_image_file name then
      bind (try_except (upload_file_to_openai E file)
              (fun e => raise (HTTPException 400
                 (str "이미지 처리 실패 (" ++ name ++ str "): " ++ exn_str E e))))
           (fun file_id => ret (FileId name file_id))
    else
      raise (HTTPException 400
        (str "지원되지 않는 파일 형식입니다: " ++ name ++
         str ". PDF 또는 이미지 파일만 업로드 가능합니다.")).

(** The inference call a request makes once its assets are registered. *)
Definition call_of (file_contents : list file_content) (st : state E) : upstream_call :=
  fst (responses_create E MODEL (build_input_content file_contents) (st_world st)).

(** The state after the inference call has been submitted. *)
Definition after_call (file_contents : list file_content) (st : state E) : state E :=
  {| st_world :=
       snd (responses_create E MODEL (build_input_content file_contents) (st_world st));
     st_log := st_log st ++
       [ResponsesCreate MODEL (build_input_content file_contents)
          (call_of file_contents st)] |}.
End Assets.

(** The file ids an entry of [file_contents] holds. *)
Definition ids_of (fc : file_content) : list pystr :=
  match fc with
  | FileId _ file_id => [file_id]
  | PdfFileIds _ file_ids => file_ids
  end.

(** The outcome of the bounded invocation, as the specification names it. *)
Inductive InferenceOutcome : Type :=
| Success (rawText : pystr)
| TimedOut
| UpstreamFailure (reason : exn).

Definition invoker_outcome (call : upstream_call) : InferenceOutcome :=
  if done_within TIMEOUT call then
    match outcome call with
    | inr output_text => Success output_text
    | inl e => UpstreamFailure e
    end
  else TimedOut.

(** The dict [analyze_files_with_openai] returns for an outcome. *)
Definition result_of_outcome (depth : nat) (o : InferenceOutcome) : dict :=
  match o with
  | Success rawText =>
    match parse_openai_response depth rawText with
    | Some d => d
    | None => get_default_analysis_result
    end
  | TimedOut | UpstreamFailure _ => get_default_analysis_result
  end.

(** The seconds a run with the calls [log] spends waiting for the inference
    service: each inference call was submitted inside a
    [with ThreadPoolExecutor] block, which is left as [returns_after]
    tells; the other calls take no time in this model.  [None]: the run
    never ends. *)
Fixpoint elapsed (log : list event) : option nat :=
  match log with
  | [] => Some 0%nat
  | FilesCreate _ _ _ _ :: rest => elapsed rest
  | ResponsesCreate _ _ call :: rest =>
    match returns_after call, elapsed rest with
    | Some a, Some b => Some (a + b)%nat
    | _, _ => None
    end
  end.

(** When the client of a request that starts in the world [w] is answered,
    in seconds of waiting for the inference service.  [None]: never. *)
Definition answered_after (E : Env) (files : list UploadFile) (w : world E)
  : option nat :=
  elapsed (calls E files (fresh E w)).

(** What the client receives, and after how many seconds of waiting for
    the inference service.  [None]: the client never receives an answer. *)
Definition served (E : Env) (files : list UploadFile) (w : world E)
  : option (nat * http_response) :=
  match answered_after E files w with
  | Some seconds => Some (seconds, endpoint E files (fresh E w))
  | None => None
  end.

Definition no_inference (new : list event) : Prop :=
  Forall (fun ev => is_inference_call ev = false) new.

Definition no_failure (new : list event) : Prop :=
  Forall (fun ev => is_failed_registration ev = false) new.

(** The boolean a value stands for once normalized and validated: a
    boolean itself, a string by its token. *)
Definition as_bool (v : option json) : bool :=
  match v with
  | Some (JBool b) => b
  | Some (JStr s) => coerce_str s
  | _ => false
  end.

(** The response read off an object whose six values are booleans or
    strings. *)
Definition verdict_of (obj : dict) : AnalysisResponse :=
  {| excessive_loan := as_bool (dict_get obj (str "excessive_loan"));
     rights_restriction := as_bool (dict_get obj (str "rights_restriction"));
     trust_property := as_bool (dict_get obj (str "trust_property"));
     residential_use := as_bool (dict_get obj (str "residential_use"));
     tax_delinquency := as_bool (dict_get obj (str "tax_delinquency"));
     owner_verification := as_bool (dict_get obj (str "owner_verification")) |}.

(** The log entries of a run of successful registrations. *)
Definition registered (assets : list (pystr * bytes)) (ids : list pystr) : list event :=
  map (fun p => FilesCreate (fst (fst p)) (snd (fst p)) (str "vision") (inr (snd p)))
      (combine assets ids).

(** ** A small concrete world

    The asset store numbers the files it accepts and rejects the names in
    [refused]; the inference call behaves as [call]; a PDF has one page per
    byte; an image is valid when it is not empty; [json.loads] has room
    for 900 nested containers. *)
Definition demo_exn_str (e : exn) : pystr :=
  match e with
  | HTTPException _ detail => detail
  | ValueError msg => msg
  | LibraryError msg => msg
  | AttributeError => str "AttributeError"
  | TimeoutError => str "TimeoutError"
  | ValidationError => str "ValidationError"
  end.

Definition demo (refused : list pystr) (call : upstream_call) : Env :=
  {| world := nat;
     image := Byte.byte;
     convert_from_bytes := fun b _ _ =>
       match b with
       | [] => inl (LibraryError (str "Unable to get page count."))
       | _ :: _ => inr b
       end;
     image_save := fun img _ => [img];
     image_verify := fun b => match b with [] => false | _ :: _ => true end;
     files_create := fun name _ _ w =>
       if existsb (pystr_eqb name) refused
       then (inl (LibraryError (str "upload refused")), w)
       else (inr (str "file-" ++ str_of_nat w), S w);
     responses_create := fun _ _ w => (call, w);
     exn_str := demo_exn_str;
     nesting_room := 900 |}.

Definition upload (name : string) (data : bytes) : UploadFile :=
  {| filename := Some (str name); content := data |}.

Definition answers (seconds : nat) (text : pystr) : upstream_call :=
  {| finishes := true; latency := seconds; outcome := inr text |}.

Definition fails (seconds : nat) : upstream_call :=
  {| finishes := true; latency := seconds;
     outcome := inl (LibraryError (str "Connection error.")) |}.

(** A call that never returns (the text it would have brought is never
    seen). *)
Definition hangs : upstream_call :=
  {| finishes := false; latency := 0; outcome := inr [] |}.

Definition all_true_text : pystr :=
  dq "```json
{'excessive_loan': true, 'rights_restriction': true, 'trust_property': true,
 'residential_use': true, 'tax_delinquency': false, 'owner_verification': true}
```".

(** One image upload, and the state and the entry of [file_contents] once
    it is registered in a world that refuses nothing. *)
Definition deed : UploadFile := upload "deed.jpg" [Byte.x01].

Definition deed_entry : file_content := FileId (str "deed.jpg") (str "file-0").

Definition deed_registered {E : Env} (w : world E) : state E :=
  {| st_world := w;
     st_log := [FilesCreate (str "deed.jpg") [Byte.x01] (str "vision")
                  (inr (str "file-0"))] |}.


(** A world whose inference call answers well, after 3 seconds or after
    120; one whose inference call fails; one whose inference call never
    returns; one whose asset store refuses the upload. *)
Definition good_env : Env := demo [] (answers 3 all_true_text).
Definition slow_env : Env := demo [] (answers 120 all_true_text).
Definition failing_env : Env := demo [] (fails 3).
Definition hanging_env : Env := demo [] hangs.
Definition refusing_env : Env := demo [str "deed.jpg"] (answers 3 all_true_text).

(** A world whose asset store refuses the second page of [registry.pdf]. *)
Definition page_refusing_env : Env :=
  demo [str "registry.pdf_page_2.png"] (answers 3 all_true_text).

(** An image file without content, which fails the integrity check. *)
Definition empty_image : UploadFile := upload "blank.png" [].

(** Further uploads: an unsupported file, a PDF of two pages, a PDF that
    cannot be read. *)
Definition report : UploadFile := upload "report.docx" [Byte.x01].
Definition registry : UploadFile := upload "registry.pdf" [Byte.x0a; Byte.x0b].
Definition broken_pdf : UploadFile := upload "broken.pdf" [].

(** A broken fenced block, followed by a well-formed inline object. *)
Definition broken_fence_text : pystr :=
  dq "```json {oops} ``` {'excessive_loan': true, 'rights_restriction': true, 'trust_property': true, 'residential_use': true, 'tax_delinquency': false, 'owner_verification': true}".

(** An object whose first value is [null] and one whose first value is the
    number 1. *)
Definition six (v : json) : dict :=
  [(str "excessive_loan", v);
   (str "rights_restriction", JBool true);
   (str "trust_property", JBool true);
   (str "residential_use", JBool true);
   (str "tax_delinquency", JBool false);
   (str "owner_verification", JBool true)].

Definition null_loan_text : pystr :=
  dq "{'excessive_loan': null, 'rights_restriction': true, 'trust_property': true, 'residential_use': true, 'tax_delinquency': false, 'owner_verification': true}".

Definition one_loan_text : pystr :=
  dq "{'excessive_loan': 1, 'rights_restriction': true, 'trust_property': true, 'residential_use': true, 'tax_delinquency': false, 'owner_verification': true}".

(** An object whose first value is a decimal literal that is not 1 but has
    1.0 as its nearest binary64. *)
Definition float_loan_text : pystr :=
  dq "{'excessive_loan': 1.0000000000000000001, 'rights_restriction': true, 'trust_property': true, 'residential_use': true, 'tax_delinquency': false, 'owner_verification': true}".

Definition float_env : Env := demo [] (answers 3 float_loan_text).
Definition null_env : Env := demo [] (answers 3 null_loan_text).
Definition one_env : Env := demo [] (answers 3 one_loan_text).

(** The key sits in an object that has a nested object. *)
Definition nested_text : pystr :=
  dq "{'excessive_loan': true, 'details': {'amount': 1}}".

(** The same after a sentence that quotes the key, between a no-break
    space and a form feed, which [json.loads] does not skip. *)
Definition padded_nested_text : pystr :=
  [160] ++ dq "'excessive_loan' follows. " ++ nested_text ++ [12].

(** A full answer whose nested object repeats the name of the key as a
    value. *)
Definition echo_text : pystr :=
  dq "{'excessive_loan': true, 'rights_restriction': true, 'trust_property': true, 'residential_use': true, 'tax_delinquency': false, 'owner_verification': true, 'details': {'field': 'excessive_loan'}}".

(** ** The license verification flow: [parse_address] to [get_license]

    The calls to the government portal are fields of a record [Portal]; the
    functions run in a state-and-exception monad over the state of the
    portal and a log of the requests made. *)

Module License.

Inductive error : Type :=
| HTTPException (status_code : Z) (detail : pystr)
| ValueError (msg : pystr)
| KeyError (key : pystr)
| TypeError
| AttributeError
| RequestError (msg : pystr).     (* raised by requests: connection, status, body *)

Inductive result (A : Type) : Type :=
| Return (a : A)
| Throw (e : error).
Arguments Return {A} a.
Arguments Throw {A} e.

(** The table of city names, in the order of the dict literal. *)
Definition CITY_CODES : list (pystr * pystr) :=
  [ (str "서울특별시", str "11");
    (str "서울시", str "11");
    (str "서울", str "11");
    (str "부산광역시", str "26");
    (str "부산시", str "26");
    (str "부산", str "26");
    (str "대구광역시", str "27");
    (str "대구시", str "27");
    (str "대구", str "27");
    (str "인천광역시", str "28");
    (str "인천시", str "28");
    (str "인천", str "28");
    (str "광주광역시", str "29");
    (str "광주시", str "29");
    (str "광주", str "29");
    (str "대전광역시", str "30");
    (str "대전시", str "30");
    (str "대전", str "30");
    (str "울산광역시", str "31");
    (str "울산시", str "31");
    (str "울산", str "31");
    (str "세종특별자치시", str "36");
    (str "세종시", str "36");
    (str "세종", str "36");
    (str "경기도", str "41");
    (str "충청북도", str "43");
    (str "충북", str "43");
    (str "충청남도", str "44");
    (str "충남", str "44");
    (str "전라남도", str "46");
    (str "전남", str "46");
    (str "경상북도", str "47");
    (str "경북", str "47");
    (str "경상남도", str "48");
    (str "경남", str "48");
    (str "제주특별자치도", str "50");
    (str "제주도", str "50");
    (str "제주", str "50");
    (str "강원특별자치도", str "51");
    (str "강원도", str "51");
    (str "강원", str "51");
    (str "전북특별자치도", str "52");
    (str "전라북도", str "52");
    (str "전북", str "52") ].

(** The code points [str.isspace] accepts, one by one. *)
Definition whitespace : list N :=
  [9; 10; 11; 12; 13; 28; 29; 30; 31; 32; 133; 160; 5760;
   8192; 8193; 8194; 8195; 8196; 8197; 8198; 8199; 8200; 8201; 8202;
   8232; 8233; 8239; 8287; 12288].

(** [\S] *)
Definition NONSPACE : cclass := CNotIn whitespace.

(** [\S+suffix] *)
Definition token (suffix : string) : regex :=
  RSeq (RChar NONSPACE) (RSeq (RStar NONSPACE) (RLit (str suffix))).

(** [r'(\S+구|\S+군|\S+시)'] and [r'(\S+동|\S+읍|\S+면)']: the alternatives, in
    order; group 1 is the whole match. *)
Definition district_pattern : list regex := [token "구"; token "군"; token "시"].
Definition dong_pattern : list regex := [token "동"; token "읍"; token "면"].

(** The first alternative that matches at the start of [s]: what is left
    of [s] after it. *)
Fixpoint match_alts (alts : list regex) (s : pystr) : option pystr :=
  match alts with
  | [] => None
  | r :: rest =>
    match match_at r s with
    | Some (remaining, _) => Some remaining
    | None => match_alts rest s
    end
  end.

(** [re.search(pattern, s)] for a pattern that is one group of
    alternatives: [group(1)] of the leftmost match. *)
Fixpoint re_search_alts (alts : list regex) (s : pystr) : option pystr :=
  match match_alts alts s with
  | Some remaining => Some (firstn (length s - length remaining) s)
  | None =>
    match s with
    | [] => None
    | _ :: s' => re_search_alts alts s'
    end
  end.

Fixpoint find_from (s p : pystr) (i : nat) : option nat :=
  if startswith s p then Some i
  else match s with
       | [] => None
       | _ :: s' => find_from s' p (S i)
       end.

(** [s.find(p)] *)
Definition find (s p : pystr) : Z :=
  match find_from s p 0 with
  | Some i => Z.of_nat i
  | None => (-1)%Z
  end.

(** [s[i:]] *)
Definition slice_from (s : pystr) (i : Z) : pystr :=
  if (i <? 0)%Z then skipn (Z.to_nat (Z.of_nat (length s) + i)) s
  else skipn (Z.to_nat i) s.

(** The loop over [CITY_CODES.items()]: the first entry whose name occurs
    in the address. *)
Fixpoint first_city (table : list (pystr * pystr)) (address : pystr)
  : option (pystr * pystr) :=
  match table with
  | [] => None
  | (city, code) :: rest =>
    if str_contains address city then Some (city, code)
    else first_city rest address
  end.

(** The truth value of a Python value. *)
Definition py_truthy (v : json) : bool :=
  match v with
  | JNull => false
  | JBool b => b
  | JInt z => negb (z =? 0)%Z
  | JFloat f => negb (float_is_zero f)
  | JStr s => match s with [] => false | _ :: _ => true end
  | JArr l => match l with [] => false | _ :: _ => true end
  | JObj d => match d with [] => false | _ :: _ => true end
  end.

(** [for x in v]: the items, or [TypeError]. *)
Definition py_iter (v : json) : result (list json) :=
  match v with
  | JArr l => Return l
  | JObj d => Return (map (fun kv => JStr (fst kv)) d)
  | JStr s => Return (map (fun c => JStr [c]) s)
  | _ => Throw TypeError
  end.

(** [v[key]] for a string key. *)
Definition py_getitem (v : json) (key : pystr) : result json :=
  match v with
  | JObj d =>
    match dict_get d key with
    | Some x => Return x
    | None => Throw (KeyError key)
    end
  | _ => Throw TypeError
  end.

(** The loop [for item in items: if name and name in item["nm"]: code =
    item["cd"]; break]: the code found, [None] when the loop ends without
    one. *)
Fixpoint find_in (name : option pystr) (items : list json) : result (option json) :=
  match items with
  | [] => Return None
  | item :: rest =>
    match name with
    | None | Some [] => find_in name rest
    | Some n =>
      match py_getitem item (str "nm") with
      | Throw e => Throw e
      | Return nm =>
        match py_contains nm n with
        | None => Throw TypeError
        | Some true =>
          match py_getitem item (str "cd") with
          | Throw e => Throw e
          | Return cd => Return (Some cd)
          end
        | Some false => find_in name rest
        end
      end
    end
  end.

Definition find_code (name : option pystr) (code_list : json) : result (option json) :=
  match py_iter code_list with
  | Throw e => Throw e
  | Return items => find_in name items
  end.

(** [not code] for a code that may still be [None]. *)
Definition code_missing (code : option json) : bool :=
  match code with
  | None => true
  | Some v => negb (py_truthy v)
  end.

(** [f"{name}"] for a name that may be [None]. *)
Definition format_name (name : option pystr) : pystr :=
  match name with
  | Some s => s
  | None => str "None"
  end.

(** [f"{v}"] is only needed for codes that are strings; other values are
    left to the portal. *)
Definition code_value (code : option json) : json :=
  match code with
  | Some v => v
  | None => JNull
  end.

Record LicenseRequest : Type := {
  address : pystr;
  officename : pystr;
  licensenumber : pystr
}.

(** The requests made to the portal, with their answers. *)
Inductive request : Type :=
| CodesRequest (lawd_cd : json) (answer : error + json)
| BrokerRequest (data : dict) (answer : error + pystr).

Record Portal : Type := {
  pworld : Type;
  (* requests.post(".../getBeopjeongDongList.do",
                   data={"V_LAWD_CD": lawd_cd, "GUJESI_YN": "Y"}),
     raise_for_status(), .json() *)
  post_codes : json -> pworld -> (error + json) * pworld;
  (* requests.post(".../dtld_list_s001.do", data=data, headers=headers),
     raise_for_status(), .text *)
  post_broker : dict -> pworld -> (error + pystr) * pworld;
  (* str(e) *)
  error_str : error -> pystr
}.

Section Flow.
Variable P : Portal.

Record pstate : Type := {
  p_world : pworld P;
  p_log : list request
}.

Definition L (A : Type) : Type := pstate -> result A * pstate.

Definition ret {A} (a : A) : L A := fun st => (Return a, st).

Definition throw {A} (e : error) : L A := fun st => (Throw e, st).

Definition bind {A B} (c : L A) (k : A -> L B) : L B :=
  fun st =>
    match c st with
    | (Return a, st') => k a st'
    | (Throw e, st') => (Throw e, st')
    end.

(** [try: c except Exception as e: h e] *)
Definition try_except {A} (c : L A) (h : error -> L A) : L A :=
  fun st =>
    match c st with
    | (Return a, st') => (Return a, st')
    | (Throw e, st') => h e st'
    end.

Definition lift {A} (r : result A) : L A := fun st => (r, st).

Local Notation "x <- c ;; k" := (bind c (fun x => k))
  (at level 61, c at next level, right associativity).

Definition request_codes (lawd_cd : json) : L json :=
  fun st =>
    let (r, w) := post_codes P lawd_cd (p_world st) in
    let st' := {| p_world := w; p_log := p_log st ++ [CodesRequest lawd_cd r] |} in
    match r with
    | inr v => (Return v, st')
    | inl e => (Throw e, st')
    end.

Definition request_broker (data : dict) : L pystr :=
  fun st =>
    let (r, w) := post_broker P data (p_world st) in
    let st' := {| p_world := w; p_log := p_log st ++ [BrokerRequest data r] |} in
    match r with
    | inr text => (Return text, st')
    | inl e => (Throw e, st')
    end.

(** [result.get("codeList", [])] *)
Definition get_code_list (result : json) : L json :=
  match result with
  | JObj d =>
    match dict_get d (str "codeList") with
    | Some v => ret v
    | None => ret (JArr [])
    end
  | _ => throw AttributeError
  end.

Definition parse_address (address : pystr)
  : result (pystr * pystr * option pystr * option pystr) :=
  let body :=
    match first_city CITY_CODES address with
    | Some (city_name, ((_ :: _) as city_code)) =>
      let city_index := find address city_name in
      let after_city :=
        strip (slice_from address (city_index + Z.of_nat (length city_name))) in
      let district_name := re_search_alts district_pattern after_city in
      let dong_name := re_search_alts dong_pattern after_city in
      Return (city_code, city_name, district_name, dong_name)
    | _ => Throw (ValueError (str "시/도를 찾을 수 없습니다."))
    end in
  match body with
  | Return r => Return r
  | Throw e => Throw (HTTPException 400 (str "주소 파싱 실패: " ++ error_str P e))
  end.

Definition get_district_codes (city_code : json) : L json :=
  try_except
    (result <- request_codes city_code ;;
     get_code_list result)
    (fun e => throw (HTTPException 500 (str "구 코드 조회 실패: " ++ error_str P e))).

Definition get_dong_codes (district_code : json) : L json :=
  try_except
    (result <- request_codes district_code ;;
     get_code_list result)
    (fun e => throw (HTTPException 500 (str "동 코드 조회 실패: " ++ error_str P e))).

Definition get_administrative_code (address : pystr) : L json :=
  try_except
    (parsed <- lift (parse_address address) ;;
     let '(city_code, city_name, district_name, dong_name) := parsed in
     district_list <- get_district_codes (JStr city_code) ;;
     district_code <- lift (find_code district_name district_list) ;;
     if code_missing district_code then
       throw (ValueError (str "구/군을 찾을 수 없습니다: " ++ format_name district_name))
     else
       dong_list <- get_dong_codes (code_value district_code) ;;
       dong_code <- lift (find_code dong_name dong_list) ;;
       if code_missing dong_code then
         throw (ValueError (str "동/읍/면을 찾을 수 없습니다: " ++ format_name dong_name))
       else ret (code_value dong_code))
    (fun e =>
       throw (HTTPException 400 (str "행정구역 코드 획득 실패: " ++ error_str P e))).

(** The form of the broker search. *)
Definition broker_data (admin_code : json) (city_code : pystr) (district_code : json)
           (officename licensenumber : pystr) : dict :=
  [(str "v_lawd_cd", admin_code);
   (str "pageIndex", JStr (str "1"));
   (str "recordCountPerPage", JStr (str "10"));
   (str "v_sort", JStr []);
   (str "v_sort_order", JStr []);
   (str "GUJESI_YN", JStr (str "Y"));
   (str "sggCd", JStr []);
   (str "raRegno", JStr []);
   (str "sysRegno", JStr []);
   (str "sidoCd", JStr city_code);
   (str "sigunguCd", district_code);
   (str "dongCd", admin_code);
   (str "svcCode", JStr (str "117"));
   (str "v_cmp_nm", JStr officename);
   (str "v_ra_regno", JStr licensenumber);
   (str "v_rdealer_nm", JStr []);
   (str "v_pos_gbn", JStr [])].

(** The text that tells one broker was found. *)
Definition ONE_FOUND : pystr := str "총<b>1</b>건".

Definition verify_license (address officename licensenumber : pystr) : L bool :=
  try_except
    (admin_code <- get_administrative_code address ;;
     parsed <- lift (parse_address address) ;;
     let '(city_code, _, district_name, _) := parsed in
     district_list <- get_district_codes (JStr city_code) ;;
     found <- lift (find_code district_name district_list) ;;
     let district_code :=
       if code_missing found then JStr (city_code ++ str "00")
       else code_value found in
     response_text <-
       request_broker (broker_data admin_code city_code district_code
                                   officename licensenumber) ;;
     ret (str_contains response_text ONE_FOUND))
    (fun e =>
       throw (HTTPException 400 (str "라이선스 검증 실패: " ++ error_str P e))).

(** [POST /api/get_license]: the [verified] field of the response. *)
Definition get_license (request : LicenseRequest) : L bool :=
  fun st =>
    match verify_license (address request) (officename request)
                         (licensenumber request) st with
    | (Return verified, st') => (Return verified, st')
    | (Throw (HTTPException status detail), st') =>
      (Throw (HTTPException status detail), st')
    | (Throw e, st') =>
      (Throw (HTTPException 500 (str "검증 중 오류 발생: " ++ error_str P e)), st')
    end.
End Flow.

Arguments p_world {P} p.
Arguments p_log {P} p.

(** A portal that knows one district and one neighbourhood, and answers
    the broker search with [page]. *)
Definition code_entry (cd nm : string) : json :=
  JObj [(str "cd", JStr (str cd)); (str "nm", JStr (str nm))].

Definition demo_portal (page : pystr) : Portal :=
  {| pworld := unit;
     post_codes := fun lawd_cd w =>
       if match lawd_cd with JStr s => pystr_eqb s (str "11") | _ => false end
       then (inr (JObj [(str "codeList",
                         JArr [code_entry "11110" "서울특별시 종로구";
                               code_entry "11680" "서울특별시 강남구"])]), w)
       else (inr (JObj [(str "codeList",
                         JArr [code_entry "1168010100" "서울특별시 강남구 역삼동"])]), w);
     post_broker := fun _ w => (inr page, w);
     error_str := fun e =>
       match e with
       | HTTPException _ detail => detail
       | ValueError msg => msg
       | KeyError key => key
       | TypeError => str "TypeError"
       | AttributeError => str "AttributeError"
       | RequestError msg => msg
       end |}.

Definition gangnam : pystr := str "서울특별시 강남구 역삼동 123-4".

(** A request for the demo portal, a portal answering that one broker was
    found, and one whose code lookups fail. *)
Definition demo_request : LicenseRequest :=
  {| address := gangnam; officename := str "A"; licensenumber := str "1" |}.

Definition found_portal : Portal := demo_portal (str "<p>총<b>1</b>건</p>").

Definition down_portal : Portal :=
  {| pworld := unit;
     post_codes := fun _ w => (inl (RequestError (str "503 Server Error")), w);
     post_broker := fun _ w => (inr [], w);
     error_str := error_str found_portal |}.

(** A portal whose answers hold no list of codes. *)
Definition bare_portal : Portal :=
  {| pworld := unit;
     post_codes := fun _ w => (inr (JObj []), w);
     post_broker := fun _ w => (inr [], w);
     error_str := error_str found_portal |}.

(** The list of codes an answer of the portal holds, when it is an
    object. *)
Definition code_list_of (answer : json) : option json :=
  match answer with
  | JObj d =>
    match dict_get d (str "codeList") with
    | Some v => Some v
    | None => Some (JArr [])
    end
  | _ => None
  end.

(** [w] is a token found in [rest]: a run of characters without white
    space, made of at least one character and then one of the [suffixes]. *)
Definition is_token (suffixes : list pystr) (w rest : pystr) : Prop :=
  occurs w rest /\
  forallb (fun c => negb (isspace c)) w = true /\
  exists body suffix, w = body ++ suffix /\ body <> [] /\ In suffix suffixes.

End License.

(** * Properties *)

(** ** Strings *)

Lemma pystr_eqb_eq (a b : pystr) : pystr_eqb a b = true <-> a = b.
Proof.
  unfold pystr_eqb. destruct (list_eq_dec N.eq_dec a b); split; congruence.
Qed.

Lemma pystr_eqb_refl (a : pystr) : pystr_eqb a a = true.
Proof. now apply pystr_eqb_eq. Qed.

Lemma pystr_eqb_neq (a b : pystr) : a <> b -> pystr_eqb a b = false.
Proof.
  intros H. destruct (pystr_eqb a b) eqn:Heq; [|reflexivity].
  apply pystr_eqb_eq in Heq. contradiction.
Qed.

Lemma startswith_split (p s : pystr) :
  startswith s p = true -> s = p ++ skipn (length p) s.
Proof.
  revert s. induction p as [|c p IH]; intros s H; simpl in *.
  - reflexivity.
  - destruct s as [|d s]; [discriminate|].
    apply andb_true_iff in H. destruct H as [Hc Hs].
    apply N.eqb_eq in Hc. subst d. simpl. f_equal. now apply IH.
Qed.

Lemma startswith_app (p r : pystr) : startswith (p ++ r) p = true.
Proof.
  induction p as [|c p IH]; simpl; [reflexivity|].
  now rewrite N.eqb_refl, IH.
Qed.

Lemma str_contains_occurs (p s : pystr) :
  str_contains s p = true <-> occurs p s.
Proof.
  split.
  - induction s as [|c s IH]; simpl; intros H.
    + rewrite orb_false_r in H. apply startswith_split in H.
      exists [], (skipn (length p) []). exact H.
    + apply orb_true_iff in H. destruct H as [H|H].
      * apply startswith_split in H. exists [], (skipn (length p) (c :: s)). exact H.
      * destruct (IH H) as (a & b & ->). exists (c :: a), b. reflexivity.
  - intros (a & b & ->). induction a as [|c a IH]; simpl.
    + assert (Hs : startswith (p ++ b) p = true) by apply startswith_app.
      destruct (p ++ b); simpl; now rewrite Hs.
    + rewrite IH. apply orb_true_r.
Qed.

Lemma occurs_app_l (p a b : pystr) : occurs p a -> occurs p (a ++ b).
Proof.
  intros (x & y & ->). exists x, (y ++ b). now rewrite <- !app_assoc.
Qed.

Lemma occurs_app_r (p a b : pystr) : occurs p b -> occurs p (a ++ b).
Proof.
  intros (x & y & ->). exists (a ++ x), y. now rewrite <- !app_assoc.
Qed.

Lemma lstrip_suffix (s : pystr) : exists ws, s = ws ++ lstrip s.
Proof.
  induction s as [|c s [ws IH]]; cbn [lstrip]; [now exists []|].
  destruct (isspace c); [|now exists []].
  exists (c :: ws). cbn. now f_equal.
Qed.

Lemma strip_infix (s : pystr) : exists a b, s = a ++ strip s ++ b.
Proof.
  unfold strip. destruct (lstrip_suffix s) as [a Ha].
  destruct (lstrip_suffix (rev (lstrip s))) as [b Hb].
  exists a, (rev b). rewrite <- rev_app_distr, <- Hb, rev_involutive. exact Ha.
Qed.

Lemma lstrip_spaces (s : pystr) :
  exists ws, s = ws ++ lstrip s /\ forallb isspace ws = true.
Proof.
  induction s as [|c s (ws & IH & Hws)]; cbn [lstrip]; [now exists []|].
  destruct (isspace c) eqn:Hc; [|now exists []].
  exists (c :: ws). cbn [app forallb]. rewrite Hc, Hws. split; [now f_equal|reflexivity].
Qed.

Lemma lstrip_head (s : pystr) (c : N) (r : pystr) :
  lstrip s = c :: r -> isspace c = false.
Proof.
  induction s as [|x s IH]; cbn [lstrip]; [discriminate|].
  destruct (isspace x) eqn:Hx; [exact IH|].
  intros H. injection H as -> _. exact Hx.
Qed.

(** [strip] removes the white space at the two ends, and nothing else. *)
Lemma strip_trimmed (s : pystr) : trimmed s (strip s).
Proof.
  unfold trimmed, strip.
  destruct (lstrip_spaces s) as (a & Ha & Hwa).
  destruct (lstrip_spaces (rev (lstrip s))) as (b & Hb & Hwb).
  assert (Hu : lstrip s = rev (lstrip (rev (lstrip s))) ++ rev b).
  { rewrite <- rev_app_distr, <- Hb. now rewrite rev_involutive. }
  split; [|split].
  - exists a, (rev b). split; [now rewrite <- Hu|].
    split; [exact Hwa|]. rewrite forallb_forall in Hwb |- *.
    intros x Hx. apply Hwb. now apply in_rev.
  - intros c r Hr. rewrite Hr in Hu. cbn [app] in Hu.
    now apply lstrip_head in Hu.
  - intros c r Hr.
    assert (Hv : lstrip (rev (lstrip s)) = c :: rev r).
    { rewrite <- (rev_involutive (lstrip (rev (lstrip s)))), Hr, rev_app_distr.
      reflexivity. }
    now apply lstrip_head in Hv.
Qed.

(** ** The matcher finds only words of the pattern *)

Lemma star_greedy_sound (R : Type) (cl : cclass) (k : pystr -> option R) (res : R) :
  forall s, star_greedy cl s k = Some res ->
  exists w s', s = w ++ s' /\ forallb (cmatch cl) w = true /\ k s' = Some res.
Proof.
  induction s as [|c s IH]; simpl; intros H.
  - exists [], []. auto.
  - destruct (cmatch cl c) eqn:Hc.
    + destruct (star_greedy cl s k) eqn:Hs.
      * injection H as ->. destruct (IH eq_refl) as (w & s' & -> & Hw & Hk).
        exists (c :: w), s'. simpl. rewrite Hc, Hw. auto.
      * exists [], (c :: s). auto.
    + exists [], (c :: s). auto.
Qed.

Lemma star_lazy_sound (R : Type) (cl : cclass) (k : pystr -> option R) (res : R) :
  forall s, star_lazy cl s k = Some res ->
  exists w s', s = w ++ s' /\ forallb (cmatch cl) w = true /\ k s' = Some res.
Proof.
  induction s as [|c s IH]; simpl; intros H.
  - destruct (k []) eqn:Hk; [|discriminate].
    exists [], []. injection H as ->. auto.
  - destruct (k (c :: s)) eqn:Hk.
    + injection H as ->. exists [], (c :: s). auto.
    + destruct (cmatch cl c) eqn:Hc; [|discriminate].
      destruct (IH H) as (w & s' & -> & Hw & Hk').
      exists (c :: w), s'. simpl. rewrite Hc, Hw. auto.
Qed.

Lemma run_sound (R : Type) (r : regex) :
  forall (s : pystr) (g : option pystr) (k : pystr -> option pystr -> option R) (res : R),
    run r s g k = Some res ->
    exists w s' g', s = w ++ s' /\ lang r w /\ k s' g' = Some res.
Proof.
  induction r as [p|cl|cl|cl|r1 IH1 r2 IH2|r1 IH1]; simpl; intros s g k res H.
  - destruct (startswith s p) eqn:Hp; [|discriminate].
    exists p, (skipn (length p) s), g.
    split; [now apply startswith_split|]. split; [constructor|exact H].
  - destruct s as [|c s]; [discriminate|].
    destruct (cmatch cl c) eqn:Hc; [|discriminate].
    exists [c], s, g. repeat split; [now constructor|exact H].
  - apply star_greedy_sound in H. destruct H as (w & s' & -> & Hw & Hk).
    exists w, s', g. repeat split; [now constructor|exact Hk].
  - apply star_lazy_sound in H. destruct H as (w & s' & -> & Hw & Hk).
    exists w, s', g. repeat split; [now constructor|exact Hk].
  - apply IH1 in H. destruct H as (w1 & s1 & g1 & -> & L1 & H).
    apply IH2 in H. destruct H as (w2 & s2 & g2 & -> & L2 & H).
    exists (w1 ++ w2), s2, g2. rewrite <- app_assoc.
    repeat split; [now constructor|exact H].
  - apply IH1 in H. destruct H as (w1 & s1 & g1 & -> & L1 & H).
    eexists w1, s1, _. repeat split; [now constructor|exact H].
Qed.

Lemma match_at_sound (r : regex) (s rest : pystr) (g : option pystr) :
  match_at r s = Some (rest, g) ->
  exists w, s = w ++ rest /\ lang r w.
Proof.
  unfold match_at. intros H. apply run_sound in H.
  destruct H as (w & s' & g' & -> & L & H). injection H as -> ->.
  now exists w.
Qed.

Lemma firstn_length_app (w rest : pystr) :
  firstn (length (w ++ rest) - length rest) (w ++ rest) = w.
Proof.
  rewrite length_app, Nat.add_sub. now rewrite firstn_app, Nat.sub_diag,
    firstn_all, firstn_O, app_nil_r.
Qed.

Lemma match_at_group0 (r : regex) (s rest : pystr) (g : option pystr) :
  match_at r s = Some (rest, g) ->
  lang r (firstn (length s - length rest) s) /\
  s = firstn (length s - length rest) s ++ rest.
Proof.
  intros H. apply match_at_sound in H. destruct H as (w & -> & L).
  rewrite firstn_length_app. auto.
Qed.

(** A match of [re.search] is a word of the pattern that occurs in the
    text. *)
Lemma re_search_sound (r : regex) (m : re_match) :
  forall s, re_search r s = Some m ->
  lang r (group0 m) /\ exists a d, s = a ++ group0 m ++ d.
Proof.
  induction s as [|c s IH]; intros H.
  - cbn [re_search] in H.
    destruct (match_at r []) as [[rest g]|] eqn:Hm; [|discriminate].
    injection H as <-. apply match_at_group0 in Hm. destruct Hm as [L Hs].
    cbn [group0]. split; [exact L|]. now exists [], rest.
  - cbn [re_search] in H.
    destruct (match_at r (c :: s)) as [[rest g]|] eqn:Hm.
    + injection H as <-. apply match_at_group0 in Hm. destruct Hm as [L Hs].
      cbn [group0]. split; [exact L|]. now exists [], rest.
    + destruct (IH H) as (L & a & d & ->). split; [exact L|].
      now exists (c :: a), d.
Qed.

(** ** The inline pattern *)

Lemma not_in_braces (w : pystr) :
  forallb (cmatch (CNotIn [LBRACE; RBRACE])) w = true -> brace_free w.
Proof.
  unfold brace_free. induction w as [|c w IH]; simpl; intros H; [reflexivity|].
  apply andb_true_iff in H. destruct H as [Hc Hw].
  rewrite orb_false_r in Hc. rewrite (IH Hw), andb_true_r.
  unfold is_brace. exact Hc.
Qed.

(** A word of the inline pattern: an opening brace, the key between two
    texts without braces, a closing brace. *)
Lemma inline_lang (w : pystr) :
  lang inline_pattern w ->
  exists b c, w = LBRACE :: b ++ KEY ++ c ++ [RBRACE] /\
              brace_free b /\ brace_free c.
Proof.
  unfold inline_pattern. intros H.
  inversion H as [| | | |? ? w1 t1 H1 T1|]; subst; clear H.
  inversion T1 as [| | | |? ? w2 t2 H2 T2|]; subst; clear T1.
  inversion T2 as [| | | |? ? w3 t3 H3 T3|]; subst; clear T2.
  inversion T3 as [| | | |? ? w4 t4 H4 T4|]; subst; clear T3.
  inversion H1 as [|? c1 Hc1| | | |]; subst; clear H1.
  inversion H2 as [| |? ? Hb| | |]; subst; clear H2.
  inversion H3; subst; clear H3.
  inversion H4 as [| |? ? Hc| | |]; subst; clear H4.
  inversion T4 as [|? c2 Hc2| | | |]; subst; clear T4.
  simpl in Hc1, Hc2. apply N.eqb_eq in Hc1, Hc2. subst c1 c2.
  exists w2, w4. split; [reflexivity|]. split; now apply not_in_braces.
Qed.

Lemma brace_free_app (a b : pystr) :
  brace_free a -> brace_free b -> brace_free (a ++ b).
Proof.
  unfold brace_free. intros Ha Hb. now rewrite forallb_app, Ha, Hb.
Qed.

Lemma KEY_brace_free : brace_free KEY.
Proof. reflexivity. Qed.

(** What the inline strategy returns is always a brace-delimited text
    without inner braces that holds the key. *)
Lemma inline_object_shape (text m : pystr) :
  inline_object text = Some m ->
  (exists b c, m = LBRACE :: b ++ KEY ++ c ++ [RBRACE] /\
               brace_free b /\ brace_free c) /\
  exists a d, text = a ++ m ++ d.
Proof.
  unfold inline_object. intros H.
  destruct (re_search inline_pattern text) as [mm|] eqn:Hs; [|discriminate].
  injection H as <-. apply re_search_sound in Hs. destruct Hs as [L Hocc].
  split; [now apply inline_lang|exact Hocc].
Qed.

(** ** The fenced pattern always captures its group *)

Lemma star_greedy_cont (R : Type) (cl : cclass) (k : pystr -> option R) (res : R) :
  forall s, star_greedy cl s k = Some res -> exists s', k s' = Some res.
Proof.
  intros s H. apply star_greedy_sound in H.
  destruct H as (_ & s' & _ & _ & Hk). now exists s'.
Qed.

Lemma star_lazy_cont (R : Type) (cl : cclass) (k : pystr -> option R) (res : R) :
  forall s, star_lazy cl s k = Some res -> exists s', k s' = Some res.
Proof.
  intros s H. apply star_lazy_sound in H.
  destruct H as (_ & s' & _ & _ & Hk). now exists s'.
Qed.

Lemma run_group (R : Type) (r : regex) :
  forall (s : pystr) (g : option pystr) (k : pystr -> option pystr -> option R) (res : R),
    run r s g k = Some res ->
    exists s' g', k s' g' = Some res /\
                  (if has_group r then g' <> None else g' = g).
Proof.
  induction r as [p|cl|cl|cl|r1 IH1 r2 IH2|r1 IH1]; simpl; intros s g k res H.
  - destruct (startswith s p); [|discriminate]. eauto.
  - destruct s as [|c s]; [discriminate|].
    destruct (cmatch cl c); [|discriminate]. eauto.
  - apply star_greedy_cont in H. destruct H as [s' H]. eauto.
  - apply star_lazy_cont in H. destruct H as [s' H]. eauto.
  - apply IH1 in H. destruct H as (s1 & g1 & H & G1).
    apply IH2 in H. destruct H as (s2 & g2 & H & G2).
    exists s2, g2. split; [exact H|].
    destruct (has_group r1), (has_group r2); simpl; congruence.
  - apply IH1 in H. destruct H as (s1 & g1 & H & _).
    eexists s1, _. split; [exact H|]. discriminate.
Qed.

Lemma fenced_group1 (text : pystr) (m : re_match) :
  re_search fenced_pattern text = Some m -> exists g, group1 m = Some g.
Proof.
  induction text as [|c text IH]; intros H; cbn [re_search] in H.
  - destruct (match_at fenced_pattern []) as [[rest g]|] eqn:Hm; [|discriminate].
    injection H as <-. unfold match_at in Hm. apply run_group in Hm.
    destruct Hm as (s' & g' & Hk & Hg). injection Hk as -> ->.
    cbn in Hg. cbn [group1]. destruct g; [eauto|contradiction].
  - destruct (match_at fenced_pattern (c :: text)) as [[rest g]|] eqn:Hm.
    + injection H as <-. unfold match_at in Hm. apply run_group in Hm.
      destruct Hm as (s' & g' & Hk & Hg). injection Hk as -> ->.
      cbn in Hg. cbn [group1]. destruct g; [eauto|contradiction].
    + now apply IH.
Qed.

(** ** The inline strategy finds every flat text that holds the key *)

Lemma star_greedy_last (R : Type) (cl : cclass) (s : pystr) (k : pystr -> option R) :
  k s <> None -> star_greedy cl s k <> None.
Proof.
  intros Hk. destruct s as [|c s]; cbn; [exact Hk|].
  destruct (cmatch cl c); [|exact Hk].
  destruct (star_greedy cl s k); [discriminate|exact Hk].
Qed.

Lemma star_greedy_complete (R : Type) (cl : cclass) (w s' : pystr)
      (k : pystr -> option R) :
  forallb (cmatch cl) w = true -> k s' <> None ->
  star_greedy cl (w ++ s') k <> None.
Proof.
  induction w as [|c w IH]; cbn [app forallb]; intros Hw Hk.
  - now apply star_greedy_last.
  - apply andb_true_iff in Hw. destruct Hw as [Hc Hw].
    cbn [star_greedy]. rewrite Hc.
    specialize (IH Hw Hk).
    destruct (star_greedy cl (w ++ s') k); [discriminate|contradiction].
Qed.

Lemma braces_not_in (w : pystr) :
  brace_free w -> forallb (cmatch (CNotIn [LBRACE; RBRACE])) w = true.
Proof.
  unfold brace_free. induction w as [|c w IH]; cbn [forallb]; intros H;
    [reflexivity|].
  apply andb_true_iff in H. destruct H as [Hc Hw].
  rewrite (IH Hw), andb_true_r. unfold is_brace in Hc. cbn.
  now rewrite orb_false_r.
Qed.

Lemma skipn_length_app (p r : pystr) : skipn (length p) (p ++ r) = r.
Proof. induction p as [|c p IH]; [reflexivity|exact IH]. Qed.

Lemma match_at_inline_complete (b c d : pystr) :
  brace_free b -> brace_free c ->
  match_at inline_pattern (LBRACE :: b ++ KEY ++ c ++ RBRACE :: d) <> None.
Proof.
  intros Hb Hc. unfold match_at, inline_pattern.
  cbn [run]. replace (cmatch (CLit LBRACE) LBRACE) with true by reflexivity.
  apply star_greedy_complete; [now apply braces_not_in|].
  rewrite startswith_app, skipn_length_app.
  apply star_greedy_complete; [now apply braces_not_in|].
  replace (cmatch (CLit RBRACE) RBRACE) with true by reflexivity.
  discriminate.
Qed.

Lemma re_search_app (r : regex) (s : pystr) :
  match_at r s <> None -> forall a, re_search r (a ++ s) <> None.
Proof.
  intros Hm. induction a as [|x a IH].
  - cbn [app]. destruct s; cbn [re_search];
      destruct (match_at r _) as [[rest g]|]; try discriminate; contradiction.
  - cbn [app re_search].
    destruct (match_at r (x :: a ++ s)) as [[rest g]|]; [discriminate|exact IH].
Qed.

(** ** The extractor *)

Lemma select_json_str_first_candidate (text : pystr) :
  select_json_str text = first_candidate strategies text.
Proof.
  unfold select_json_str, strategies, first_candidate, fenced_block,
    inline_object, whole_text.
  destruct (re_search fenced_pattern text) as [m|] eqn:Hf.
  - destruct (fenced_group1 text m Hf) as [g ->]. reflexivity.
  - destruct (re_search inline_pattern text); reflexivity.
Qed.

(** C2 (as amended): the extractor chooses its candidate text by the first
    of the three strategies, in the order fenced block, inline object,
    whole trimmed text, whose pattern finds a candidate (the third always
    does), and parses that candidate only: when it is not syntactically
    valid, extraction fails and no later strategy is tried.  When the
    candidate of the first matching strategy is syntactically valid, the
    result is that of the first strategy that yields a valid object. *)
Theorem C2_first_matching_strategy (depth : nat) (text : pystr) :
  select_json_str text = first_candidate strategies text /\
  parse_openai_response depth text =
    match first_candidate strategies text with
    | Some candidate =>
      match json_loads depth candidate with
      | Some result => validate_result result
      | None => None
      end
    | None => None
    end /\
  (forall candidate result,
      first_candidate strategies text = Some candidate ->
      json_loads depth candidate = Some result ->
      parse_openai_response depth text = spec_extract depth text).
Proof.
  split; [apply select_json_str_first_candidate|].
  split.
  - unfold parse_openai_response. now rewrite select_json_str_first_candidate.
  - intros candidate result Hc Hr.
    unfold parse_openai_response. rewrite select_json_str_first_candidate, Hc, Hr.
    unfold spec_extract.
    unfold strategies, first_candidate in Hc. unfold strategies, first_valid_object.
    destruct (fenced_block text) as [c1|].
    + injection Hc as ->. now rewrite Hr.
    + destruct (inline_object text) as [c2|].
      * injection Hc as ->. now rewrite Hr.
      * destruct (whole_text text) as [c3|]; [|discriminate].
        injection Hc as ->. now rewrite Hr.
Qed.

Lemma C2_first_matching_strategy_witness :
  parse_openai_response 900 all_true_text = spec_extract 900 all_true_text.
Proof.
  eapply (proj2 (proj2 (C2_first_matching_strategy 900 all_true_text))).
  - vm_compute. reflexivity.
  - vm_compute. reflexivity.
Defined.

(** The claim C2 as stated fails: here the fenced block is found but is not
    valid JSON, so the extractor gives up, although the inline strategy
    would yield a valid object with all six keys. *)
Lemma C2_counterexample :
  fenced_block broken_fence_text = Some (str "{oops}") /\
  json_loads 900 (str "{oops}") = None /\
  parse_openai_response 900 broken_fence_text = None /\
  spec_extract 900 broken_fence_text = Some (six (JBool true)) /\
  parse_openai_response 900 broken_fence_text <> spec_extract 900 broken_fence_text.
Proof.
  vm_compute. repeat split; discriminate.
Qed.

Lemma not_occurs (p s : pystr) : str_contains s p = false -> ~ occurs p s.
Proof.
  intros H Ho. apply str_contains_occurs in Ho. congruence.
Qed.

Lemma inline_search_complete (a b c d : pystr) :
  brace_free b -> brace_free c ->
  re_search inline_pattern (a ++ (LBRACE :: b ++ KEY ++ c ++ [RBRACE]) ++ d) <> None.
Proof.
  intros Hb Hc. apply re_search_app.
  replace ((LBRACE :: b ++ KEY ++ c ++ [RBRACE]) ++ d)
    with (LBRACE :: b ++ KEY ++ c ++ RBRACE :: d)
    by (cbn [app]; now rewrite <- !app_assoc).
  now apply match_at_inline_complete.
Qed.

(** C10 (as amended): the second extraction strategy works on characters,
    not on objects.  What it matches is always a brace-delimited text
    without braces inside that contains the quoted key, taken from the
    text; it finds nothing exactly when the text holds no such span; and
    for a text without a fenced json block in which it finds nothing, the
    extractor parses the entire trimmed text: the text without the white
    space at its two ends, and nothing else. *)
Theorem C10_inline_strategy_flat_spans (depth : nat) (text : pystr) :
  (forall m, inline_object text = Some m -> flat_key_span m /\ occurs m text) /\
  (inline_object text = None <->
   ~ exists m, flat_key_span m /\ occurs m text) /\
  (fenced_block text = None ->
   (~ exists m, flat_key_span m /\ occurs m text) ->
   exists t,
     trimmed text t /\
     select_json_str text = Some t /\
     parse_openai_response depth text =
       match json_loads depth t with
       | Some result => validate_result result
       | None => None
       end).
Proof.
  assert (Hiff : inline_object text = None <->
                 ~ exists m, flat_key_span m /\ occurs m text).
  { split.
    - intros Hn (m & (b & c & -> & Hb & Hc) & (a & d & ->)).
      unfold inline_object in Hn.
      pose proof (inline_search_complete a b c d Hb Hc) as Hs.
      destruct (re_search inline_pattern _); [discriminate|contradiction].
    - intros Hn. destruct (inline_object text) as [m|] eqn:Hm; [|reflexivity].
      exfalso. apply Hn. exists m. now apply inline_object_shape in Hm. }
  split; [|split].
  - intros m Hm. now apply inline_object_shape in Hm.
  - exact Hiff.
  - intros Hf Hi. apply Hiff in Hi. exists (strip text).
    split; [apply strip_trimmed|].
    unfold inline_object in Hi. unfold fenced_block in Hf.
    destruct (re_search inline_pattern text) eqn:Hs; [discriminate|].
    assert (Hsel : select_json_str text = Some (strip text)).
    { unfold select_json_str. rewrite Hs.
      destruct (re_search fenced_pattern text) as [m|] eqn:Hm; [|reflexivity].
      destruct (fenced_group1 text m Hm) as [g Hg]. rewrite Hg in Hf. discriminate. }
    split; [exact Hsel|]. unfold parse_openai_response. now rewrite Hsel.
Qed.

Lemma C10_inline_strategy_flat_spans_witness :
  exists t,
    trimmed padded_nested_text t /\
    select_json_str padded_nested_text = Some t /\
    parse_openai_response 900 padded_nested_text =
      match json_loads 900 t with
      | Some result => validate_result result
      | None => None
      end.
Proof.
  apply (proj2 (proj2 (C10_inline_strategy_flat_spans 900 padded_nested_text))).
  - vm_compute. reflexivity.
  - apply (proj1 (proj2 (C10_inline_strategy_flat_spans 900 padded_nested_text))).
    vm_compute. reflexivity.
Defined.

(** The claim C10 as stated fails: the whole text is an object that holds
    the key and has a nested object inside it, the nested object does not
    hold the key, and there is no fenced block; yet the second strategy
    finds something, the nested object, whose text repeats the name as a
    value.  The extractor parses that and fails, and the entire trimmed
    text, a valid object with all six keys, is never parsed. *)
Lemma C10_counterexample :
  fenced_block echo_text = None /\
  (exists obj inner,
     json_loads 900 echo_text = Some (JObj obj) /\
     dict_get obj (str "excessive_loan") = Some (JBool true) /\
     dict_get obj (str "details") = Some (JObj inner) /\
     dict_get inner (str "excessive_loan") = None /\
     validate_result (JObj obj) <> None) /\
  inline_object echo_text = Some (dq "{'field': 'excessive_loan'}") /\
  select_json_str echo_text <> Some (strip echo_text) /\
  parse_openai_response 900 echo_text = None.
Proof.
  split; [vm_compute; reflexivity|].
  split.
  - eexists _, _. split; [vm_compute; reflexivity|].
    split; [vm_compute; reflexivity|]. split; [vm_compute; reflexivity|].
    split; [vm_compute; reflexivity|]. vm_compute. discriminate.
  - split; [vm_compute; reflexivity|].
    split; [vm_compute; discriminate|]. vm_compute. reflexivity.
Qed.

(** ** Dictionaries and the conversion loop *)

Lemma dict_get_set_eq (d : dict) (k : pystr) (v : json) :
  dict_get (dict_set d k v) k = Some v.
Proof.
  induction d as [|[k' v'] d IH]; simpl.
  - now rewrite pystr_eqb_refl.
  - destruct (pystr_eqb k k') eqn:Hk; simpl.
    + now rewrite pystr_eqb_refl.
    + now rewrite Hk.
Qed.

Lemma dict_get_set_neq (d : dict) (k k' : pystr) (v : json) :
  k' <> k -> dict_get (dict_set d k v) k' = dict_get d k'.
Proof.
  intros Hne. induction d as [|[k0 v0] d IH]; simpl.
  - now rewrite pystr_eqb_neq.
  - destruct (pystr_eqb k k0) eqn:Hk; simpl.
    + apply pystr_eqb_eq in Hk. subst k0. now rewrite pystr_eqb_neq.
    + destruct (pystr_eqb k' k0); [reflexivity|exact IH].
Qed.

Lemma all_keys_in_dict (d : dict) (keys : list pystr) :
  (forall k, In k keys -> exists v, dict_get d k = Some v) ->
  all_keys_in (JObj d) keys = Some true.
Proof.
  induction keys as [|k keys IH]; simpl; intros H; [reflexivity|].
  destruct (H k) as [v Hv]; [now left|]. rewrite Hv.
  apply IH. intros k' Hk'. apply H. now right.
Qed.

Lemma all_keys_in_dict_inv (d : dict) (keys : list pystr) :
  all_keys_in (JObj d) keys = Some true ->
  forall k, In k keys -> exists v, dict_get d k = Some v.
Proof.
  induction keys as [|k keys IH]; simpl; intros H k' Hk'; [contradiction|].
  destruct (dict_get d k) as [v|] eqn:Hv; [|discriminate].
  destruct Hk' as [<-|Hk']; [now exists v|now apply IH].
Qed.

Lemma normalize_spec (keys : list pystr) :
  NoDup keys ->
  forall d,
    (forall k, In k keys -> exists v, dict_get d k = Some v) ->
    exists d',
      normalize d keys = Some d' /\
      (forall k, In k keys ->
         dict_get d' k = option_map code_normalized (dict_get d k)) /\
      (forall k, ~ In k keys -> dict_get d' k = dict_get d k).
Proof.
  induction 1 as [|key keys Hnotin Hnd IH]; intros d Hall.
  - exists d. simpl. split; [reflexivity|]. split; [contradiction|reflexivity].
  - destruct (Hall key) as [v Hv]; [now left|].
    set (d1 := match v with
               | JStr s => dict_set d key (JBool (coerce_str s))
               | _ => d
               end).
    assert (Hstep : normalize d (key :: keys) = normalize d1 keys)
      by (simpl; rewrite Hv; destruct v; reflexivity).
    assert (Hother : forall k, k <> key -> dict_get d1 k = dict_get d k).
    { intros k Hk. unfold d1. destruct v; try reflexivity.
      now apply dict_get_set_neq. }
    assert (Hkey : dict_get d1 key = Some (code_normalized v)).
    { unfold d1. destruct v; simpl; try exact Hv. apply dict_get_set_eq. }
    destruct (IH d1) as (d' & Hn & Hin & Hout).
    { intros k Hk. rewrite Hother by (intros ->; contradiction).
      apply Hall. now right. }
    exists d'. rewrite Hstep. split; [exact Hn|]. split.
    + intros k [<-|Hk].
      * rewrite (Hout key Hnotin), Hkey, Hv. reflexivity.
      * rewrite (Hin k Hk), Hother by (intros ->; contradiction). reflexivity.
    + intros k Hk. rewrite Hout by (intros Hk'; apply Hk; now right).
      apply Hother. intros ->. apply Hk. now left.
Qed.

Lemma required_keys_NoDup : NoDup required_keys.
Proof.
  vm_compute. repeat constructor; simpl; intuition discriminate.
Qed.

(** C3 (as amended): for every extracted object in which all six required
    keys are present, the validate step succeeds; each required key whose
    value is a string becomes the boolean "its lower case is one of true,
    1, yes" (so every other string becomes false), booleans are kept, and a
    value that is neither a string nor a boolean is left as it is; the
    other keys are untouched.  Hence, when each of the six values is a
    boolean or a string, the Verdict produced holds all six keys with
    boolean values. *)
Theorem C3_normalization (d : dict) :
  (forall k, In k required_keys -> exists v, dict_get d k = Some v) ->
  exists d',
    validate_result (JObj d) = Some d' /\
    (forall k, In k required_keys ->
       dict_get d' k = option_map code_normalized (dict_get d k)) /\
    (forall k, ~ In k required_keys -> dict_get d' k = dict_get d k) /\
    ((forall k v, In k required_keys -> dict_get d k = Some v ->
                  is_bool_or_str v = true) ->
     forall k, In k required_keys ->
       exists b, dict_get d' k = Some (JBool b) /\
                 dict_get d' k = option_map spec_normalized (dict_get d k)).
Proof.
  intros Hall.
  destruct (normalize_spec required_keys required_keys_NoDup d Hall) as (d' & Hn & Hin & Hout).
  exists d'. split.
  - unfold validate_result. now rewrite (all_keys_in_dict d required_keys Hall).
  - split; [exact Hin|]. split; [exact Hout|].
    intros Hbs k Hk. rewrite (Hin k Hk).
    destruct (Hall k Hk) as [v Hv]. rewrite Hv.
    specialize (Hbs k v Hk Hv).
    destruct v; try discriminate; simpl; eauto.
Qed.

Lemma C3_normalization_witness :
  exists d',
    validate_result (JObj (six (JStr (str "YES")))) = Some d' /\
    dict_get d' (str "excessive_loan") = Some (JBool true).
Proof.
  destruct (C3_normalization (six (JStr (str "YES")))) as (d' & Hv & Hin & _).
  - intros k Hk. vm_compute in Hk.
    repeat (destruct Hk as [<-|Hk]; [vm_compute; eauto|]). contradiction.
  - exists d'. split; [exact Hv|].
    rewrite Hin by (vm_compute; auto). vm_compute. reflexivity.
Defined.

(** The claim C3 as stated fails: a [null] under a required key is not
    turned into [false]; the object is accepted with the [null] in it. *)
Lemma C3_counterexample :
  (forall k, In k required_keys -> exists v, dict_get (six JNull) k = Some v) /\
  validate_result (JObj (six JNull)) = Some (six JNull) /\
  dict_get (six JNull) (str "excessive_loan") = Some JNull /\
  spec_normalized JNull = JBool false /\
  JNull <> JBool false.
Proof.
  split.
  - intros k Hk. vm_compute in Hk.
    repeat (destruct Hk as [<-|Hk]; [vm_compute; eauto|]). contradiction.
  - vm_compute. repeat split; discriminate.
Qed.

(** ** Runs of the handler *)

Lemma client_files_create_run (E : Env) (name : pystr) (data : bytes)
      (purpose : pystr) (st : state E) :
  client_files_create E name data purpose st =
  (match fst (files_create E name data purpose (st_world st)) with
   | inr file_id => Ok file_id
   | inl e => Raise e
   end,
   {| st_world := snd (files_create E name data purpose (st_world st));
      st_log := st_log st ++
        [FilesCreate name data purpose
           (fst (files_create E name data purpose (st_world st)))] |}).
Proof.
  unfold client_files_create.
  destruct (files_create E name data purpose (st_world st)) as [[e|file_id] w];
    reflexivity.
Qed.

(** What registering a sequence of assets leaves in the log. *)
Lemma register_all_log (E : Env) (assets : list (pystr * bytes)) :
  forall (st st' : state E) (r : res (list pystr)),
    register_all E assets st = (r, st') ->
    exists new,
      st_log st' = st_log st ++ new /\ no_inference new /\
      match r with
      | Ok ids => no_failure new /\ length ids = length assets
      | Raise _ => True
      end.
Proof.
  induction assets as [|[name data] assets IH]; intros st st' r H.
  - cbn in H. injection H as <- <-. exists []. rewrite app_nil_r.
    repeat split; constructor.
  - cbn [register_all] in H. unfold bind at 1 in H.
    rewrite client_files_create_run in H.
    destruct (fst (files_create E name data (str "vision") (st_world st)))
      as [e|file_id] eqn:Hf.
    + injection H as <- <-. cbn [st_log]. eexists. split; [reflexivity|].
      split; [|exact I]. repeat constructor.
    + unfold bind in H.
      match type of H with
      | context [register_all E assets ?s] =>
        destruct (register_all E assets s) as [r1 st1] eqn:Hr
      end.
      apply IH in Hr. destruct Hr as (new & Hlog & Hni & Hr).
      cbn [st_log] in Hlog.
      destruct r1 as [ids|e]; cbn in H; injection H as <- <-.
      * exists (FilesCreate name data (str "vision") (inr file_id) :: new).
        rewrite Hlog, <- app_assoc. split; [reflexivity|].
        destruct Hr as [Hnf Hlen].
        split; [now constructor|]. split; [now constructor|].
        cbn [length]. now rewrite Hlen.
      * exists (FilesCreate name data (str "vision") (inr file_id) :: new).
        rewrite Hlog, <- app_assoc. split; [reflexivity|].
        split; [now constructor|exact I].
Qed.

Lemma register_all_app (E : Env) (a b : list (pystr * bytes)) :
  forall st : state E,
    register_all E (a ++ b) st =
    match register_all E a st with
    | (Ok x, st1) =>
      match register_all E b st1 with
      | (Ok y, st2) => (Ok (x ++ y), st2)
      | (Raise e, st2) => (Raise e, st2)
      end
    | (Raise e, st1) => (Raise e, st1)
    end.
Proof.
  induction a as [|[name data] a IH]; intros st.
  - cbn. destruct (register_all E b st) as [[y|e] st2]; reflexivity.
  - cbn [app register_all]. unfold bind at 1 3.
    destruct (client_files_create E name data (str "vision") st) as [[file_id|e] st1];
      [|reflexivity].
    unfold bind, ret. rewrite IH.
    destruct (register_all E a st1) as [[x|e] st2]; [|reflexivity].
    cbn. destruct (register_all E b st2) as [[y|e] st3]; reflexivity.
Qed.

(** The page loop registers the pages in order and appends their ids. *)
Lemma register_all_ok_log (E : Env) (assets : list (pystr * bytes)) :
  forall (st st' : state E) (ids : list pystr),
    register_all E assets st = (Ok ids, st') ->
    st_log st' = st_log st ++ registered assets ids /\
    length ids = length assets.
Proof.
  induction assets as [|[name data] assets IH]; intros st st' ids H.
  - cbn in H. injection H as <- <-. cbn. now rewrite app_nil_r.
  - cbn [register_all] in H. unfold bind at 1 in H.
    rewrite client_files_create_run in H.
    destruct (fst (files_create E name data (str "vision") (st_world st)))
      as [e|file_id] eqn:Hf; [discriminate|].
    unfold bind in H.
    match type of H with
    | context [register_all E assets ?s] =>
      destruct (register_all E assets s) as [[ids1|e] st1] eqn:Hr
    end; cbn in H; [|discriminate].
    injection H as <- <-. apply IH in Hr. destruct Hr as [Hlog Hlen].
    cbn [st_log] in Hlog. rewrite Hlog, <- app_assoc. cbn [length].
    now rewrite Hlen.
Qed.

(** A run of registrations that fails: the assets before the failing one
    were registered, and the failing call is the last one made. *)
Lemma register_all_raise (E : Env) (assets : list (pystr * bytes)) :
  forall (st st' : state E) (e : exn),
    register_all E assets st = (Raise e, st') ->
    exists done name data rest ids,
      assets = done ++ (name, data) :: rest /\
      length ids = length done /\
      st_log st' = st_log st ++ registered done ids ++
                   [FilesCreate name data (str "vision") (inl e)].
Proof.
  induction assets as [|[name data] assets IH]; intros st st' e H;
    [discriminate|].
  cbn [register_all] in H. unfold bind at 1 in H.
  rewrite client_files_create_run in H.
  destruct (fst (files_create E name data (str "vision") (st_world st)))
    as [e0|file_id] eqn:Hf.
  - injection H as <- <-. exists [], name, data, assets, [].
    repeat split; reflexivity.
  - unfold bind in H.
    match type of H with
    | context [register_all E assets ?s] =>
      destruct (register_all E assets s) as [[ids1|e1] st1] eqn:Hr
    end; cbn in H; [discriminate|].
    injection H as <- <-. apply IH in Hr.
    destruct Hr as (done & n & d & rest & ids & -> & Hlen & Hlog).
    exists ((name, data) :: done), n, d, rest, (file_id :: ids).
    split; [reflexivity|]. split; [cbn [length]; now rewrite Hlen|].
    cbn [st_log] in Hlog. rewrite Hlog, <- app_assoc. reflexivity.
Qed.

Lemma upload_pages_register (E : Env) (pdf_file : UploadFile) (images : list (image E)) :
  forall (i : nat) (file_ids : list pystr) (st : state E),
    upload_pages E pdf_file images i file_ids st =
    match register_all E (pages_from E pdf_file images i) st with
    | (Ok ids, st') => (Ok (file_ids ++ ids), st')
    | (Raise e, st') => (Raise e, st')
    end.
Proof.
  induction images as [|img images IH]; intros i file_ids st.
  - cbn. now rewrite app_nil_r.
  - cbn [upload_pages pages_from register_all]. unfold bind at 1 2.
    destruct (client_files_create E (page_name pdf_file i)
                (image_save E img (str "PNG")) (str "vision") st)
      as [[file_id|e] st1]; [|reflexivity].
    rewrite IH. unfold bind.
    destruct (register_all E (pages_from E pdf_file images (S i)) st1)
      as [[ids|e] st2]; [|reflexivity].
    cbn. now rewrite <- app_assoc.
Qed.

Lemma convert_pdf_to_file_ids_run (E : Env) (pdf_file : UploadFile) (st : state E) :
  convert_pdf_to_file_ids E pdf_file st =
  match convert_from_bytes E (content pdf_file) 200 (str "PNG") with
  | inl e =>
    (Raise (HTTPException 400 (str "PDF 이미지 변환 실패: " ++ exn_str E e)), st)
  | inr images =>
    match register_all E (pages_from E pdf_file images 0) st with
    | (Ok ids, st') => (Ok ids, st')
    | (Raise e, st') =>
      (Raise (HTTPException 400 (str "PDF 이미지 변환 실패: " ++ exn_str E e)), st')
    end
  end.
Proof.
  unfold convert_pdf_to_file_ids, try_except, bind, lift.
  destruct (convert_from_bytes E (content pdf_file) 200 (str "PNG")) as [e|images];
    [reflexivity|].
  rewrite upload_pages_register.
  destruct (register_all E (pages_from E pdf_file images 0) st) as [[ids|e] st'];
    reflexivity.
Qed.

Lemma upload_file_to_openai_run (E : Env) (file : UploadFile) (st : state E) :
  filename_missing file = false ->
  upload_file_to_openai E file st =
  if is_image_file (format_filename file) && negb (image_verify E (content file)) then
    (Raise (HTTPException 400
       (str "파일 업로드 실패: " ++
        exn_str E (ValueError (str "유효하지 않은 이미지 파일입니다.")))), st)
  else
    match register_all E [(format_filename file, content file)] st with
    | (Ok ids, st') => (Ok (hd [] ids), st')
    | (Raise e, st') =>
      (Raise (HTTPException 400 (str "파일 업로드 실패: " ++ exn_str E e)), st')
    end.
Proof.
  unfold filename_missing, format_filename. intros Hm.
  unfold upload_file_to_openai, try_except, bind.
  destruct (filename file) as [name|] eqn:Hn; [|discriminate].
  cbn [format_filename]. unfold format_filename. rewrite Hn.
  cbn [register_all]. unfold bind, ret, raise.
  destruct (is_image_file name); cbn [andb];
    try destruct (image_verify E (content file)); cbv beta iota delta [negb];
    try reflexivity;
    destruct (client_files_create E name (content file) (str "vision") st)
      as [[file_id|e] st']; reflexivity.
Qed.

Lemma process_files_step (E : Env) (file : UploadFile) (rest : list UploadFile)
      (file_contents : list file_content) (st : state E) :
  process_files E (file :: rest) file_contents st =
  match file_step E file st with
  | (Ok fc, st') => process_files E rest (file_contents ++ [fc]) st'
  | (Raise e, st') => (Raise e, st')
  end.
Proof.
  cbn [process_files]. unfold file_step.
  destruct (filename_missing file); [reflexivity|].
  destruct (is_pdf_file (format_filename file)).
  - unfold bind, ret.
    destruct (try_except (convert_pdf_to_file_ids E file) _ st) as [[ids|e] st'];
      reflexivity.
  - destruct (is_image_file (format_filename file)); [|reflexivity].
    unfold bind, ret.
    destruct (try_except (upload_file_to_openai E file) _ st) as [[id|e] st'];
      reflexivity.
Qed.

(** One turn of the loop: what it leaves in the log, and its result. *)
Lemma file_step_outcome (E : Env) (file : UploadFile) (st st' : state E)
      (r : res file_content) :
  file_step E file st = (r, st') ->
  exists new,
    st_log st' = st_log st ++ new /\ no_inference new /\
    match r with
    | Ok fc =>
      rejected file = false /\ no_failure new /\
      register_all E (visual_assets E file) st = (Ok (ids_of fc), st')
    | Raise e =>
      exists detail,
        e = HTTPException 400 detail /\
        ((rejected file = true /\ e = validation_error file /\ new = []) \/
         (rejected file = false /\ occurs (format_filename file) detail))
    end.
Proof.
  unfold file_step, rejected, validation_error, visual_assets.
  destruct (filename_missing file) eqn:Hm.
  { intros H. injection H as <- <-. exists []. rewrite app_nil_r.
    split; [reflexivity|]. split; [constructor|].
    eexists. split; [reflexivity|]. left. auto. }
  cbn [orb].
  destruct (is_pdf_file (format_filename file)) eqn:Hpdf.
  - cbn [negb andb]. unfold bind, try_except, ret, raise.
    rewrite convert_pdf_to_file_ids_run.
    destruct (convert_from_bytes E (content file) 200 (str "PNG")) as [e|images].
    + intros H. injection H as <- <-. exists []. rewrite app_nil_r.
      split; [reflexivity|]. split; [constructor|].
      eexists. split; [reflexivity|]. right. split; [reflexivity|].
      eexists (str "PDF 처리 실패 ("), _. reflexivity.
    + destruct (register_all E (pages_from E file images 0) st) as [[ids|e] st1] eqn:Hr;
        intros H; injection H as <- <-;
        destruct (register_all_log E _ _ _ _ Hr) as (new & Hlog & Hni & Hres);
        exists new; (split; [exact Hlog|]); (split; [exact Hni|]).
      * destruct Hres as [Hnf _]. auto.
      * eexists. split; [reflexivity|]. right. split; [reflexivity|].
        eexists (str "PDF 처리 실패 ("), _. reflexivity.
  - cbn [negb andb].
    destruct (is_image_file (format_filename file)) eqn:Himg.
    + cbn [negb]. unfold bind, try_except, ret, raise.
      rewrite (upload_file_to_openai_run E file st Hm). rewrite Himg. cbn [andb].
      destruct (negb (image_verify E (content file))).
      * intros H. injection H as <- <-. exists []. rewrite app_nil_r.
        split; [reflexivity|]. split; [constructor|].
        eexists. split; [reflexivity|]. right. split; [reflexivity|].
        eexists (str "이미지 처리 실패 ("), _. reflexivity.
      * destruct (register_all E [(format_filename file, content file)] st)
          as [[ids|e] st1] eqn:Hr;
          intros H; injection H as <- <-;
          destruct (register_all_log E _ _ _ _ Hr) as (new & Hlog & Hni & Hres);
          exists new; (split; [exact Hlog|]); (split; [exact Hni|]).
        -- destruct Hres as [Hnf Hlen]. split; [reflexivity|]. split; [exact Hnf|].
           destruct ids as [|id [|? ?]]; try discriminate. reflexivity.
        -- eexists. split; [reflexivity|]. right. split; [reflexivity|].
           eexists (str "이미지 처리 실패 ("), _. reflexivity.
    + intros H. injection H as <- <-. exists []. rewrite app_nil_r.
      split; [reflexivity|]. split; [constructor|].
      eexists. split; [reflexivity|]. left. auto.
Qed.

(** One turn of the loop that fails: either nothing was sent to the store,
    or the last call is the failed registration of an asset of this file,
    after the registration of the assets before it, and the error names
    the file. *)
Lemma file_step_failure (E : Env) (file : UploadFile) (st st' : state E) (e : exn) :
  file_step E file st = (Raise e, st') ->
  exists detail,
    e = HTTPException 400 detail /\
    (st_log st' = st_log st \/
     (occurs (format_filename file) detail /\
      exists done name data rest ids err,
        visual_assets E file = done ++ (name, data) :: rest /\
        length ids = length done /\
        st_log st' = st_log st ++ registered done ids ++
                     [FilesCreate name data (str "vision") (inl err)])).
Proof.
  unfold file_step, visual_assets.
  destruct (filename_missing file) eqn:Hm.
  { intros H. injection H as <- <-. eexists. split; [reflexivity|now left]. }
  destruct (is_pdf_file (format_filename file)) eqn:Hpdf.
  - unfold bind, try_except, ret, raise.
    rewrite convert_pdf_to_file_ids_run.
    destruct (convert_from_bytes E (content file) 200 (str "PNG")) as [e0|images].
    + intros H. injection H as <- <-. eexists. split; [reflexivity|now left].
    + destruct (register_all E (pages_from E file images 0) st) as [[ids|e0] st1] eqn:Hr;
        intros H; [discriminate|]. injection H as <- <-.
      eexists. split; [reflexivity|]. right.
      split; [eexists (str "PDF 처리 실패 ("), _; reflexivity|].
      destruct (register_all_raise E _ _ _ _ Hr)
        as (done & name & data & rest & ids & Ha & Hlen & Hlog).
      now exists done, name, data, rest, ids, e0.
  - destruct (is_image_file (format_filename file)) eqn:Himg.
    + unfold bind, try_except, ret, raise.
      rewrite (upload_file_to_openai_run E file st Hm). rewrite Himg. cbn [andb].
      destruct (negb (image_verify E (content file))).
      * intros H. injection H as <- <-. eexists. split; [reflexivity|now left].
      * destruct (register_all E [(format_filename file, content file)] st)
          as [[ids|e0] st1] eqn:Hr; intros H; [discriminate|].
        injection H as <- <-.
        eexists. split; [reflexivity|]. right.
        split; [eexists (str "이미지 처리 실패 ("), _; reflexivity|].
        destruct (register_all_raise E _ _ _ _ Hr)
          as (done & name & data & rest & ids & Ha & Hlen & Hlog).
        now exists done, name, data, rest, ids, e0.
    + intros H. injection H as <- <-. eexists. split; [reflexivity|now left].
Qed.

Lemma flat_map_ids_app (a b : list file_content) :
  flat_map ids_of (a ++ b) = flat_map ids_of a ++ flat_map ids_of b.
Proof. apply flat_map_app. Qed.

(** The whole loop. *)
Lemma process_files_outcome (E : Env) (files : list UploadFile) :
  forall (file_contents : list file_content) (st st' : state E)
         (r : res (list file_content)),
    process_files E files file_contents st = (r, st') ->
    exists new,
      st_log st' = st_log st ++ new /\ no_inference new /\
      match r with
      | Ok fcs =>
        Forall (fun file => rejected file = false) files /\
        no_failure new /\
        length fcs = (length file_contents + length files)%nat /\
        exists ids,
          register_all E (flat_map (visual_assets E) files) st = (Ok ids, st') /\
          flat_map ids_of fcs = flat_map ids_of file_contents ++ ids
      | Raise e =>
        exists detail file,
          In file files /\ e = HTTPException 400 detail /\
          ((rejected file = true /\ e = validation_error file /\ no_failure new) \/
           (rejected file = false /\ occurs (format_filename file) detail))
      end.
Proof.
  induction files as [|file rest IH]; intros acc st st' r H.
  - cbn in H. injection H as <- <-. exists []. rewrite app_nil_r.
    split; [reflexivity|]. split; [constructor|].
    split; [constructor|]. split; [constructor|].
    split; [now rewrite Nat.add_0_r|].
    exists []. cbn. now rewrite app_nil_r.
  - rewrite process_files_step in H.
    destruct (file_step E file st) as [[fc|e] st1] eqn:Hs.
    + apply file_step_outcome in Hs.
      destruct Hs as (new1 & Hlog1 & Hni1 & Hrej & Hnf1 & Hreg1).
      apply IH in H. destruct H as (new2 & Hlog2 & Hni2 & Hres).
      exists (new1 ++ new2). rewrite Hlog2, Hlog1, <- app_assoc.
      split; [reflexivity|].
      split; [now apply Forall_app|].
      destruct r as [fcs|e].
      * destruct Hres as (Hrej2 & Hnf2 & Hlen & ids & Hreg2 & Hids).
        split; [now constructor|]. split; [now apply Forall_app|].
        split; [rewrite Hlen, length_app; cbn; lia|].
        exists (ids_of fc ++ ids). split.
        -- cbn [flat_map]. now rewrite register_all_app, Hreg1, Hreg2.
        -- rewrite Hids, flat_map_ids_app. cbn. now rewrite app_nil_r, <- app_assoc.
      * destruct Hres as (detail & f & Hin & He & Hcase).
        exists detail, f. split; [now right|]. split; [exact He|].
        destruct Hcase as [(Hr & Hv & Hnf2)|Hcase]; [left|now right].
        split; [exact Hr|]. split; [exact Hv|]. now apply Forall_app.
    + injection H as <- <-. apply file_step_outcome in Hs.
      destruct Hs as (new1 & Hlog1 & Hni1 & detail & He & Hcase).
      exists new1. split; [exact Hlog1|]. split; [exact Hni1|].
      exists detail, file. split; [now left|]. split; [exact He|].
      destruct Hcase as [(Hr & Hv & ->)|Hcase]; [left|now right].
      split; [exact Hr|]. split; [exact Hv|]. constructor.
Qed.

Lemma process_files_app (E : Env) (pre rest : list UploadFile) :
  forall (file_contents : list file_content) (st : state E),
    process_files E (pre ++ rest) file_contents st =
    match process_files E pre file_contents st with
    | (Ok fcs, st') => process_files E rest fcs st'
    | (Raise e, st') => (Raise e, st')
    end.
Proof.
  induction pre as [|file pre IH]; intros acc st; [reflexivity|].
  cbn [app]. rewrite !process_files_step.
  destruct (file_step E file st) as [[fc|e] st1]; [apply IH|reflexivity].
Qed.

(** The loop fails at one file, after the files before it have gone
    through. *)
Lemma process_files_failure (E : Env) (files : list UploadFile) :
  forall (file_contents : list file_content) (st st' : state E) (e : exn),
    process_files E files file_contents st = (Raise e, st') ->
    exists pre file post fcs st1,
      files = pre ++ file :: post /\
      process_files E pre file_contents st = (Ok fcs, st1) /\
      file_step E file st1 = (Raise e, st').
Proof.
  induction files as [|file rest IH]; intros acc st st' e H; [discriminate|].
  rewrite process_files_step in H.
  destruct (file_step E file st) as [[fc|e0] st0] eqn:Hs.
  - apply IH in H. destruct H as (pre & f & post & fcs & st1 & -> & Hpre & Hf).
    exists (file :: pre), f, post, fcs, st1. split; [reflexivity|].
    split; [|exact Hf]. now rewrite process_files_step, Hs.
  - injection H as <- <-. now exists [], file, rest, acc, st.
Qed.

Lemma validate_result_inv (result : json) (d : dict) :
  validate_result result = Some d ->
  exists d0,
    result = JObj d0 /\
    (forall k, In k required_keys -> exists v, dict_get d0 k = Some v) /\
    (forall k, In k required_keys ->
       dict_get d k = option_map code_normalized (dict_get d0 k)) /\
    (forall k, ~ In k required_keys -> dict_get d k = dict_get d0 k).
Proof.
  unfold validate_result. intros H.
  destruct (all_keys_in result required_keys) as [[|]|] eqn:Hk; try discriminate.
  destruct result as [| | | | | |d0]; try discriminate.
  exists d0. split; [reflexivity|].
  pose proof (all_keys_in_dict_inv d0 required_keys Hk) as Hall.
  split; [exact Hall|].
  destruct (normalize_spec required_keys required_keys_NoDup d0 Hall)
    as (d' & Hn & Hin & Hout).
  rewrite Hn in H. injection H as <-. auto.
Qed.

Lemma parse_openai_response_nonempty (depth : nat) (text : pystr) (d : dict) :
  parse_openai_response depth text = Some d -> d <> [].
Proof.
  unfold parse_openai_response. intros H.
  destruct (select_json_str text) as [js|]; [|discriminate].
  destruct (json_loads depth js) as [result|]; [|discriminate].
  apply validate_result_inv in H. destruct H as (d0 & _ & Hall & Hin & _).
  intros ->.
  assert (Hk : In (str "excessive_loan") required_keys) by (now left).
  specialize (Hin _ Hk). destruct (Hall _ Hk) as [v Hv].
  rewrite Hv in Hin. discriminate.
Qed.

(** The inference stage: one call is submitted, and the function returns
    the dict of its outcome; it never raises. *)
Lemma analyze_files_with_openai_run (E : Env) (file_contents : list file_content)
      (st : state E) :
  analyze_files_with_openai E file_contents st =
  (Ok (result_of_outcome (nesting_room E) (invoker_outcome (call_of E file_contents st))),
   after_call E file_contents st).
Proof.
  unfold analyze_files_with_openai, try_except, bind, executor_submit,
    after_call, call_of, invoker_outcome, future_result, lift, ret, raise.
  destruct (responses_create E MODEL (build_input_content file_contents) (st_world st))
    as [call w].
  cbn [fst snd].
  destruct (done_within TIMEOUT call); [|reflexivity].
  destruct (outcome call) as [e|text]; [destruct e; reflexivity|].
  cbn [result_of_outcome].
  destruct (parse_openai_response (nesting_room E) text) as [d|] eqn:Hp; [|reflexivity].
  apply parse_openai_response_nonempty in Hp.
  destruct d; [contradiction|reflexivity].
Qed.

(** The handler, once the loop has gone through. *)
Lemma analyze_house_ok (E : Env) (files : list UploadFile) (st st1 : state E)
      (fcs : list file_content) :
  files <> [] ->
  process_files E files [] st = (Ok fcs, st1) ->
  analyze_house E files st =
  (match AnalysisResponse_of
           (result_of_outcome (nesting_room E) (invoker_outcome (call_of E fcs st1))) with
   | Some response => Ok response
   | None =>
     Raise (HTTPException 500
              (str "분석 중 오류 발생: " ++ exn_str E ValidationError))
   end,
   after_call E fcs st1).
Proof.
  intros Hne Hp. unfold analyze_house.
  destruct files as [|file rest]; [contradiction|].
  unfold bind at 1. rewrite Hp.
  apply process_files_outcome in Hp.
  destruct Hp as (new & _ & _ & _ & _ & Hlen & _).
  destruct fcs as [|fc fcs]; [cbn in Hlen; discriminate|].
  unfold try_except, bind. rewrite analyze_files_with_openai_run.
  destruct (AnalysisResponse_of _); reflexivity.
Qed.

Lemma analyze_house_raise (E : Env) (files : list UploadFile) (st st1 : state E)
      (e : exn) :
  process_files E files [] st = (Raise e, st1) ->
  analyze_house E files st = (Raise e, st1).
Proof.
  intros Hp. unfold analyze_house.
  destruct files as [|file rest]; [cbn in Hp; discriminate|].
  unfold bind. now rewrite Hp.
Qed.

Lemma fallback_of_default :
  AnalysisResponse_of get_default_analysis_result = Some fallback_verdict.
Proof. reflexivity. Qed.

Lemma invoker_outcome_cases (depth : nat) (call : upstream_call) :
  ((TIMEOUT < latency call)%nat \/
   (exists reason, outcome call = inl reason) \/
   (exists rawText, outcome call = inr rawText /\
                    parse_openai_response depth rawText = None)) ->
  result_of_outcome depth (invoker_outcome call) = get_default_analysis_result.
Proof.
  unfold invoker_outcome, done_within. intros Hcase.
  destruct (finishes call); [|reflexivity]. cbn [andb].
  destruct (latency call <=? TIMEOUT)%nat eqn:Hl; [|reflexivity].
  apply Nat.leb_le in Hl.
  destruct Hcase as [Hlt|[[reason ->]|(rawText & -> & Hparse)]].
  - lia.
  - reflexivity.
  - cbn [result_of_outcome]. now rewrite Hparse.
Qed.



Lemma filter_no_inference (new : list event) :
  no_inference new -> filter is_inference_call new = [].
Proof.
  induction 1 as [|ev new Hev _ IH]; [reflexivity|].
  cbn. now rewrite Hev.
Qed.

Lemma calls_ok (E : Env) (files : list UploadFile) (st st1 : state E)
      (fcs : list file_content) :
  files <> [] ->
  process_files E files [] st = (Ok fcs, st1) ->
  calls E files st =
  st_log st1 ++ [ResponsesCreate MODEL (build_input_content fcs) (call_of E fcs st1)].
Proof.
  intros Hne Hp. unfold calls.
  now rewrite (analyze_house_ok E files st st1 fcs Hne Hp).
Qed.

Lemma elapsed_app (a b : list event) :
  elapsed (a ++ b) =
  match elapsed a, elapsed b with
  | Some x, Some y => Some (x + y)%nat
  | _, _ => None
  end.
Proof.
  induction a as [|ev a IH]; cbn [app elapsed].
  - now destruct (elapsed b).
  - destruct ev as [? ? ? ?|? ? call]; [exact IH|].
    rewrite IH. destruct (returns_after call) as [x|]; [|reflexivity].
    destruct (elapsed a) as [y|]; [|reflexivity].
    destruct (elapsed b) as [z|]; [|reflexivity].
    now rewrite Nat.add_assoc.
Qed.

Lemma elapsed_no_inference (new : list event) :
  no_inference new -> elapsed new = Some 0%nat.
Proof.
  induction 1 as [|ev new Hev _ IH]; [reflexivity|].
  destruct ev; [exact IH|discriminate].
Qed.

(** A call that has not finished when the deadline passes is left by
    [future.result] after [TIMEOUT] seconds, but the [with] block is left
    only when the call has finished, and never if it does not finish. *)
Lemma returns_after_late (call : upstream_call) :
  done_within TIMEOUT call = false ->
  future_wait TIMEOUT call = TIMEOUT /\
  returns_after call = if finishes call then Some (latency call) else None.
Proof.
  unfold returns_after, executor_exit, future_wait. intros Hd. rewrite Hd.
  split; [reflexivity|].
  unfold done_within in Hd. destruct (finishes call); [|reflexivity].
  cbn [andb] in Hd. apply Nat.leb_gt in Hd. f_equal. lia.
Qed.

(** The run of a request whose inference call has not finished 90 seconds
    after its submission: the outcome is TimedOut, the call is submitted
    once and never again, and the handler computes the Fallback Verdict;
    the client gets it when the call has finished, and never if the call
    does not finish. *)
Lemma timed_out_run (E : Env) (files : list UploadFile) (w : world E)
      (st1 : state E) (fcs : list file_content) :
  files <> [] ->
  process_files E files [] (fresh E w) = (Ok fcs, st1) ->
  done_within TIMEOUT (call_of E fcs st1) = false ->
  future_result TIMEOUT (call_of E fcs st1) = Raise TimeoutError /\
  invoker_outcome (call_of E fcs st1) = TimedOut /\
  filter is_inference_call (calls E files (fresh E w)) =
    [ResponsesCreate MODEL (build_input_content fcs) (call_of E fcs st1)] /\
  analyze_files_with_openai E fcs st1 =
    (Ok get_default_analysis_result, after_call E fcs st1) /\
  endpoint E files (fresh E w) = Http200 fallback_verdict /\
  served E files w =
    if finishes (call_of E fcs st1)
    then Some (latency (call_of E fcs st1), Http200 fallback_verdict)
    else None.
Proof.
  intros Hne Hp Hd.
  split; [unfold future_result; now rewrite Hd|].
  split; [unfold invoker_outcome; now rewrite Hd|].
  destruct (process_files_outcome E files [] (fresh E w) st1 (Ok fcs) Hp)
    as (new & Hlog & Hni & _).
  cbn [fresh st_log app] in Hlog.
  assert (Hdef : result_of_outcome (nesting_room E) (invoker_outcome (call_of E fcs st1))
                 = get_default_analysis_result)
    by (unfold invoker_outcome; now rewrite Hd).
  split.
  - rewrite (calls_ok E files _ st1 fcs Hne Hp), Hlog, filter_app,
      (filter_no_inference new Hni). reflexivity.
  - rewrite analyze_files_with_openai_run, Hdef. split; [reflexivity|].
    assert (Hend : endpoint E files (fresh E w) = Http200 fallback_verdict).
    { unfold endpoint. rewrite (analyze_house_ok E files _ st1 fcs Hne Hp), Hdef.
      now rewrite fallback_of_default. }
    split; [exact Hend|].
    unfold served, answered_after.
    rewrite (calls_ok E files _ st1 fcs Hne Hp), Hlog, elapsed_app,
      (elapsed_no_inference new Hni).
    cbn [elapsed]. rewrite (proj2 (returns_after_late _ Hd)).
    destruct (finishes (call_of E fcs st1)); [|reflexivity].
    cbn. now rewrite Nat.add_0_r, Hend.
Qed.

(** C5 (a defect of the code): the deadline of 90 seconds is not a hard
    one.  For a request with one image whose inference call takes 120
    seconds, the wait for the result ends after 90 seconds with TimedOut,
    the call is submitted once, and the handler computes the Fallback
    Verdict with status 200; but the [return] statement sits inside the
    [with ThreadPoolExecutor] block, which joins the worker on its way
    out, so the client is answered after 120 seconds.  When the call never
    returns, the client is never answered. *)
Theorem C5_deadline_not_enforced :
  TIMEOUT = 90%nat /\
  (invoker_outcome (answers 120 all_true_text) = TimedOut /\
   future_wait TIMEOUT (answers 120 all_true_text) = 90%nat /\
   filter is_inference_call (calls slow_env [deed] (fresh slow_env 0%nat)) =
     [ResponsesCreate MODEL (build_input_content [deed_entry])
        (answers 120 all_true_text)] /\
   endpoint slow_env [deed] (fresh slow_env 0%nat) = Http200 fallback_verdict /\
   served slow_env [deed] 0%nat = Some (120%nat, Http200 fallback_verdict)) /\
  (invoker_outcome hangs = TimedOut /\
   future_wait TIMEOUT hangs = 90%nat /\
   filter is_inference_call (calls hanging_env [deed] (fresh hanging_env 0%nat)) =
     [ResponsesCreate MODEL (build_input_content [deed_entry]) hangs] /\
   analyze_files_with_openai hanging_env [deed_entry]
     (@deed_registered hanging_env 1%nat) =
     (Ok get_default_analysis_result,
      after_call hanging_env [deed_entry] (@deed_registered hanging_env 1%nat)) /\
   returns_after hangs = None /\
   served hanging_env [deed] 0%nat = None).
Proof.
  split; [reflexivity|].
  split; repeat split; vm_compute; reflexivity.
Qed.

(** ** The response model *)

Lemma bool_validate_rejects (v : json) :
  is_bool_or_str v = false -> is_zero_or_one v = false -> bool_validate v = None.
Proof.
  destruct v as [| |z|f| | |]; cbn; intros Hb Hz; try discriminate;
    try reflexivity.
  - apply orb_false_iff in Hz. destruct Hz as [-> ->]. reflexivity.
  - apply orb_false_iff in Hz. destruct Hz as [-> ->]. reflexivity.
Qed.

Lemma float_zero_not_one (f : pyfloat) : float_is_zero f = true -> float_is_one f = false.
Proof. destruct f; cbn; intros H; try discriminate; reflexivity. Qed.

(** The response model reads a normalized value that is a boolean or one of
    the numbers 0 and 1 as [read_value] tells. *)
Lemma bool_validate_read (v : json) :
  is_bool_or_str v = true \/ is_zero_or_one v = true ->
  bool_validate (code_normalized v) = Some (read_value (Some v)).
Proof.
  destruct v as [|b|z|f|s| |]; cbn; intros [H|H]; try discriminate;
    try reflexivity.
  - apply orb_true_iff in H. destruct H as [H|H].
    + apply Z.eqb_eq in H. now subst z.
    + rewrite H. apply Z.eqb_eq in H. now subst z.
  - apply orb_true_iff in H. destruct H as [H|H].
    + now rewrite H, (float_zero_not_one f H).
    + rewrite H. now destruct (float_is_zero f) eqn:Hz;
        [rewrite (float_zero_not_one f Hz) in H|].
Qed.

Lemma AnalysisResponse_of_rejects (d : dict) (k : pystr) (v : json) :
  In k required_keys ->
  dict_get d k = Some v ->
  bool_validate v = None ->
  AnalysisResponse_of d = None.
Proof.
  unfold required_keys. cbn [In]. intros Hk Hget Hv.
  unfold AnalysisResponse_of, field.
  destruct Hk as [<-|[<-|[<-|[<-|[<-|[<-|[]]]]]]]; rewrite Hget, Hv;
    repeat match goal with
           | |- context [match dict_get d ?key with _ => _ end] =>
             destruct (dict_get d key)
           | |- context [match bool_validate ?x with _ => _ end] =>
             destruct (bool_validate x)
           end; reflexivity.
Qed.

(** The response model on a dict that holds, under each required key, the
    normalized value of an object whose six values are booleans, strings or
    the numbers 0 and 1. *)
Lemma AnalysisResponse_of_read (obj d : dict) :
  (forall k, In k required_keys ->
     dict_get d k = option_map code_normalized (dict_get obj k)) ->
  (forall k, In k required_keys ->
     exists v, dict_get obj k = Some v /\
               (is_bool_or_str v = true \/ is_zero_or_one v = true)) ->
  AnalysisResponse_of d = Some (verdict_read obj).
Proof.
  intros Hd Hobj.
  assert (Hf : forall name, In (str name) required_keys ->
             field d name = Some (read_value (dict_get obj (str name)))).
  { intros name Hin. unfold field. rewrite (Hd _ Hin).
    destruct (Hobj _ Hin) as (v & -> & Hv). cbn [option_map].
    now apply bool_validate_read. }
  unfold AnalysisResponse_of, verdict_read.
  rewrite !Hf by (unfold required_keys; cbn [In]; tauto).
  reflexivity.
Qed.

(** C9 (as amended): when extraction yields a syntactically valid object
    with all six required keys, the validate step accepts it and leaves
    every value that is not a string as it is.  If the value of some
    required key is neither a boolean nor a string, and is not the number
    0 or 1 either (null, an array, an object, any other number), the
    endpoint answers with the server error 500 instead of that Verdict or
    the Fallback Verdict.  If every one of the six values is a boolean, a
    string or the number 0 or 1, the endpoint answers with a success, in
    which the number 0 is read as false and the number 1 as true. *)
Theorem C9_unnormalized_value_server_error (E : Env) (files : list UploadFile)
        (st st1 : state E) (fcs : list file_content)
        (rawText json_str : pystr) (obj : dict) :
  files <> [] ->
  process_files E files [] st = (Ok fcs, st1) ->
  done_within TIMEOUT (call_of E fcs st1) = true ->
  outcome (call_of E fcs st1) = inr rawText ->
  select_json_str rawText = Some json_str ->
  json_loads (nesting_room E) json_str = Some (JObj obj) ->
  (forall key, In key required_keys -> exists x, dict_get obj key = Some x) ->
  exists d,
    parse_openai_response (nesting_room E) rawText = Some d /\
    analyze_files_with_openai E fcs st1 = (Ok d, after_call E fcs st1) /\
    (forall k v, In k required_keys -> dict_get obj k = Some v ->
       (forall s, v <> JStr s) -> dict_get d k = Some v) /\
    ((exists k v, In k required_keys /\ dict_get obj k = Some v /\
                  is_bool_or_str v = false /\ is_zero_or_one v = false) ->
     endpoint E files st =
       HttpError 500 (str "분석 중 오류 발생: " ++ exn_str E ValidationError)) /\
    ((forall k v, In k required_keys -> dict_get obj k = Some v ->
        is_bool_or_str v = true \/ is_zero_or_one v = true) ->
     endpoint E files st = Http200 (verdict_read obj)).
Proof.
  intros Hne Hp Hdone Hout Hsel Hload Hall.
  destruct (normalize_spec required_keys required_keys_NoDup obj Hall)
    as (d & Hn & Hin & _).
  assert (Hparse : parse_openai_response (nesting_room E) rawText = Some d).
  { unfold parse_openai_response, validate_result.
    now rewrite Hsel, Hload, (all_keys_in_dict obj required_keys Hall). }
  assert (Hkeep : forall k v, In k required_keys -> dict_get obj k = Some v ->
            (forall s, v <> JStr s) -> dict_get d k = Some v).
  { intros k v Hk Hget Hs. rewrite (Hin k Hk), Hget.
    destruct v; try reflexivity. now destruct (Hs s). }
  assert (Hres : result_of_outcome (nesting_room E)
                   (invoker_outcome (call_of E fcs st1)) = d).
  { unfold invoker_outcome. rewrite Hdone, Hout.
    cbn [result_of_outcome]. now rewrite Hparse. }
  exists d. split; [exact Hparse|].
  split; [now rewrite analyze_files_with_openai_run, Hres|].
  split; [exact Hkeep|].
  unfold endpoint. rewrite (analyze_house_ok E files st st1 fcs Hne Hp), Hres.
  split.
  - intros (k & v & Hk & Hget & Hbs & Hzo).
    assert (Hd : dict_get d k = Some v).
    { apply Hkeep; [exact Hk|exact Hget|]. intros s ->. discriminate. }
    rewrite (AnalysisResponse_of_rejects d k v Hk Hd
               (bool_validate_rejects v Hbs Hzo)).
    reflexivity.
  - intros Hgood.
    rewrite (AnalysisResponse_of_read obj d).
    + reflexivity.
    + intros k Hk. now rewrite (Hin k Hk).
    + intros k Hk. destruct (Hall k Hk) as [v Hv]. exists v.
      split; [exact Hv|]. now apply (Hgood k v).
Qed.

Lemma C9_unnormalized_value_server_error_witness :
  (exists d,
     parse_openai_response 900 null_loan_text = Some d /\
     dict_get d (str "excessive_loan") = Some JNull) /\
  endpoint null_env [deed] (fresh null_env 0%nat) =
    HttpError 500 (str "분석 중 오류 발생: " ++ exn_str null_env ValidationError) /\
  endpoint float_env [deed] (fresh float_env 0%nat) =
    Http200 (verdict_read (six (JFloat (S754_finite false 4503599627370496 (-52))))).
Proof.
  split; [|split].
  - destruct (C9_unnormalized_value_server_error null_env [deed]
                (fresh null_env 0%nat) (@deed_registered null_env 1%nat) [deed_entry]
                null_loan_text null_loan_text (six JNull))
      as (d & Hparse & _ & Hkeep & _).
    + discriminate.
    + vm_compute. reflexivity.
    + vm_compute. reflexivity.
    + vm_compute. reflexivity.
    + vm_compute. reflexivity.
    + vm_compute. reflexivity.
    + intros key Hkey. vm_compute in Hkey.
      repeat (destruct Hkey as [<-|Hkey]; [vm_compute; eauto|]). contradiction.
    + exists d. split; [exact Hparse|].
      apply Hkeep; [now left|vm_compute; reflexivity|discriminate].
  - destruct (C9_unnormalized_value_server_error null_env [deed]
                (fresh null_env 0%nat) (@deed_registered null_env 1%nat) [deed_entry]
                null_loan_text null_loan_text (six JNull))
      as (d & _ & _ & _ & Hbad & _).
    + discriminate.
    + vm_compute. reflexivity.
    + vm_compute. reflexivity.
    + vm_compute. reflexivity.
    + vm_compute. reflexivity.
    + vm_compute. reflexivity.
    + intros key Hkey. vm_compute in Hkey.
      repeat (destruct Hkey as [<-|Hkey]; [vm_compute; eauto|]). contradiction.
    + apply Hbad. exists (str "excessive_loan"), JNull.
      split; [now left|]. split; [vm_compute; reflexivity|]. split; reflexivity.
  - destruct (C9_unnormalized_value_server_error float_env [deed]
                (fresh float_env 0%nat) (@deed_registered float_env 1%nat) [deed_entry]
                float_loan_text float_loan_text
                (six (JFloat (S754_finite false 4503599627370496 (-52)))))
      as (d & _ & _ & _ & _ & Hgood).
    + discriminate.
    + vm_compute. reflexivity.
    + vm_compute. reflexivity.
    + vm_compute. reflexivity.
    + vm_compute. reflexivity.
    + vm_compute. reflexivity.
    + intros key Hkey. vm_compute in Hkey.
      repeat (destruct Hkey as [<-|Hkey]; [vm_compute; eauto|]). contradiction.
    + apply Hgood. intros k v Hk Hget. vm_compute in Hk.
      repeat (destruct Hk as [<-|Hk];
              [vm_compute in Hget; injection Hget as <-;
               (left; reflexivity) || (right; reflexivity)|]).
      contradiction.
Defined.

(** The claim C9 as stated fails: the number 1 is neither a boolean nor a
    string and the validate step leaves it as it is, yet the endpoint
    answers 200, with [true] in its place. *)
Lemma C9_counterexample :
  parse_openai_response 900 one_loan_text = Some (six (JInt 1)) /\
  dict_get (six (JInt 1)) (str "excessive_loan") = Some (JInt 1) /\
  is_bool_or_str (JInt 1) = false /\
  endpoint one_env [deed] (fresh one_env 0%nat) =
    Http200 {| excessive_loan := true; rights_restriction := true;
               trust_property := true; residential_use := true;
               tax_delinquency := false; owner_verification := true |}.
Proof.
  vm_compute. repeat split; reflexivity.
Qed.

(** ** Errors of the asset store and of the inference call *)

Lemma no_failure_Exists (new : list event) :
  no_failure new -> ~ Exists (fun ev => is_failed_registration ev = true) new.
Proof.
  intros Hnf Hex. apply Exists_exists in Hex. destruct Hex as (ev & Hin & Hev).
  unfold no_failure in Hnf. rewrite Forall_forall in Hnf.
  specialize (Hnf ev Hin). congruence.
Qed.

Lemma no_inference_In (new : list event) (ev : event) :
  no_inference new -> In ev new -> is_inference_call ev = false.
Proof.
  unfold no_inference. rewrite Forall_forall. auto.
Qed.

Lemma calls_empty (E : Env) (w : world E) : calls E [] (fresh E w) = [].
Proof. reflexivity. Qed.

(** C4 (as amended): a failure of an asset registration is surfaced to the
    caller as an HTTP error of status 400 whose detail names the file, and
    the Fallback Verdict is never substituted for it: the failed
    registration is the last call of the request, it is the registration
    of an asset of one file of the request, made after the files before it
    have gone through and the assets before it have been registered, and
    the detail of the error holds the name of that file.  A failure of the
    inference call itself is not surfaced: the endpoint answers 200 with
    the Fallback Verdict. *)
Theorem C4_upstream_errors (E : Env) (files : list UploadFile) (w : world E) :
  (Exists (fun ev => is_failed_registration ev = true) (calls E files (fresh E w)) ->
   exists pre file post fcs st1 done name data rest ids err detail,
     files = pre ++ file :: post /\
     process_files E pre [] (fresh E w) = (Ok fcs, st1) /\
     no_failure (st_log st1) /\
     visual_assets E file = done ++ (name, data) :: rest /\
     length ids = length done /\
     calls E files (fresh E w) =
       st_log st1 ++ registered done ids ++
       [FilesCreate name data (str "vision") (inl err)] /\
     occurs (format_filename file) detail /\
     endpoint E files (fresh E w) = HttpError 400 detail) /\
  (forall model input_content call reason,
     In (ResponsesCreate model input_content call) (calls E files (fresh E w)) ->
     outcome call = inl reason ->
     endpoint E files (fresh E w) = Http200 fallback_verdict).
Proof.
  destruct files as [|file rest].
  { split.
    - rewrite calls_empty. intros H. inversion H.
    - intros model input call reason Hin. rewrite calls_empty in Hin. destruct Hin. }
  assert (Hne : file :: rest <> []) by discriminate.
  destruct (process_files E (file :: rest) [] (fresh E w)) as [[fcs|e] st1] eqn:Hp.
  - pose proof (calls_ok E _ _ _ _ Hne Hp) as Hcalls.
    destruct (process_files_outcome E _ _ _ _ _ Hp)
      as (new & Hlog & Hni & _ & Hnf & _).
    cbn in Hlog. rewrite Hlog in Hcalls. split.
    + intros Hex. exfalso. rewrite Hcalls in Hex.
      apply Exists_app in Hex. destruct Hex as [Hex|Hex].
      * now apply (no_failure_Exists new Hnf).
      * inversion Hex as [? ? Hev|? ? Hev]; [discriminate|inversion Hev].
    + intros model input call reason Hin Hout.
      rewrite Hcalls in Hin. apply in_app_or in Hin. destruct Hin as [Hin|Hin].
      * apply (no_inference_In new _ Hni) in Hin. discriminate.
      * destruct Hin as [Heq|[]]. injection Heq as _ _ <-.
        unfold endpoint. rewrite (analyze_house_ok E _ _ _ _ Hne Hp).
        rewrite invoker_outcome_cases by (right; left; now exists reason).
        now rewrite fallback_of_default.
  - assert (Hcalls : calls E (file :: rest) (fresh E w) = st_log st1)
      by (unfold calls; now rewrite (analyze_house_raise E _ _ _ _ Hp)).
    split.
    + intros Hex. rewrite Hcalls in Hex.
      destruct (process_files_failure E _ _ _ _ _ Hp)
        as (pre & f & post & fcs & st0 & Hfiles & Hpre & Hstep).
      destruct (process_files_outcome E _ _ _ _ _ Hpre)
        as (new & Hlog & _ & _ & Hnf & _).
      cbn in Hlog. rewrite <- Hlog in Hnf.
      destruct (file_step_failure E f st0 st1 e Hstep)
        as (detail & -> & [Hsame|(Hocc & done & name & data & rest' & ids & err
                                  & Hassets & Hlen & Hlog1)]).
      * exfalso. rewrite Hsame in Hex. now apply (no_failure_Exists _ Hnf).
      * exists pre, f, post, fcs, st0, done, name, data, rest', ids, err, detail.
        split; [exact Hfiles|]. split; [exact Hpre|]. split; [exact Hnf|].
        split; [exact Hassets|]. split; [exact Hlen|].
        split; [now rewrite Hcalls|]. split; [exact Hocc|].
        unfold endpoint. now rewrite (analyze_house_raise E _ _ _ _ Hp).
    + intros model input call reason Hin' _. rewrite Hcalls in Hin'.
      destruct (process_files_outcome E _ _ _ _ _ Hp) as (new & Hlog & Hni & _).
      cbn in Hlog. rewrite Hlog in Hin'.
      apply (no_inference_In new _ Hni) in Hin'. discriminate.
Qed.

Lemma C4_upstream_errors_witness :
  (exists pre file post fcs st1 done name data rest ids err detail,
     [registry; deed] = pre ++ file :: post /\
     process_files refusing_env pre [] (fresh refusing_env 0%nat) = (Ok fcs, st1) /\
     no_failure (st_log st1) /\
     visual_assets refusing_env file = done ++ (name, data) :: rest /\
     length ids = length done /\
     calls refusing_env [registry; deed] (fresh refusing_env 0%nat) =
       st_log st1 ++ registered done ids ++
       [FilesCreate name data (str "vision") (inl err)] /\
     occurs (format_filename file) detail /\
     endpoint refusing_env [registry; deed] (fresh refusing_env 0%nat) =
       HttpError 400 detail) /\
  endpoint failing_env [deed] (fresh failing_env 0%nat) = Http200 fallback_verdict.
Proof.
  split.
  - apply (proj1 (C4_upstream_errors refusing_env [registry; deed] 0%nat)).
    vm_compute. do 2 apply Exists_cons_tl. apply Exists_cons_hd. reflexivity.
  - eapply (proj2 (C4_upstream_errors failing_env [deed] 0%nat)
              MODEL (build_input_content [deed_entry]) (fails 3)).
    + vm_compute. right. left. reflexivity.
    + reflexivity.
Defined.

(** The claim C4 as stated fails twice: a failure of the inference call is
    answered with the Fallback Verdict, and a failure of a registration is
    answered with status 400, which is not a server error. *)
Lemma C4_counterexample :
  (exists reason, outcome (fails 3) = inl reason) /\
  endpoint failing_env [deed] (fresh failing_env 0%nat) = Http200 fallback_verdict /\
  Exists (fun ev => is_failed_registration ev = true)
         (calls refusing_env [deed] (fresh refusing_env 0%nat)) /\
  exists detail,
    endpoint refusing_env [deed] (fresh refusing_env 0%nat) = HttpError 400 detail /\
    ~ (500 <= 400)%Z.
Proof.
  split; [eexists; reflexivity|].
  split; [vm_compute; reflexivity|].
  split; [vm_compute; apply Exists_cons_hd; reflexivity|].
  eexists. split; [vm_compute; reflexivity|lia].
Qed.

(** ** Rejected uploads *)

Lemma file_step_rejected (E : Env) (file : UploadFile) (st : state E) :
  rejected file = true ->
  file_step E file st = (Raise (validation_error file), st).
Proof.
  unfold rejected, file_step, validation_error.
  destruct (filename_missing file); [reflexivity|]. cbn [orb].
  destruct (is_pdf_file (format_filename file)); [discriminate|].
  destruct (is_image_file (format_filename file)); [discriminate|].
  reflexivity.
Qed.

Lemma Forall_Exists_rejected (files : list UploadFile) :
  Forall (fun file => rejected file = false) files ->
  ~ Exists (fun file => rejected file = true) files.
Proof.
  intros HF HE. apply Exists_exists in HE. destruct HE as (f & Hin & Hr).
  rewrite Forall_forall in HF. specialize (HF f Hin). congruence.
Qed.

(** C7 (as amended): every uploaded item is classified by the extension of
    its filename as a PDF or an image (jpg, jpeg, png, bmp, webp, gif), in
    upload order; when some item has another extension or no filename, the
    request is aborted with an HTTP error of status 400, no inference call
    is made and no Verdict is returned.  The items before the first such
    item are processed first: when they all go through, their assets have
    been registered by the time the request is aborted with the validation
    error of that item. *)
Theorem C7_rejected_upload_aborts (E : Env) (files : list UploadFile) (w : world E) :
  Exists (fun file => rejected file = true) files ->
  (exists detail, endpoint E files (fresh E w) = HttpError 400 detail) /\
  no_inference (calls E files (fresh E w)) /\
  (forall pre file post fcs st1,
     files = pre ++ file :: post ->
     process_files E pre [] (fresh E w) = (Ok fcs, st1) ->
     rejected file = true ->
     analyze_house E files (fresh E w) = (Raise (validation_error file), st1) /\
     exists ids,
       register_all E (flat_map (visual_assets E) pre) (fresh E w) = (Ok ids, st1)).
Proof.
  intros Hex.
  destruct (process_files E files [] (fresh E w)) as [[fcs|e] st1] eqn:Hp.
  { apply process_files_outcome in Hp. destruct Hp as (new & _ & _ & HF & _).
    exfalso. now apply (Forall_Exists_rejected files HF). }
  pose proof (analyze_house_raise E _ _ _ _ Hp) as Hrun.
  destruct (process_files_outcome E _ _ _ _ _ Hp)
    as (new & Hlog & Hni & detail & f & Hin & -> & _).
  split; [exists detail; unfold endpoint; now rewrite Hrun|].
  split; [unfold calls; rewrite Hrun; cbn in Hlog; cbn [snd]; now rewrite Hlog|].
  intros pre file post fcs st2 -> Hpre Hrej. split.
  - rewrite Hrun. rewrite process_files_app, Hpre, process_files_step in Hp.
    rewrite (file_step_rejected E file st2 Hrej) in Hp.
    injection Hp as He Hst. now rewrite He, Hst.
  - apply process_files_outcome in Hpre.
    destruct Hpre as (new' & _ & _ & _ & _ & _ & ids & Hreg & _). now exists ids.
Qed.

Lemma C7_rejected_upload_aborts_witness :
  (exists detail, endpoint good_env [deed; report] (fresh good_env 0%nat)
                  = HttpError 400 detail) /\
  no_inference (calls good_env [deed; report] (fresh good_env 0%nat)).
Proof.
  destruct (C7_rejected_upload_aborts good_env [deed; report] 0%nat) as (H1 & H2 & _).
  - apply Exists_cons_tl, Exists_cons_hd. vm_compute. reflexivity.
  - split; [exact H1|exact H2].
Defined.

(** The claim C7 as stated fails: the image that comes before the
    unsupported file is registered with the asset store before the request
    is aborted. *)
Lemma C7_counterexample :
  rejected report = true /\
  calls good_env [deed; report] (fresh good_env 0%nat) =
    [FilesCreate (str "deed.jpg") [Byte.x01] (str "vision") (inr (str "file-0"))] /\
  calls good_env [deed; report] (fresh good_env 0%nat) <> [] /\
  respond (fst (analyze_house good_env [deed; report] (fresh good_env 0%nat))) =
    respond (Raise (validation_error report)).
Proof.
  vm_compute. repeat split; try reflexivity. discriminate.
Qed.

(** ** Order of the assets *)

Lemma asset_refs_images (ids : list pystr) : asset_refs (map InputImage ids) = ids.
Proof.
  unfold asset_refs. induction ids as [|id ids IH]; cbn; [reflexivity|].
  now f_equal.
Qed.

Lemma asset_refs_build (fcs : list file_content) :
  asset_refs (build_input_content fcs) = flat_map ids_of fcs.
Proof.
  unfold build_input_content, asset_refs. cbn [flat_map app].
  induction fcs as [|fc fcs IH]; [reflexivity|].
  cbn [flat_map]. rewrite flat_map_app, IH. f_equal.
  destruct fc as [name id|name ids]; [reflexivity|apply asset_refs_images].
Qed.

(** C6: for a request whose documents all go through, the file ids placed
    in the inference request are the handles of the visual assets of the
    documents, concatenated in upload order (the pages of a PDF in page
    order within their document), registered one after the other in that
    very order; the request that is sent is built from them. *)
Theorem C6_asset_order (E : Env) (files : list UploadFile)
        (st st1 : state E) (fcs : list file_content) :
  files <> [] ->
  process_files E files [] st = (Ok fcs, st1) ->
  register_all E (flat_map (visual_assets E) files) st =
    (Ok (asset_refs (build_input_content fcs)), st1) /\
  length (asset_refs (build_input_content fcs)) =
    length (flat_map (visual_assets E) files) /\
  calls E files st =
    st_log st1 ++
    [ResponsesCreate MODEL (build_input_content fcs) (call_of E fcs st1)].
Proof.
  intros Hne Hp.
  destruct (process_files_outcome E _ _ _ _ _ Hp)
    as (new & _ & _ & _ & _ & _ & ids & Hreg & Hids).
  cbn [flat_map app] in Hids. rewrite asset_refs_build, Hids.
  split; [exact Hreg|]. split.
  - apply register_all_log in Hreg. destruct Hreg as (new' & _ & _ & _ & Hlen).
    exact Hlen.
  - now apply calls_ok.
Qed.

Lemma C6_asset_order_witness :
  asset_refs (build_input_content
                [FileId (str "deed.jpg") (str "file-0");
                 PdfFileIds (str "registry.pdf") [str "file-1"; str "file-2"]])
  = [str "file-0"; str "file-1"; str "file-2"] /\
  register_all good_env (flat_map (visual_assets good_env) [deed; registry])
               (fresh good_env 0%nat)
  = (Ok [str "file-0"; str "file-1"; str "file-2"],
     snd (process_files good_env [deed; registry] [] (fresh good_env 0%nat))).
Proof.
  split; [vm_compute; reflexivity|].
  refine (proj1 (C6_asset_order good_env [deed; registry] (fresh good_env 0%nat)
                   (snd (process_files good_env [deed; registry] []
                           (fresh good_env 0%nat)))
                   [FileId (str "deed.jpg") (str "file-0");
                    PdfFileIds (str "registry.pdf") [str "file-1"; str "file-2"]]
                   _ _)).
  - discriminate.
  - vm_compute. reflexivity.
Defined.

(** ** The pages of a PDF *)

Lemma pages_from_length (E : Env) (pdf_file : UploadFile) (images : list (image E)) :
  forall i, length (pages_from E pdf_file images i) = length images.
Proof.
  induction images as [|img images IH]; intros i; cbn; [reflexivity|].
  now rewrite IH.
Qed.

Lemma pages_from_nth (E : Env) (pdf_file : UploadFile) (images : list (image E)) :
  forall i k img,
    nth_error images k = Some img ->
    nth_error (pages_from E pdf_file images i) k =
    Some (page_name pdf_file (i + k), image_save E img (str "PNG")).
Proof.
  induction images as [|img0 images IH]; intros i k img Hk.
  - destruct k; discriminate.
  - destruct k as [|k]; cbn in Hk |- *.
    + injection Hk as ->. now rewrite Nat.add_0_r.
    + rewrite (IH (S i) k img Hk). now rewrite Nat.add_succ_r.
Qed.

(** C8: the rasterizer is called at 200 DPI for PNG output; for a PDF it
    renders into N images, exactly N page entries are produced, entry k
    (from 0) carrying the page number k+1 and the PNG of image k, in page
    order, and when they are all registered the N file ids come back in
    that order; a PDF that cannot be read registers nothing and raises an
    error, which the request surfaces as an HTTP error 400 whose detail
    names the file: no page is skipped silently. *)
Theorem C8_pdf_pages (E : Env) (pdf_file : UploadFile) (st : state E) :
  filename_missing pdf_file = false ->
  is_pdf_file (format_filename pdf_file) = true ->
  match convert_from_bytes E (content pdf_file) 200 (str "PNG") with
  | inr images =>
    length (pages_from E pdf_file images 0) = length images /\
    (forall k img,
       nth_error images k = Some img ->
       nth_error (pages_from E pdf_file images 0) k =
       Some (format_filename pdf_file ++ str "_page_" ++ str_of_nat (k + 1) ++ str ".png",
             image_save E img (str "PNG"))) /\
    (forall ids st',
       register_all E (pages_from E pdf_file images 0) st = (Ok ids, st') ->
       convert_pdf_to_file_ids E pdf_file st = (Ok ids, st') /\
       length ids = length images)
  | inl e =>
    convert_pdf_to_file_ids E pdf_file st =
      (Raise (HTTPException 400 (str "PDF 이미지 변환 실패: " ++ exn_str E e)), st) /\
    (forall rest file_contents,
       exists detail,
         process_files E (pdf_file :: rest) file_contents st =
           (Raise (HTTPException 400 detail), st) /\
         occurs (format_filename pdf_file) detail)
  end.
Proof.
  intros Hm Hpdf.
  pose proof (convert_pdf_to_file_ids_run E pdf_file st) as Hrun.
  destruct (convert_from_bytes E (content pdf_file) 200 (str "PNG"))
    as [e|images] eqn:Hc.
  - split; [exact Hrun|]. intros rest acc.
    eexists. split.
    + rewrite process_files_step. unfold file_step.
      rewrite Hm, Hpdf. unfold bind, try_except, raise. rewrite Hrun. reflexivity.
    + eexists (str "PDF 처리 실패 ("), _. reflexivity.
  - split; [apply pages_from_length|]. split.
    + intros k img Hk. now rewrite (pages_from_nth E pdf_file images 0 k img Hk).
    + intros ids st' Hreg. rewrite Hreg in Hrun. split; [exact Hrun|].
      apply register_all_log in Hreg.
      destruct Hreg as (new & _ & _ & _ & Hlen).
      now rewrite Hlen, pages_from_length.
Qed.

Lemma C8_pdf_pages_witness :
  convert_pdf_to_file_ids good_env registry (fresh good_env 0%nat) =
    (Ok [str "file-0"; str "file-1"],
     snd (register_all good_env
            [(str "registry.pdf_page_1.png", [Byte.x0a]);
             (str "registry.pdf_page_2.png", [Byte.x0b])] (fresh good_env 0%nat))) /\
  exists detail,
    process_files good_env [broken_pdf] [] (fresh good_env 0%nat) =
      (Raise (HTTPException 400 detail), fresh good_env 0%nat) /\
    occurs (str "broken.pdf") detail.
Proof.
  split.
  - pose proof (C8_pdf_pages good_env registry (fresh good_env 0%nat)
                  eq_refl eq_refl) as H.
    change (convert_from_bytes good_env (content registry) 200 (str "PNG"))
      with (@inr exn (list (image good_env)) [Byte.x0a; Byte.x0b]) in H.
    cbv beta iota in H. destruct H as (_ & _ & H).
    refine (proj1 (H _ _ _)). vm_compute. reflexivity.
  - pose proof (C8_pdf_pages good_env broken_pdf (fresh good_env 0%nat)
                  eq_refl eq_refl) as H.
    change (convert_from_bytes good_env (content broken_pdf) 200 (str "PNG"))
      with (@inl exn (list (image good_env))
              (LibraryError (str "Unable to get page count."))) in H.
    cbv beta iota in H. destruct H as (_ & H).
    exact (H [] []).
Defined.

(** * Further properties of the code *)

(** ** The extractor: what it accepts and what it returns *)

Lemma all_keys_in_missing (d : dict) (keys : list pystr) (k : pystr) :
  In k keys -> dict_get d k = None -> all_keys_in (JObj d) keys = Some false.
Proof.
  induction keys as [|key keys IH]; intros Hin Hk; [contradiction|].
  cbn [all_keys_in py_contains].
  destruct Hin as [->|Hin]; [now rewrite Hk|].
  destruct (dict_get d key); [now apply IH|reflexivity].
Qed.

(** Lines 416-424: an object that lacks any one of the six keys is
    rejected, whatever else it holds. *)
Theorem validate_result_missing_key (d : dict) (k : pystr) :
  In k required_keys -> dict_get d k = None -> validate_result (JObj d) = None.
Proof.
  intros Hin Hk. unfold validate_result.
  now rewrite (all_keys_in_missing d required_keys k Hin Hk).
Qed.

Lemma validate_result_missing_key_witness :
  validate_result (JObj [(str "excessive_loan", JBool true)]) = None.
Proof.
  apply (validate_result_missing_key _ (str "trust_property")).
  - vm_compute. auto.
  - reflexivity.
Defined.

(** Every dict [parse_openai_response] returns holds all six keys, none of
    them with a string for value, and is the parsed object but for the
    strings under these keys. *)
Theorem parse_openai_response_keys (depth : nat) (text : pystr) (d : dict) :
  parse_openai_response depth text = Some d ->
  exists json_str obj,
    select_json_str text = Some json_str /\
    json_loads depth json_str = Some (JObj obj) /\
    (forall k, In k required_keys ->
       exists v, dict_get d k = Some v /\ (forall s, v <> JStr s) /\
                 option_map code_normalized (dict_get obj k) = Some v) /\
    (forall k, ~ In k required_keys -> dict_get d k = dict_get obj k).
Proof.
  unfold parse_openai_response. intros H.
  destruct (select_json_str text) as [js|]; [|discriminate].
  destruct (json_loads depth js) as [result|] eqn:Hl; [|discriminate].
  apply validate_result_inv in H. destruct H as (obj & -> & Hall & Hin & Hout).
  exists js, obj. split; [reflexivity|]. split; [exact Hl|]. split; [|exact Hout].
  intros k Hk. destruct (Hall k Hk) as [v Hv]. rewrite (Hin k Hk), Hv.
  exists (code_normalized v). split; [reflexivity|]. split; [|reflexivity].
  intros s. destruct v; discriminate.
Qed.

Lemma parse_openai_response_keys_witness :
  exists json_str obj,
    select_json_str all_true_text = Some json_str /\
    json_loads 900 json_str = Some (JObj obj) /\
    (forall k, In k required_keys ->
       exists v, dict_get (six (JBool true)) k = Some v /\ (forall s, v <> JStr s) /\
                 option_map code_normalized (dict_get obj k) = Some v) /\
    (forall k, ~ In k required_keys -> dict_get (six (JBool true)) k = dict_get obj k).
Proof.
  apply (parse_openai_response_keys 900 all_true_text). vm_compute. reflexivity.
Defined.

(** Lines 399-407: when there is no fenced block and the text holds, at any
    place, an object without inner braces that holds the key, the text
    handed to [json.loads] is such an object taken from the text; the whole
    text is not tried. *)
Theorem inline_object_found (text a b c d : pystr) :
  re_search fenced_pattern text = None ->
  text = a ++ (LBRACE :: b ++ KEY ++ c ++ [RBRACE]) ++ d ->
  brace_free b -> brace_free c ->
  exists m,
    select_json_str text = Some m /\
    (exists b' c', m = LBRACE :: b' ++ KEY ++ c' ++ [RBRACE] /\
                   brace_free b' /\ brace_free c') /\
    occurs m text.
Proof.
  intros Hf Ht Hb Hc.
  assert (Hs : re_search inline_pattern text <> None)
    by (rewrite Ht; now apply inline_search_complete).
  destruct (inline_object text) as [m|] eqn:Hm.
  - exists m. split.
    + unfold select_json_str. rewrite Hf. unfold inline_object in Hm.
      destruct (re_search inline_pattern text); [exact Hm|discriminate].
    + apply inline_object_shape in Hm. destruct Hm as [Hshape (x & y & Hxy)].
      split; [exact Hshape|]. now exists x, y.
  - unfold inline_object in Hm.
    destruct (re_search inline_pattern text); [discriminate|contradiction].
Qed.

Lemma inline_object_found_witness :
  exists m,
    select_json_str (dq "Result: {'excessive_loan': true} (done)") = Some m /\
    (exists b' c', m = LBRACE :: b' ++ KEY ++ c' ++ [RBRACE] /\
                   brace_free b' /\ brace_free c') /\
    occurs m (dq "Result: {'excessive_loan': true} (done)").
Proof.
  apply (inline_object_found (dq "Result: {'excessive_loan': true} (done)")
           (str "Result: ") [] (str ": true") (str " (done)")).
  - vm_compute. reflexivity.
  - vm_compute. reflexivity.
  - reflexivity.
  - reflexivity.
Defined.

(** ** The fenced strategy *)

Lemma run_group_word (R : Type) (r : regex) (s : pystr) (g : option pystr)
      (k : pystr -> option pystr -> option R) (res : R) :
  run (RGroup r) s g k = Some res ->
  exists w s', s = w ++ s' /\ lang r w /\ k s' (Some w) = Some res.
Proof.
  cbn [run]. intros H. apply run_sound in H.
  destruct H as (w & s' & g' & -> & L & H).
  rewrite firstn_length_app in H. now exists w, s'.
Qed.

Lemma run_sound_no_group (R : Type) (r : regex) :
  has_group r = false ->
  forall (s : pystr) (g : option pystr) (k : pystr -> option pystr -> option R) (res : R),
    run r s g k = Some res ->
    exists w s', s = w ++ s' /\ lang r w /\ k s' g = Some res.
Proof.
  induction r as [p|cl|cl|cl|r1 IH1 r2 IH2|r1 IH1]; cbn [has_group]; intros Hg s g k res H.
  - cbn [run] in H. destruct (startswith s p) eqn:Hp; [|discriminate].
    exists p, (skipn (length p) s).
    split; [now apply startswith_split|]. split; [constructor|exact H].
  - cbn [run] in H. destruct s as [|c s]; [discriminate|].
    destruct (cmatch cl c) eqn:Hc; [|discriminate].
    exists [c], s. repeat split; [now constructor|exact H].
  - cbn [run] in H. apply star_greedy_sound in H.
    destruct H as (w & s' & -> & Hw & Hk).
    exists w, s'. repeat split; [now constructor|exact Hk].
  - cbn [run] in H. apply star_lazy_sound in H.
    destruct H as (w & s' & -> & Hw & Hk).
    exists w, s'. repeat split; [now constructor|exact Hk].
  - apply orb_false_iff in Hg. destruct Hg as [Hg1 Hg2].
    cbn [run] in H. apply (IH1 Hg1) in H. destruct H as (w1 & s1 & -> & L1 & H).
    apply (IH2 Hg2) in H. destruct H as (w2 & s2 & -> & L2 & H).
    exists (w1 ++ w2), s2. rewrite <- app_assoc.
    repeat split; [now constructor|exact H].
  - discriminate.
Qed.

Lemma run_seq (R : Type) (r1 r2 : regex) (s : pystr) (g : option pystr)
      (k : pystr -> option pystr -> option R) :
  run (RSeq r1 r2) s g k = run r1 s g (fun s' g' => run r2 s' g' k).
Proof. reflexivity. Qed.

Lemma re_search_position (r : regex) (m : re_match) :
  forall s, re_search r s = Some m ->
  exists a s0 rest, s = a ++ s0 /\ match_at r s0 = Some (rest, group1 m).
Proof.
  induction s as [|c s IH]; intros H; cbn [re_search] in H.
  - destruct (match_at r []) as [[rest g]|] eqn:Hm; [|discriminate].
    injection H as <-. now exists [], [], rest.
  - destruct (match_at r (c :: s)) as [[rest g]|] eqn:Hm.
    + injection H as <-. now exists [], (c :: s), rest.
    + destruct (IH H) as (a & s0 & rest & -> & Hm0).
      now exists (c :: a), s0, rest.
Qed.

Lemma spaces_star (w : pystr) : lang (RStar CSpace) w -> forallb isspace w = true.
Proof. intros H. inversion H; subst. assumption. Qed.

(** Lines 394-398: the text taken from a fenced block starts with an
    opening brace and ends with a closing one, and sits in the response
    between the opening fence [```json] and a closing fence, with nothing
    but white space in between. *)
Theorem fenced_block_shape (text g : pystr) :
  fenced_block text = Some g ->
  exists a ws1 mid ws2 d,
    g = LBRACE :: mid ++ [RBRACE] /\
    forallb isspace ws1 = true /\ forallb isspace ws2 = true /\
    text = a ++ str "```json" ++ ws1 ++ g ++ ws2 ++ str "```" ++ d.
Proof.
  unfold fenced_block. intros H.
  destruct (re_search fenced_pattern text) as [m|] eqn:Hs; [|discriminate].
  apply re_search_position in Hs. destruct Hs as (a & s0 & rest & -> & Hm).
  rewrite H in Hm. clear H m.
  unfold match_at, fenced_pattern in Hm.
  rewrite run_seq in Hm. apply run_sound in Hm.
  destruct Hm as (w1 & s1 & g1 & -> & L1 & Hm).
  rewrite run_seq in Hm. apply run_sound in Hm.
  destruct Hm as (w2 & s2 & g2 & -> & L2 & Hm).
  rewrite run_seq in Hm. apply run_group_word in Hm.
  destruct Hm as (wg & s3 & -> & Lg & Hm).
  apply run_sound_no_group in Hm; [|reflexivity].
  destruct Hm as (w4 & s4 & -> & L4 & Hm).
  injection Hm as <- <-.
  inversion L1; subst. apply spaces_star in L2.
  inversion Lg as [| | | |? ? x y Hx Hy|]; subst.
  inversion Hx as [|? c1 Hc1| | | |]; subst.
  inversion Hy as [| | | |? ? mid z Hmid Hz|]; subst.
  inversion Hz as [|? c2 Hc2| | | |]; subst.
  inversion L4 as [| | | |? ? ws2 fence Hws Hfence|]; subst.
  apply spaces_star in Hws. inversion Hfence; subst.
  cbn in Hc1, Hc2. apply N.eqb_eq in Hc1, Hc2. subst c1 c2.
  exists a, w2, mid, ws2, s4. split; [reflexivity|].
  split; [exact L2|]. split; [exact Hws|].
  now rewrite <- !app_assoc.
Qed.

Lemma fenced_block_shape_witness :
  exists a ws1 mid ws2 d,
    str "{oops}" = LBRACE :: mid ++ [RBRACE] /\
    forallb isspace ws1 = true /\ forallb isspace ws2 = true /\
    broken_fence_text =
      a ++ str "```json" ++ ws1 ++ str "{oops}" ++ ws2 ++ str "```" ++ d.
Proof.
  apply fenced_block_shape. vm_compute. reflexivity.
Defined.

(** ** Classification *)

Ltac compute_rev ext :=
  let x := eval vm_compute in (rev (str ext)) in
  change (rev (str ext)) with x in *.

(** [is_pdf_file] and [is_image_file], lines 169-176: no filename is both
    a PDF and an image, so the order of the two tests in [analyze_house]
    decides nothing. *)
Theorem pdf_is_not_image (name : pystr) :
  is_pdf_file name = true -> is_image_file name = false.
Proof.
  unfold is_pdf_file, is_image_file, image_extensions, endswith.
  generalize (rev (lower name)). intros r H. cbn [existsb].
  compute_rev ".pdf"%string. compute_rev ".jpg"%string. compute_rev ".jpeg"%string.
  compute_rev ".png"%string. compute_rev ".bmp"%string. compute_rev ".webp"%string. compute_rev ".gif"%string.
  destruct r as [|c1 [|c2 r]]; cbn [startswith] in *; try discriminate.
  - now rewrite andb_false_r in H.
  - apply andb_true_iff in H. destruct H as [H1 H].
    apply andb_true_iff in H. destruct H as [H2 _].
    apply N.eqb_eq in H1, H2. subst c1 c2. reflexivity.
Qed.

Lemma pdf_is_not_image_witness : is_image_file (str "scan.jpg.PDF") = false.
Proof. apply pdf_is_not_image. vm_compute. reflexivity. Defined.

(** ** Registration *)


Lemma register_all_fail (E : Env) (pre post : list (pystr * bytes))
      (name : pystr) (data : bytes) (st st1 : state E) (ids : list pystr) (e : exn) :
  register_all E pre st = (Ok ids, st1) ->
  fst (files_create E name data (str "vision") (st_world st1)) = inl e ->
  register_all E (pre ++ (name, data) :: post) st =
  (Raise e,
   {| st_world := snd (files_create E name data (str "vision") (st_world st1));
      st_log := st_log st1 ++ [FilesCreate name data (str "vision") (inl e)] |}).
Proof.
  intros Hpre Hf. rewrite register_all_app, Hpre.
  cbn [register_all]. unfold bind at 1. rewrite client_files_create_run, Hf.
  reflexivity.
Qed.

(** [convert_pdf_to_file_ids], lines 241-262: when the registration of a
    page fails, the function raises the 400 error; the pages before it have
    been registered, in page order, and stay registered (nothing is
    released), and no later page is sent. *)
Theorem pdf_page_failure_keeps_earlier_pages (E : Env) (pdf_file : UploadFile)
        (images : list (image E)) (pre post : list (pystr * bytes))
        (name : pystr) (data : bytes) (st st1 : state E) (ids : list pystr) (e : exn) :
  convert_from_bytes E (content pdf_file) 200 (str "PNG") = inr images ->
  pages_from E pdf_file images 0 = pre ++ (name, data) :: post ->
  register_all E pre st = (Ok ids, st1) ->
  fst (files_create E name data (str "vision") (st_world st1)) = inl e ->
  convert_pdf_to_file_ids E pdf_file st =
    (Raise (HTTPException 400 (str "PDF 이미지 변환 실패: " ++ exn_str E e)),
     {| st_world := snd (files_create E name data (str "vision") (st_world st1));
        st_log := st_log st ++ registered pre ids ++
                  [FilesCreate name data (str "vision") (inl e)] |}) /\
  length ids = length pre.
Proof.
  intros Hc Hpages Hpre Hf.
  rewrite convert_pdf_to_file_ids_run, Hc, Hpages.
  rewrite (register_all_fail E pre post name data st st1 ids e Hpre Hf).
  destruct (register_all_ok_log E pre st st1 ids Hpre) as [Hlog Hlen].
  rewrite Hlog, <- app_assoc. split; [reflexivity|exact Hlen].
Qed.

Lemma pdf_page_failure_keeps_earlier_pages_witness :
  exists st2,
    convert_pdf_to_file_ids page_refusing_env registry (fresh page_refusing_env 0%nat) =
      (Raise (HTTPException 400
                (str "PDF 이미지 변환 실패: " ++ str "upload refused")), st2) /\
    st_log st2 =
      [FilesCreate (str "registry.pdf_page_1.png") [Byte.x0a] (str "vision")
                   (inr (str "file-0"));
       FilesCreate (str "registry.pdf_page_2.png") [Byte.x0b] (str "vision")
                   (inl (LibraryError (str "upload refused")))].
Proof.
  destruct (pdf_page_failure_keeps_earlier_pages page_refusing_env registry
              [Byte.x0a; Byte.x0b]
              [(str "registry.pdf_page_1.png", [Byte.x0a])] []
              (str "registry.pdf_page_2.png") [Byte.x0b]
              (fresh page_refusing_env 0%nat)
              {| st_world := 1%nat : world page_refusing_env;
                 st_log := [FilesCreate (str "registry.pdf_page_1.png") [Byte.x0a]
                              (str "vision") (inr (str "file-0"))] |}
              [str "file-0"] (LibraryError (str "upload refused")))
    as [Hrun _].
  - reflexivity.
  - vm_compute. reflexivity.
  - vm_compute. reflexivity.
  - vm_compute. reflexivity.
  - eexists. split; [exact Hrun|]. vm_compute. reflexivity.
Defined.

(** [upload_file_to_openai], lines 209-215, and its caller: an image that
    fails the integrity check is never sent to the asset store; the request
    is aborted with status 400 and the state of the store is untouched. *)
Theorem invalid_image_is_not_uploaded (E : Env) (file : UploadFile)
        (rest : list UploadFile) (file_contents : list file_content) (st : state E) :
  filename_missing file = false ->
  is_pdf_file (format_filename file) = false ->
  is_image_file (format_filename file) = true ->
  image_verify E (content file) = false ->
  upload_file_to_openai E file st =
    (Raise (HTTPException 400
       (str "파일 업로드 실패: " ++
        exn_str E (ValueError (str "유효하지 않은 이미지 파일입니다.")))), st) /\
  exists detail,
    process_files E (file :: rest) file_contents st =
      (Raise (HTTPException 400 detail), st) /\
    occurs (format_filename file) detail.
Proof.
  intros Hm Hpdf Himg Hv.
  assert (Hup : upload_file_to_openai E file st =
    (Raise (HTTPException 400
       (str "파일 업로드 실패: " ++
        exn_str E (ValueError (str "유효하지 않은 이미지 파일입니다.")))), st))
    by (rewrite (upload_file_to_openai_run E file st Hm), Himg, Hv; reflexivity).
  split; [exact Hup|].
  eexists. split.
  - rewrite process_files_step. unfold file_step.
    rewrite Hm, Hpdf, Himg. unfold bind, try_except, raise. rewrite Hup. reflexivity.
  - eexists (str "이미지 처리 실패 ("), _. reflexivity.
Qed.

Lemma invalid_image_is_not_uploaded_witness :
  exists detail,
    process_files good_env [empty_image; deed] [] (fresh good_env 0%nat) =
      (Raise (HTTPException 400 detail), fresh good_env 0%nat) /\
    occurs (str "blank.png") detail.
Proof.
  apply (invalid_image_is_not_uploaded good_env empty_image [deed] []
           (fresh good_env 0%nat)); reflexivity.
Defined.

(** ** The loop of [analyze_house] stops at the first failure *)

(** Lines 454-489: once a file has failed, the files after it are neither
    read nor registered: the outcome and the calls made are those of the
    request cut after the failing file. *)
Theorem process_files_stops_at_failure (E : Env) (files post : list UploadFile)
        (file_contents : list file_content) (st st' : state E) (e : exn) :
  process_files E files file_contents st = (Raise e, st') ->
  process_files E (files ++ post) file_contents st = (Raise e, st') /\
  (file_contents = [] -> files <> [] ->
   analyze_house E (files ++ post) st = analyze_house E files st).
Proof.
  intros H. split.
  - now rewrite process_files_app, H.
  - intros -> Hne.
    rewrite (analyze_house_raise E files st st' e H).
    apply analyze_house_raise. now rewrite process_files_app, H.
Qed.

Lemma process_files_stops_at_failure_witness :
  analyze_house good_env ([deed; report] ++ [registry]) (fresh good_env 0%nat) =
  analyze_house good_env [deed; report] (fresh good_env 0%nat).
Proof.
  refine (proj2 (process_files_stops_at_failure good_env [deed; report] [registry] []
                   (fresh good_env 0%nat)
                   (snd (process_files good_env [deed; report] [] (fresh good_env 0%nat)))
                   (validation_error report) _) eq_refl _).
  - vm_compute. reflexivity.
  - discriminate.
Defined.

(** ** What the endpoint can answer *)

(** [analyze_house], lines 447-504: whatever the files, the store and the
    inference service do, the response the handler produces is 200 with a
    Verdict, or 400, or 500 with the message of the response-model
    validation; no other status and no unhandled exception leaves the
    handler. *)
Theorem endpoint_statuses (E : Env) (files : list UploadFile) (st : state E) :
  (exists body, endpoint E files st = Http200 body) \/
  (exists detail, endpoint E files st = HttpError 400 detail) \/
  endpoint E files st =
    HttpError 500 (str "분석 중 오류 발생: " ++ exn_str E ValidationError).
Proof.
  unfold endpoint. destruct files as [|file rest].
  { right. left. eexists. reflexivity. }
  destruct (process_files E (file :: rest) [] st) as [[fcs|e] st1] eqn:Hp.
  - rewrite (analyze_house_ok E (file :: rest) st st1 fcs); [|discriminate|exact Hp].
    destruct (AnalysisResponse_of _) as [body|].
    + left. now exists body.
    + right. right. reflexivity.
  - rewrite (analyze_house_raise E _ _ _ _ Hp).
    apply process_files_outcome in Hp.
    destruct Hp as (new & _ & _ & detail & f & _ & -> & _).
    right. left. now exists detail.
Qed.

(** Lines 447-504: a 200 answer is only given to a request with at least
    one file, all of them accepted by the classifier and registered without
    a failure, after exactly one inference call, made last; its body is the
    validated result of that call. *)
Theorem success_requires_full_run (E : Env) (files : list UploadFile)
        (w : world E) (body : AnalysisResponse) :
  endpoint E files (fresh E w) = Http200 body ->
  files <> [] /\
  Forall (fun file => rejected file = false) files /\
  exists fcs st1,
    process_files E files [] (fresh E w) = (Ok fcs, st1) /\
    no_failure (st_log st1) /\ no_inference (st_log st1) /\
    calls E files (fresh E w) =
      st_log st1 ++
      [ResponsesCreate MODEL (build_input_content fcs) (call_of E fcs st1)] /\
    AnalysisResponse_of
      (result_of_outcome (nesting_room E) (invoker_outcome (call_of E fcs st1)))
      = Some body.
Proof.
  unfold endpoint. intros H.
  destruct files as [|file rest]; [discriminate|].
  split; [discriminate|].
  assert (Hne : file :: rest <> []) by discriminate.
  destruct (process_files E (file :: rest) [] (fresh E w)) as [[fcs|e] st1] eqn:Hp.
  - pose proof (calls_ok E _ _ _ _ Hne Hp) as Hcalls.
    rewrite (analyze_house_ok E _ _ _ _ Hne Hp) in H.
    destruct (process_files_outcome E _ _ _ _ _ Hp)
      as (new & Hlog & Hni & Hrej & Hnf & _).
    cbn in Hlog. split; [exact Hrej|]. exists fcs, st1.
    split; [reflexivity|]. rewrite Hlog.
    split; [exact Hnf|]. split; [exact Hni|].
    split; [now rewrite Hcalls, Hlog|].
    destruct (AnalysisResponse_of _) as [b|]; [|discriminate].
    cbn in H. now injection H as ->.
  - rewrite (analyze_house_raise E _ _ _ _ Hp) in H.
    apply process_files_outcome in Hp.
    destruct Hp as (new & _ & _ & detail & f & _ & -> & _). discriminate.
Qed.

Lemma success_requires_full_run_witness :
  Forall (fun file => rejected file = false) [deed; registry].
Proof.
  refine (proj1 (proj2 (success_requires_full_run good_env [deed; registry] 0%nat
                          {| excessive_loan := true; rights_restriction := true;
                             trust_property := true; residential_use := true;
                             tax_delinquency := false; owner_verification := true |}
                          _))).
  vm_compute. reflexivity.
Defined.

(** ** The inference stage *)

Lemma default_keys (k : pystr) :
  In k required_keys ->
  exists b, dict_get get_default_analysis_result k = Some (JBool b).
Proof.
  unfold required_keys. cbn [In].
  intros [<-|[<-|[<-|[<-|[<-|[<-|[]]]]]]]; vm_compute; eauto.
Qed.

(** [analyze_files_with_openai], lines 264-385: the function never raises:
    whatever the inference call does, it submits the request once and the
    value it computes for its caller is a dict that holds all six keys,
    none of them with a string for value. *)
Theorem analyze_files_with_openai_total (E : Env) (file_contents : list file_content)
        (st : state E) :
  exists d,
    analyze_files_with_openai E file_contents st = (Ok d, after_call E file_contents st) /\
    st_log (after_call E file_contents st) =
      st_log st ++
      [ResponsesCreate MODEL (build_input_content file_contents)
         (call_of E file_contents st)] /\
    forall k, In k required_keys ->
      exists v, dict_get d k = Some v /\ forall s, v <> JStr s.
Proof.
  eexists. split; [apply analyze_files_with_openai_run|].
  split; [reflexivity|].
  intros k Hk.
  assert (Hdef : exists v, dict_get get_default_analysis_result k = Some v /\
                           forall s, v <> JStr s).
  { destruct (default_keys k Hk) as [b Hb]. exists (JBool b).
    split; [exact Hb|discriminate]. }
  destruct (invoker_outcome (call_of E file_contents st)) as [rawText| |reason];
    cbn [result_of_outcome]; try exact Hdef.
  unfold parse_openai_response.
  destruct (select_json_str rawText) as [js|]; [|exact Hdef].
  destruct (json_loads (nesting_room E) js) as [result|]; [|exact Hdef].
  destruct (validate_result result) as [d|] eqn:Hv; [|exact Hdef].
  apply validate_result_inv in Hv. destruct Hv as (obj & _ & Hall & Hin & _).
  destruct (Hall k Hk) as [v Hv]. exists (code_normalized v).
  rewrite (Hin k Hk), Hv. split; [reflexivity|].
  intros s. destruct v; discriminate.
Qed.

(** ** The answer of a well-formed response *)

Lemma field_normalized (d obj : dict) (name : string) (v : json) :
  dict_get d (str name) = option_map code_normalized (dict_get obj (str name)) ->
  dict_get obj (str name) = Some v ->
  is_bool_or_str v = true ->
  field d name = Some (as_bool (dict_get obj (str name))).
Proof.
  intros Hd Hobj Hbs. unfold field. rewrite Hd, Hobj.
  destruct v; try discriminate; reflexivity.
Qed.

Lemma AnalysisResponse_of_normalized (d obj : dict) :
  (forall k, In k required_keys ->
     dict_get d k = option_map code_normalized (dict_get obj k)) ->
  (forall k, In k required_keys ->
     exists v, dict_get obj k = Some v /\ is_bool_or_str v = true) ->
  AnalysisResponse_of d = Some (verdict_of obj).
Proof.
  intros Hin Hall. unfold AnalysisResponse_of, verdict_of.
  assert (Hf : forall name, In (str name) required_keys ->
             field d name = Some (as_bool (dict_get obj (str name)))).
  { intros name Hk. destruct (Hall _ Hk) as (v & Hv & Hbs).
    exact (field_normalized d obj name v (Hin _ Hk) Hv Hbs). }
  rewrite !Hf by (unfold required_keys; cbn [In]; tauto).
  reflexivity.
Qed.

(** Lines 366-374 and 495-499: when the inference call finishes within the
    deadline with an answer and the text chosen from its answer parses to an object whose
    six values are booleans or strings, the endpoint answers 200 with
    exactly these values, strings read by their token. *)
Theorem valid_answer_is_returned (E : Env) (files : list UploadFile)
        (st st1 : state E) (fcs : list file_content)
        (rawText json_str : pystr) (obj : dict) :
  files <> [] ->
  process_files E files [] st = (Ok fcs, st1) ->
  finishes (call_of E fcs st1) = true ->
  (latency (call_of E fcs st1) <= TIMEOUT)%nat ->
  outcome (call_of E fcs st1) = inr rawText ->
  select_json_str rawText = Some json_str ->
  json_loads (nesting_room E) json_str = Some (JObj obj) ->
  (forall k, In k required_keys ->
     exists v, dict_get obj k = Some v /\ is_bool_or_str v = true) ->
  endpoint E files st = Http200 (verdict_of obj).
Proof.
  intros Hne Hp Hfin Hlat Hout Hsel Hload Hall.
  assert (Hall' : forall k, In k required_keys -> exists v, dict_get obj k = Some v).
  { intros k Hk. destruct (Hall k Hk) as (v & Hv & _). now exists v. }
  destruct (normalize_spec required_keys required_keys_NoDup obj Hall')
    as (d & Hn & Hin & _).
  assert (Hparse : parse_openai_response (nesting_room E) rawText = Some d).
  { unfold parse_openai_response, validate_result.
    now rewrite Hsel, Hload, (all_keys_in_dict obj required_keys Hall'). }
  assert (Hres : result_of_outcome (nesting_room E)
                   (invoker_outcome (call_of E fcs st1)) = d).
  { unfold invoker_outcome, done_within. apply Nat.leb_le in Hlat.
    rewrite Hfin, Hlat, Hout. cbn [andb result_of_outcome]. now rewrite Hparse. }
  unfold endpoint. rewrite (analyze_house_ok E files st st1 fcs Hne Hp), Hres.
  now rewrite (AnalysisResponse_of_normalized d obj Hin Hall).
Qed.

Lemma valid_answer_is_returned_witness :
  endpoint good_env [deed] (fresh good_env 0%nat) =
  Http200 (verdict_of (six (JBool true))).
Proof.
  refine (valid_answer_is_returned good_env [deed] (fresh good_env 0%nat)
            (@deed_registered good_env 1%nat) [deed_entry] all_true_text
            (dq "{'excessive_loan': true, 'rights_restriction': true, 'trust_property': true,
 'residential_use': true, 'tax_delinquency': false, 'owner_verification': true}")
            (six (JBool true)) _ _ _ _ _ _ _ _).
  - discriminate.
  - vm_compute. reflexivity.
  - reflexivity.
  - vm_compute. lia.
  - reflexivity.
  - vm_compute. reflexivity.
  - vm_compute. reflexivity.
  - intros k Hk. unfold required_keys in Hk. cbn [In] in Hk.
    destruct Hk as [<-|[<-|[<-|[<-|[<-|[<-|[]]]]]]]; vm_compute; eauto.
Defined.

(** * The license verification flow *)

Import License.

(** ** [parse_address] *)

Lemma whitespace_isspace (c : N) : existsb (N.eqb c) whitespace = isspace c.
Proof.
  unfold whitespace, isspace. cbn [existsb].
  repeat match goal with
         | |- context [c =? ?k] =>
           destruct (N.eqb_spec c k) as [->|?]; [reflexivity|]
         end.
  cbn [orb].
  repeat match goal with
         | |- context [?a <=? ?b] => destruct (N.leb_spec a b)
         end; cbn; try reflexivity; lia.
Qed.

Lemma nonspace_class (w : pystr) :
  forallb (cmatch NONSPACE) w = forallb (fun c => negb (isspace c)) w.
Proof.
  induction w as [|c w IH]; [reflexivity|].
  cbn [forallb]. rewrite IH. unfold NONSPACE at 1. cbn [cmatch].
  now rewrite whitespace_isspace.
Qed.

Lemma token_lang (suffix : string) (w : pystr) :
  lang (token suffix) w ->
  forallb (fun c => negb (isspace c)) (str suffix) = true ->
  forallb (fun c => negb (isspace c)) w = true /\
  exists body, w = body ++ str suffix /\ body <> [].
Proof.
  unfold token. intros H Hs.
  inversion H as [| | | |? ? w1 t1 H1 T1|]; subst; clear H.
  inversion T1 as [| | | |? ? w2 t2 H2 T2|]; subst; clear T1.
  inversion H1 as [|? c Hc| | | |]; subst; clear H1.
  inversion H2 as [| |? ? Hw| | |]; subst; clear H2.
  inversion T2; subst; clear T2.
  split.
  - cbn [app forallb]. rewrite forallb_app, <- nonspace_class, Hw, Hs.
    unfold NONSPACE in Hc. cbn [cmatch] in Hc. rewrite whitespace_isspace in Hc.
    now rewrite Hc.
  - exists (c :: w2). split; [reflexivity|discriminate].
Qed.

Lemma match_alts_sound (alts : list regex) (s remaining : pystr) :
  match_alts alts s = Some remaining ->
  exists r w, In r alts /\ lang r w /\ s = w ++ remaining.
Proof.
  induction alts as [|r alts IH]; cbn [match_alts]; intros H; [discriminate|].
  destruct (match_at r s) as [[rest g]|] eqn:Hm.
  - injection H as <-. apply match_at_sound in Hm. destruct Hm as (w & Hs & L).
    exists r, w. split; [now left|]. split; assumption.
  - destruct (IH H) as (r' & w & Hin & L & Hs).
    exists r', w. split; [now right|]. split; assumption.
Qed.

Lemma match_alts_word (alts : list regex) (s remaining : pystr) :
  match_alts alts s = Some remaining ->
  exists r, In r alts /\
            lang r (firstn (length s - length remaining) s) /\
            s = firstn (length s - length remaining) s ++ remaining.
Proof.
  intros H. apply match_alts_sound in H. destruct H as (r & w & Hin & L & ->).
  rewrite firstn_length_app. now exists r.
Qed.

Lemma re_search_alts_sound (alts : list regex) (w : pystr) :
  forall s, re_search_alts alts s = Some w ->
  exists r, In r alts /\ lang r w /\ occurs w s.
Proof.
  induction s as [|c s IH]; intros H; cbn [re_search_alts] in H.
  - destruct (match_alts alts []) as [remaining|] eqn:Hm; [|discriminate].
    injection H as <-. apply match_alts_word in Hm.
    destruct Hm as (r & Hin & L & Hs).
    exists r. split; [exact Hin|]. split; [exact L|]. now exists [], remaining.
  - destruct (match_alts alts (c :: s)) as [remaining|] eqn:Hm.
    + injection H as <-. apply match_alts_word in Hm.
      destruct Hm as (r & Hin & L & Hs).
      exists r. split; [exact Hin|]. split; [exact L|]. now exists [], remaining.
    + destruct (IH H) as (r & Hin & L & (a & b & ->)).
      exists r. split; [exact Hin|]. split; [exact L|]. now exists (c :: a), b.
Qed.

Lemma find_from_spec (p : pystr) :
  forall s i j,
    find_from s p i = Some j ->
    exists pre,
      j = (i + length pre)%nat /\
      s = pre ++ p ++ skipn (length pre + length p) s /\
      (forall a1 b1, s = a1 ++ p ++ b1 -> length pre <= length a1)%nat.
Proof.
  induction s as [|c s IH]; intros i j H; cbn [find_from] in H.
  - destruct (startswith [] p) eqn:Hp; [|discriminate].
    injection H as <-. exists []. split; [cbn; lia|].
    split; [cbn; now apply startswith_split|]. intros; cbn; lia.
  - destruct (startswith (c :: s) p) eqn:Hp.
    + injection H as <-. exists []. split; [cbn; lia|].
      split; [now apply startswith_split|]. intros; cbn; lia.
    + destruct (IH _ _ H) as (pre & -> & Hs & Hmin).
      exists (c :: pre). split; [cbn; lia|]. split.
      * cbn [app length Nat.add skipn]. now f_equal.
      * intros a1 b1 Ha. destruct a1 as [|x a1].
        -- cbn [app] in Ha. rewrite Ha, startswith_app in Hp. discriminate.
        -- cbn [app] in Ha. injection Ha as _ Ha. cbn [length].
           specialize (Hmin a1 b1 Ha). lia.
Qed.

Lemma find_from_contains (p : pystr) :
  forall s i, str_contains s p = true -> find_from s p i <> None.
Proof.
  induction s as [|c s IH]; intros i H; cbn [find_from str_contains] in *.
  - rewrite orb_false_r in H. now rewrite H.
  - destruct (startswith (c :: s) p); [discriminate|]. now apply IH.
Qed.

(** The text after the first occurrence of [p]. *)
Lemma slice_after_first (s p : pystr) :
  str_contains s p = true ->
  exists pre,
    s = pre ++ p ++ slice_from s (find s p + Z.of_nat (length p)) /\
    (forall a1 b1, s = a1 ++ p ++ b1 -> length pre <= length a1)%nat.
Proof.
  intros H. unfold find.
  destruct (find_from s p 0) as [j|] eqn:Hf;
    [|now apply (find_from_contains p s 0) in H].
  destruct (find_from_spec p s 0 j Hf) as (pre & -> & Hs & Hmin).
  exists pre. split; [|exact Hmin].
  unfold slice_from.
  destruct (Z.of_nat (0 + length pre) + Z.of_nat (length p) <? 0)%Z eqn:Hneg;
    [apply Z.ltb_lt in Hneg; lia|].
  rewrite <- Nat2Z.inj_add, Nat2Z.id. exact Hs.
Qed.

Lemma first_city_spec (address : pystr) (table : list (pystr * pystr)) :
  match first_city table address with
  | Some (city, code) =>
    exists pre post,
      table = pre ++ (city, code) :: post /\
      str_contains address city = true /\
      Forall (fun entry => ~ occurs (fst entry) address) pre
  | None => Forall (fun entry => ~ occurs (fst entry) address) table
  end.
Proof.
  induction table as [|[city code] table IH]; cbn [first_city]; [constructor|].
  destruct (str_contains address city) eqn:Hc.
  - exists [], table. split; [reflexivity|]. split; [exact Hc|constructor].
  - destruct (first_city table address) as [[city' code']|].
    + destruct IH as (pre & post & -> & Hc' & HF).
      exists ((city, code) :: pre), post. split; [reflexivity|].
      split; [exact Hc'|]. constructor; [|exact HF].
      now apply not_occurs.
    + constructor; [now apply not_occurs|exact IH].
Qed.

Lemma city_codes_nonempty :
  Forall (fun entry => snd entry <> []) CITY_CODES.
Proof.
  vm_compute. repeat constructor; discriminate.
Qed.

(** [parse_address], lines 66-75 and 93-95: the city is the first entry of
    the table, in the order of the table, whose name occurs anywhere in the
    address, and the code is the one of that entry; the call fails, with
    status 400, exactly when no name of the table occurs in the address. *)
Theorem parse_address_city (P : Portal) (address : pystr) :
  match parse_address P address with
  | Return (city_code, city_name, _, _) =>
    exists pre post,
      CITY_CODES = pre ++ (city_name, city_code) :: post /\
      occurs city_name address /\
      Forall (fun entry => ~ occurs (fst entry) address) pre
  | Throw e =>
    e = HTTPException 400
          (str "주소 파싱 실패: " ++
           error_str P (ValueError (str "시/도를 찾을 수 없습니다."))) /\
    Forall (fun entry => ~ occurs (fst entry) address) CITY_CODES
  end.
Proof.
  unfold parse_address.
  pose proof (first_city_spec address CITY_CODES) as Hspec.
  destruct (first_city CITY_CODES address) as [[city code]|].
  - destruct Hspec as (pre & post & Ht & Hc & HF).
    destruct code as [|c code].
    + exfalso. pose proof city_codes_nonempty as Hne.
      rewrite Ht in Hne. apply Forall_app in Hne. destruct Hne as [_ Hne].
      inversion Hne as [|? ? Hbad _]. now apply Hbad.
    + exists pre, post. split; [exact Ht|]. split; [|exact HF].
      now apply str_contains_occurs.
  - split; [reflexivity|exact Hspec].
Qed.

(** Lines 77-91: the district and the neighbourhood are looked for in the
    text that follows the first occurrence of the city name: each one
    found is a run of characters without white space that occurs there and
    ends, after at least one character, with 구, 군 or 시 (for the district)
    or with 동, 읍 or 면 (for the neighbourhood). *)
Theorem parse_address_tokens (P : Portal) (address city_code city_name : pystr)
        (district_name dong_name : option pystr) :
  parse_address P address = Return (city_code, city_name, district_name, dong_name) ->
  exists pre rest,
    address = pre ++ city_name ++ rest /\
    (forall a1 b1, address = a1 ++ city_name ++ b1 -> length pre <= length a1)%nat /\
    (forall w, district_name = Some w ->
       is_token [str "구"; str "군"; str "시"] w rest) /\
    (forall w, dong_name = Some w ->
       is_token [str "동"; str "읍"; str "면"] w rest).
Proof.
  unfold parse_address.
  pose proof (first_city_spec address CITY_CODES) as Hspec.
  destruct (first_city CITY_CODES address) as [[city code]|]; [|discriminate].
  destruct Hspec as (_ & _ & _ & Hc & _).
  destruct code as [|c code]; [discriminate|].
  intros H. injection H as <- <- <- <-.
  destruct (slice_after_first address city Hc) as (pre & Ha & Hmin).
  set (rest := slice_from address (find address city + Z.of_nat (length city))) in *.
  exists pre, rest. split; [exact Ha|]. split; [exact Hmin|].
  assert (Hin : forall w, occurs w (strip rest) -> occurs w rest).
  { intros w (x & y & Hw). destruct (strip_infix rest) as (a & b & Hr).
    exists (a ++ x), (y ++ b). rewrite Hr at 1. rewrite Hw.
    now rewrite <- !app_assoc. }
  split; intros w Hw; apply re_search_alts_sound in Hw;
    destruct Hw as (r & Hr & L & Hocc); (split; [now apply Hin|]);
    cbn [district_pattern dong_pattern In] in Hr;
    destruct Hr as [<-|[<-|[<-|[]]]];
    (apply token_lang in L; [|reflexivity]);
    destruct L as (Hns & body & -> & Hne);
    (split; [exact Hns|]); eexists body, _;
    (split; [reflexivity|]); (split; [exact Hne|]); cbn [In]; tauto.
Qed.

Lemma parse_address_tokens_witness :
  exists pre rest,
    gangnam = pre ++ str "서울특별시" ++ rest /\
    (forall a1 b1, gangnam = a1 ++ str "서울특별시" ++ b1 -> length pre <= length a1)%nat /\
    (forall w, Some (str "강남구") = Some w ->
       is_token [str "구"; str "군"; str "시"] w rest) /\
    (forall w, Some (str "역삼동") = Some w ->
       is_token [str "동"; str "읍"; str "면"] w rest).
Proof.
  apply (parse_address_tokens (demo_portal []) gangnam (str "11")).
  vm_compute. reflexivity.
Defined.

(** ** The requests of a verification *)

Lemma get_district_codes_run (P : Portal) (v : json) (st : pstate P) :
  get_district_codes P v st =
  (match fst (post_codes P v (p_world st)) with
   | inr answer =>
     match code_list_of answer with
     | Some l => Return l
     | None =>
       Throw (HTTPException 500 (str "구 코드 조회 실패: " ++ error_str P AttributeError))
     end
   | inl e => Throw (HTTPException 500 (str "구 코드 조회 실패: " ++ error_str P e))
   end,
   {| p_world := snd (post_codes P v (p_world st));
      p_log := p_log st ++ [CodesRequest v (fst (post_codes P v (p_world st)))] |}).
Proof.
  unfold get_district_codes, try_except, bind, request_codes, get_code_list,
    code_list_of, ret, throw.
  destruct (post_codes P v (p_world st)) as [[e|answer] w]; [reflexivity|].
  cbn [fst snd]. destruct answer; try reflexivity.
  destruct (dict_get d (str "codeList")); reflexivity.
Qed.

Lemma get_dong_codes_run (P : Portal) (v : json) (st : pstate P) :
  get_dong_codes P v st =
  (match fst (post_codes P v (p_world st)) with
   | inr answer =>
     match code_list_of answer with
     | Some l => Return l
     | None =>
       Throw (HTTPException 500 (str "동 코드 조회 실패: " ++ error_str P AttributeError))
     end
   | inl e => Throw (HTTPException 500 (str "동 코드 조회 실패: " ++ error_str P e))
   end,
   {| p_world := snd (post_codes P v (p_world st));
      p_log := p_log st ++ [CodesRequest v (fst (post_codes P v (p_world st)))] |}).
Proof.
  unfold get_dong_codes, try_except, bind, request_codes, get_code_list,
    code_list_of, ret, throw.
  destruct (post_codes P v (p_world st)) as [[e|answer] w]; [reflexivity|].
  cbn [fst snd]. destruct answer; try reflexivity.
  destruct (dict_get d (str "codeList")); reflexivity.
Qed.

(** A successful lookup of codes: the request made and the list read. *)
Lemma codes_success (P : Portal) (v l : json) (st st' : pstate P)
      (run : pstate P -> result json * pstate P) (msg : pystr) :
  run st =
  (match fst (post_codes P v (p_world st)) with
   | inr answer =>
     match code_list_of answer with
     | Some l => Return l
     | None => Throw (HTTPException 500 (msg ++ error_str P AttributeError))
     end
   | inl e => Throw (HTTPException 500 (msg ++ error_str P e))
   end,
   {| p_world := snd (post_codes P v (p_world st));
      p_log := p_log st ++ [CodesRequest v (fst (post_codes P v (p_world st)))] |}) ->
  run st = (Return l, st') ->
  exists answer,
    fst (post_codes P v (p_world st)) = inr answer /\
    code_list_of answer = Some l /\
    p_log st' = p_log st ++ [CodesRequest v (inr answer)].
Proof.
  intros Hrun H. rewrite Hrun in H.
  destruct (fst (post_codes P v (p_world st))) as [e|answer]; [discriminate|].
  destruct (code_list_of answer) as [l'|] eqn:Hl; [|discriminate].
  injection H as <- <-. exists answer. cbn [p_log]. repeat split. exact Hl.
Qed.

Lemma code_missing_false (code : option json) :
  code_missing code = false ->
  exists v, code = Some v /\ py_truthy v = true.
Proof.
  destruct code as [v|]; cbn; [|discriminate].
  intros H. apply negb_false_iff in H. now exists v.
Qed.

(** What a successful [get_administrative_code] has done. *)
Lemma get_administrative_code_success (P : Portal) (address : pystr)
      (st st' : pstate P) (admin_code : json) :
  get_administrative_code P address st = (Return admin_code, st') ->
  exists city_code city_name district_name dong_name r1 l1 district_code r2 l2,
    parse_address P address =
      Return (city_code, city_name, district_name, dong_name) /\
    fst (post_codes P (JStr city_code) (p_world st)) = inr r1 /\
    code_list_of r1 = Some l1 /\
    find_code district_name l1 = Return (Some district_code) /\
    py_truthy district_code = true /\
    code_list_of r2 = Some l2 /\
    find_code dong_name l2 = Return (Some admin_code) /\
    py_truthy admin_code = true /\
    p_log st' = p_log st ++
      [CodesRequest (JStr city_code) (inr r1); CodesRequest district_code (inr r2)].
Proof.
  unfold get_administrative_code, try_except at 1, bind at 1, lift at 1.
  destruct (parse_address P address) as [[[[cc cn] dn] gn]|e]; [|discriminate].
  unfold bind at 1.
  destruct (get_district_codes P (JStr cc) st) as [[l1|e] st1] eqn:H1; [|discriminate].
  destruct (codes_success P _ _ _ _ _ _ (get_district_codes_run P (JStr cc) st) H1)
    as (r1 & Hr1 & Hl1 & Hlog1).
  unfold bind at 1, lift at 1.
  destruct (find_code dn l1) as [dc|e] eqn:Hfd; [|discriminate].
  destruct (code_missing dc) eqn:Hdc; [discriminate|].
  apply code_missing_false in Hdc. destruct Hdc as (dcode & -> & Hdt).
  cbn [code_value]. unfold bind at 1.
  destruct (get_dong_codes P dcode st1) as [[l2|e] st2] eqn:H2; [|discriminate].
  destruct (codes_success P _ _ _ _ _ _ (get_dong_codes_run P dcode st1) H2)
    as (r2 & Hr2 & Hl2 & Hlog2).
  unfold bind at 1, lift at 1.
  destruct (find_code gn l2) as [ac|e] eqn:Hfg; [|discriminate].
  destruct (code_missing ac) eqn:Hac; [discriminate|].
  apply code_missing_false in Hac. destruct Hac as (acode & -> & Hat).
  cbn [code_value]. unfold ret. intros H. injection H as <- <-.
  exists cc, cn, dn, gn, r1, l1, dcode, r2, l2.
  repeat (split; [assumption || reflexivity|]).
  now rewrite Hlog2, Hlog1, <- app_assoc.
Qed.

Lemma request_broker_run (P : Portal) (data : dict) (st : pstate P) :
  request_broker P data st =
  (match fst (post_broker P data (p_world st)) with
   | inr text => Return text
   | inl e => Throw e
   end,
   {| p_world := snd (post_broker P data (p_world st));
      p_log := p_log st ++
        [BrokerRequest data (fst (post_broker P data (p_world st)))] |}).
Proof.
  unfold request_broker.
  destruct (post_broker P data (p_world st)) as [[e|text] w]; reflexivity.
Qed.

(** What a successful [verify_license] has done. *)
Lemma verify_license_success (P : Portal) (a o l : pystr) (st st' : pstate P)
      (verified : bool) :
  verify_license P a o l st = (Return verified, st') ->
  exists city_code city_name district_name dong_name
         r1 l1 district_code r2 l2 admin_code r3 l3 found page,
    parse_address P a = Return (city_code, city_name, district_name, dong_name) /\
    fst (post_codes P (JStr city_code) (p_world st)) = inr r1 /\
    code_list_of r1 = Some l1 /\
    find_code district_name l1 = Return (Some district_code) /\
    py_truthy district_code = true /\
    code_list_of r2 = Some l2 /\
    find_code dong_name l2 = Return (Some admin_code) /\
    py_truthy admin_code = true /\
    code_list_of r3 = Some l3 /\
    find_code district_name l3 = Return found /\
    p_log st' = p_log st ++
      [CodesRequest (JStr city_code) (inr r1);
       CodesRequest district_code (inr r2);
       CodesRequest (JStr city_code) (inr r3);
       BrokerRequest
         (broker_data admin_code city_code
            (if code_missing found then JStr (city_code ++ str "00")
             else code_value found) o l)
         (inr page)] /\
    verified = str_contains page ONE_FOUND.
Proof.
  unfold verify_license, try_except at 1, bind at 1.
  destruct (get_administrative_code P a st) as [[admin|e] st1] eqn:Ha; [|discriminate].
  apply get_administrative_code_success in Ha.
  destruct Ha as (cc & cn & dn & gn & r1 & l1 & dcode & r2 & l2 &
                  Hparse & Hr1 & Hl1 & Hfd & Hdt & Hl2 & Hfg & Hat & Hlog1).
  unfold bind at 1, lift at 1. rewrite Hparse.
  unfold bind at 1.
  destruct (get_district_codes P (JStr cc) st1) as [[l3|e] st2] eqn:H3; [|discriminate].
  destruct (codes_success P _ _ _ _ _ _ (get_district_codes_run P (JStr cc) st1) H3)
    as (r3 & Hr3 & Hl3 & Hlog3).
  unfold bind at 1, lift at 1.
  destruct (find_code dn l3) as [found|e] eqn:Hf3; [|discriminate].
  unfold bind at 1. rewrite request_broker_run.
  destruct (fst (post_broker P _ (p_world st2))) as [e|page] eqn:Hb; [discriminate|].
  unfold ret. intros H. injection H as <- <-.
  exists cc, cn, dn, gn, r1, l1, dcode, r2, l2, admin, r3, l3, found, page.
  repeat (split; [assumption || reflexivity|]).
  split; [|reflexivity].
  cbn [p_log]. now rewrite Hlog3, Hlog1, <- !app_assoc.
Qed.

Lemma get_license_verify (P : Portal) (request : LicenseRequest)
      (st st' : pstate P) (verified : bool) :
  get_license P request st = (Return verified, st') ->
  verify_license P (address request) (officename request) (licensenumber request) st
  = (Return verified, st').
Proof.
  unfold get_license.
  destruct (verify_license P _ _ _ st) as [[v|e] st1]; [intros H; exact H|].
  destruct e; discriminate.
Qed.

(** [verify_license] and [get_license], lines 506-592: a verification that
    succeeds has made exactly four requests, in this order: the districts of
    the city, the neighbourhoods of the district found, the districts of the
    city once more, and the broker search, whose form carries the city code,
    the neighbourhood code found (twice) and the office name and license
    number as given; the answer tells whether the page holds the text of
    exactly one broker found. *)
Theorem get_license_requests (P : Portal) (request : LicenseRequest)
        (st st' : pstate P) (verified : bool) :
  get_license P request st = (Return verified, st') ->
  exists city_code district_code admin_code sigungu r1 r2 r3 page,
    p_log st' = p_log st ++
      [CodesRequest (JStr city_code) (inr r1);
       CodesRequest district_code (inr r2);
       CodesRequest (JStr city_code) (inr r3);
       BrokerRequest
         (broker_data admin_code city_code sigungu
                      (officename request) (licensenumber request))
         (inr page)] /\
    py_truthy district_code = true /\ py_truthy admin_code = true /\
    verified = str_contains page ONE_FOUND.
Proof.
  intros H. apply get_license_verify, verify_license_success in H.
  destruct H as (cc & cn & dn & gn & r1 & l1 & dcode & r2 & l2 & admin & r3 & l3 &
                 found & page & _ & _ & _ & _ & Hdt & _ & _ & Hat & _ & _ & Hlog & Hv).
  exists cc, dcode, admin,
    (if code_missing found then JStr (cc ++ str "00") else code_value found),
    r1, r2, r3, page.
  auto.
Qed.

Lemma get_license_requests_witness :
  exists city_code district_code admin_code sigungu r1 r2 r3 page,
    p_log (snd (get_license found_portal demo_request (Build_pstate found_portal tt []))) =
    [] ++
      [CodesRequest (JStr city_code) (inr r1);
       CodesRequest district_code (inr r2);
       CodesRequest (JStr city_code) (inr r3);
       BrokerRequest
         (broker_data admin_code city_code sigungu
                      (officename demo_request) (licensenumber demo_request))
         (inr page)] /\
    py_truthy district_code = true /\ py_truthy admin_code = true /\
    true = str_contains page ONE_FOUND.
Proof.
  apply (get_license_requests found_portal demo_request
           (Build_pstate found_portal tt [])).
  vm_compute. reflexivity.
Defined.

(** Lines 515-525: when the portal answers the second request for the
    districts as it answered the first, the default [city_code + "00"] is
    never used: the district code sent with the broker search is the one
    found by the first lookup. *)
Theorem district_default_is_unused (P : Portal) (request : LicenseRequest)
        (st st' : pstate P) (verified : bool) :
  get_license P request st = (Return verified, st') ->
  (forall v r1 r3 before after,
     p_log st' = p_log st ++ CodesRequest v (inr r1) :: before ++
                 CodesRequest v (inr r3) :: after ->
     r3 = r1) ->
  exists city_code district_code r1 r2 data page,
    p_log st' = p_log st ++
      [CodesRequest (JStr city_code) (inr r1);
       CodesRequest district_code (inr r2);
       CodesRequest (JStr city_code) (inr r1);
       BrokerRequest data (inr page)] /\
    dict_get data (str "sigunguCd") = Some district_code /\
    dict_get data (str "sidoCd") = Some (JStr city_code).
Proof.
  intros H Hsame. apply get_license_verify, verify_license_success in H.
  destruct H as (cc & cn & dn & gn & r1 & l1 & dcode & r2 & l2 & admin & r3 & l3 &
                 found & page & _ & _ & Hl1 & Hfd & Hdt & _ & _ & _ & Hl3 & Hf3 & Hlog & _).
  assert (Hr : r3 = r1).
  { apply (Hsame (JStr cc) r1 r3 [CodesRequest dcode (inr r2)]
                 [BrokerRequest
                    (broker_data admin cc
                       (if code_missing found then JStr (cc ++ str "00")
                        else code_value found)
                       (officename request) (licensenumber request)) (inr page)]).
    exact Hlog. }
  subst r3. rewrite Hl1 in Hl3. injection Hl3 as <-.
  rewrite Hfd in Hf3. injection Hf3 as <-.
  cbn [code_missing code_value] in Hlog. rewrite Hdt in Hlog. cbn [negb] in Hlog.
  eexists cc, dcode, r1, r2, _, page. split; [exact Hlog|].
  split; reflexivity.
Qed.

Lemma district_default_is_unused_witness :
  exists city_code district_code r1 r2 data page,
    p_log (snd (get_license found_portal demo_request (Build_pstate found_portal tt []))) =
    [] ++
      [CodesRequest (JStr city_code) (inr r1);
       CodesRequest district_code (inr r2);
       CodesRequest (JStr city_code) (inr r1);
       BrokerRequest data (inr page)] /\
    dict_get data (str "sigunguCd") = Some district_code /\
    dict_get data (str "sidoCd") = Some (JStr city_code).
Proof.
  apply (district_default_is_unused found_portal demo_request
           (Build_pstate found_portal tt []) _ true).
  - vm_compute. reflexivity.
  - intros v r1 r3 before after H. vm_compute in H.
    injection H as Hv Hr1 H. subst v r1.
    destruct before as [|b1 before]; cbn [app] in H; [discriminate|].
    injection H as _ H.
    destruct before as [|b2 before]; cbn [app] in H.
    + now injection H as ->.
    + injection H as _ H.
      destruct before as [|b3 before]; cbn [app] in H; [discriminate|].
      injection H as _ H. destruct before; discriminate.
Defined.

(** ** Errors of the license endpoint *)

Lemma verify_license_throws (P : Portal) (a o l : pystr) (st st' : pstate P)
      (e : error) :
  verify_license P a o l st = (Throw e, st') ->
  exists cause, e = HTTPException 400 (str "라이선스 검증 실패: " ++ error_str P cause).
Proof.
  unfold verify_license, try_except at 1.
  match goal with
  | |- context [match ?c st with _ => _ end] => destruct (c st) as [[v|cause] st1]
  end.
  - discriminate.
  - unfold throw. intros H. injection H as <- _. now exists cause.
Qed.

(** [get_license], lines 582-592: the endpoint answers with a verdict or
    with status 400; the handler for status 500 is never reached, and a
    failure of the portal comes out as a 400. *)
Theorem get_license_statuses (P : Portal) (request : LicenseRequest) (st : pstate P) :
  match fst (get_license P request st) with
  | Return _ => True
  | Throw e =>
    exists cause,
      e = HTTPException 400 (str "라이선스 검증 실패: " ++ error_str P cause)
  end.
Proof.
  unfold get_license.
  destruct (verify_license P (address request) (officename request)
                           (licensenumber request) st) as [[v|e] st1] eqn:Hv.
  - exact I.
  - destruct (verify_license_throws P _ _ _ _ _ _ Hv) as [cause ->].
    cbn [fst]. now exists cause.
Qed.

Lemma get_administrative_code_portal_failure (P : Portal) (a city_code city_name : pystr)
      (district_name dong_name : option pystr) (st : pstate P) (e : error) :
  parse_address P a = Return (city_code, city_name, district_name, dong_name) ->
  fst (post_codes P (JStr city_code) (p_world st)) = inl e ->
  get_administrative_code P a st =
  (Throw (HTTPException 400
            (str "행정구역 코드 획득 실패: " ++
             error_str P (HTTPException 500
                            (str "구 코드 조회 실패: " ++ error_str P e)))),
   {| p_world := snd (post_codes P (JStr city_code) (p_world st));
      p_log := p_log st ++ [CodesRequest (JStr city_code) (inl e)] |}).
Proof.
  intros Hparse He.
  unfold get_administrative_code, try_except at 1, bind at 1, lift at 1.
  rewrite Hparse. unfold bind at 1.
  rewrite get_district_codes_run, He. reflexivity.
Qed.

(** Lines 97-113, 133-167 and 506-580: when the request for the districts
    fails at the portal, [get_district_codes] raises status 500, which
    [get_administrative_code] and then [verify_license] each wrap into a
    status 400: the endpoint answers 400, after that single request. *)
Theorem portal_failure_is_400 (P : Portal) (request : LicenseRequest)
        (city_code city_name : pystr) (district_name dong_name : option pystr)
        (st : pstate P) (e : error) :
  parse_address P (address request) =
    Return (city_code, city_name, district_name, dong_name) ->
  fst (post_codes P (JStr city_code) (p_world st)) = inl e ->
  fst (get_district_codes P (JStr city_code) st) =
    Throw (HTTPException 500 (str "구 코드 조회 실패: " ++ error_str P e)) /\
  get_license P request st =
  (Throw (HTTPException 400
     (str "라이선스 검증 실패: " ++
      error_str P (HTTPException 400
        (str "행정구역 코드 획득 실패: " ++
         error_str P (HTTPException 500
           (str "구 코드 조회 실패: " ++ error_str P e)))))),
   {| p_world := snd (post_codes P (JStr city_code) (p_world st));
      p_log := p_log st ++ [CodesRequest (JStr city_code) (inl e)] |}).
Proof.
  intros Hparse He. split.
  - now rewrite get_district_codes_run, He.
  - unfold get_license, verify_license, try_except at 1, bind at 1.
    rewrite (get_administrative_code_portal_failure P _ _ _ _ _ _ _ Hparse He).
    reflexivity.
Qed.

Lemma portal_failure_is_400_witness :
  exists detail,
    fst (get_license down_portal demo_request (Build_pstate down_portal tt [])) =
    Throw (HTTPException 400 detail).
Proof.
  eexists.
  rewrite (proj2 (portal_failure_is_400 down_portal demo_request
                    (str "11") (str "서울특별시") (Some (str "강남구"))
                    (Some (str "역삼동")) (Build_pstate down_portal tt [])
                    (RequestError (str "503 Server Error")) eq_refl eq_refl)).
  reflexivity.
Defined.

(** ** The search for a code *)

(** [get_administrative_code], lines 143-146 and 155-158: the code found is
    the ["cd"] of the first entry, in the order of the list, whose ["nm"]
    holds the name; no entry before it holds the name, and the entries
    after it are not looked at. *)
Theorem find_in_first_match (name : pystr) (items : list json) (code : json) :
  name <> [] ->
  find_in (Some name) items = Return (Some code) ->
  exists before item after nm,
    items = before ++ item :: after /\
    py_getitem item (str "nm") = Return nm /\
    py_contains nm name = Some true /\
    py_getitem item (str "cd") = Return code /\
    Forall (fun x => exists nm', py_getitem x (str "nm") = Return nm' /\
                                 py_contains nm' name = Some false) before /\
    forall after', find_in (Some name) (before ++ item :: after') = Return (Some code).
Proof.
  intros Hne. destruct name as [|c name]; [contradiction|]. clear Hne.
  induction items as [|x items IH]; cbn [find_in]; intros H; [discriminate|].
  destruct (py_getitem x (str "nm")) as [nm|e] eqn:Hnm; [|discriminate].
  destruct (py_contains nm (c :: name)) as [[|]|] eqn:Hc; [| |discriminate].
  - destruct (py_getitem x (str "cd")) as [cd|e] eqn:Hcd; [|discriminate].
    injection H as ->. exists [], x, items, nm.
    split; [reflexivity|]. split; [exact Hnm|]. split; [exact Hc|].
    split; [exact Hcd|]. split; [constructor|].
    intros after'. cbn [app find_in]. now rewrite Hnm, Hc, Hcd.
  - destruct (IH H) as (before & item & after & nm0 & -> & Hn0 & Hc0 & Hcd0 & HF & Hany).
    exists (x :: before), item, after, nm0.
    split; [reflexivity|]. split; [exact Hn0|]. split; [exact Hc0|].
    split; [exact Hcd0|]. split; [constructor; [now exists nm|exact HF]|].
    intros after'. cbn [app find_in]. rewrite Hnm, Hc. apply Hany.
Qed.

Lemma find_in_first_match_witness :
  exists before item after nm,
    [code_entry "11110" "서울특별시 종로구"; code_entry "11680" "서울특별시 강남구"] =
      before ++ item :: after /\
    py_getitem item (str "nm") = Return nm /\
    py_contains nm (str "강남구") = Some true /\
    py_getitem item (str "cd") = Return (JStr (str "11680")) /\
    Forall (fun x => exists nm', py_getitem x (str "nm") = Return nm' /\
                                 py_contains nm' (str "강남구") = Some false) before /\
    forall after',
      find_in (Some (str "강남구")) (before ++ item :: after') =
      Return (Some (JStr (str "11680"))).
Proof.
  apply find_in_first_match.
  - discriminate.
  - vm_compute. reflexivity.
Defined.

(** ** Addresses and answers without a district *)

Lemma find_in_no_name (items : list json) : find_in None items = Return None.
Proof. induction items as [|x items IH]; [reflexivity|exact IH]. Qed.

(** [get_administrative_code], lines 140-149: for an address in which no
    district is found after the city, the list of districts is requested
    all the same, its entries are not looked at, and the call fails with
    status 400, naming the district [None]; no further request is made. *)
Theorem no_district_is_not_found (P : Portal) (a city_code city_name : pystr)
        (dong_name : option pystr) (st : pstate P) (answer : json) (items : list json) :
  parse_address P a = Return (city_code, city_name, None, dong_name) ->
  fst (post_codes P (JStr city_code) (p_world st)) = inr answer ->
  code_list_of answer = Some (JArr items) ->
  get_administrative_code P a st =
  (Throw (HTTPException 400
            (str "행정구역 코드 획득 실패: " ++
             error_str P (ValueError (str "구/군을 찾을 수 없습니다: " ++ str "None")))),
   {| p_world := snd (post_codes P (JStr city_code) (p_world st));
      p_log := p_log st ++ [CodesRequest (JStr city_code) (inr answer)] |}).
Proof.
  intros Hparse Ha Hl.
  unfold get_administrative_code, try_except at 1, bind at 1, lift at 1.
  rewrite Hparse. unfold bind at 1.
  rewrite get_district_codes_run, Ha, Hl.
  unfold bind at 1, lift at 1, find_code. cbn [py_iter].
  rewrite find_in_no_name. reflexivity.
Qed.

Lemma no_district_is_not_found_witness :
  exists detail st',
    get_administrative_code found_portal (str "서울 역삼동")
                            (Build_pstate found_portal tt []) =
    (Throw (HTTPException 400 detail), st') /\
    length (p_log st') = 1%nat.
Proof.
  eexists _, _. split.
  - apply (no_district_is_not_found found_portal (str "서울 역삼동")
             (str "11") (str "서울") (Some (str "역삼동"))
             (Build_pstate found_portal tt [])
             (JObj [(str "codeList",
                     JArr [code_entry "11110" "서울특별시 종로구";
                           code_entry "11680" "서울특별시 강남구"])])
             [code_entry "11110" "서울특별시 종로구";
              code_entry "11680" "서울특별시 강남구"]).
    + vm_compute. reflexivity.
    + reflexivity.
    + reflexivity.
  - reflexivity.
Defined.

(** Lines 109-110 and 140-149: an answer of the portal that is an object
    without the key ["codeList"] counts as an empty list: whatever the
    district looked for, it is not found and the call fails with status
    400. *)
Theorem missing_code_list_is_not_found (P : Portal) (a city_code city_name : pystr)
        (district_name dong_name : option pystr) (st : pstate P) (d : dict) :
  parse_address P a = Return (city_code, city_name, district_name, dong_name) ->
  fst (post_codes P (JStr city_code) (p_world st)) = inr (JObj d) ->
  dict_get d (str "codeList") = None ->
  fst (get_district_codes P (JStr city_code) st) = Return (JArr []) /\
  get_administrative_code P a st =
  (Throw (HTTPException 400
            (str "행정구역 코드 획득 실패: " ++
             error_str P (ValueError (str "구/군을 찾을 수 없습니다: " ++
                                     format_name district_name)))),
   {| p_world := snd (post_codes P (JStr city_code) (p_world st));
      p_log := p_log st ++ [CodesRequest (JStr city_code) (inr (JObj d))] |}).
Proof.
  intros Hparse Ha Hd.
  assert (Hl : code_list_of (JObj d) = Some (JArr []))
    by (unfold code_list_of; now rewrite Hd).
  split; [now rewrite get_district_codes_run, Ha, Hl|].
  unfold get_administrative_code, try_except at 1, bind at 1, lift at 1.
  rewrite Hparse. unfold bind at 1.
  rewrite get_district_codes_run, Ha, Hl.
  unfold bind at 1, lift at 1, find_code. cbn [py_iter find_in].
  reflexivity.
Qed.

Lemma missing_code_list_is_not_found_witness :
  exists detail st',
    get_administrative_code bare_portal gangnam (Build_pstate bare_portal tt []) =
    (Throw (HTTPException 400 detail), st') /\
    length (p_log st') = 1%nat.
Proof.
  eexists _, _. split.
  - apply (proj2 (missing_code_list_is_not_found bare_portal gangnam
                    (str "11") (str "서울특별시") (Some (str "강남구"))
                    (Some (str "역삼동")) (Build_pstate bare_portal tt []) []
                    eq_refl eq_refl eq_refl)).
  - reflexivity.
Defined.
